(** * dataset.py: sliding-window sampling and frame extraction

    A shallow embedding of [src/dataset.py]: the two map-style datasets
    [MultiVideoAnomalyDataset] and [SingleVideoAnomalyDataset], their
    constructors (annotation loading, frame-count query, sliding-window
    indexing and overlap labelling) and their [__len__] / [__getitem__].

    Python values that the code handles dynamically (the parsed JSON record,
    the ROI tuple) are kept as values of a small [json] type together with
    the exceptions Python raises on them.  The video decoder, the file
    system, [glob], [os.path] and the interpolation kernel of [cv2.resize]
    are collaborators outside the repository: they are the fields of a
    [Platform] record.  Decoder handles live in an explicit table that is
    threaded through every operation, so that an exception leaves the table
    as it was at the raise point. *)

From Stdlib Require Import String Ascii.
From Stdlib Require Import ZArith List Bool Lia Permutation Sorted.
From Stdlib Require Import Strings.Byte.
From Stdlib Require Import Floats.SpecFloat.
Import ListNotations.
Open Scope Z_scope.
Set Warnings "-register-all".

(* ================================================================== *)
(** ** Floating-point values *)

(** Python [float] is IEEE binary64, [torch.float] is binary32.  Both are
    [spec_float] values, with the operations of [SpecFloat] at the
    corresponding precision and exponent bound. *)
Module F64.
Definition prec : Z := 53.
Definition emax : Z := 1024.
Definition zero : spec_float := S754_zero false.          (* 0.0 *)
Definition one  : spec_float := SFone prec emax.           (* 1.0 *)
Definition of_Z (z : Z) : spec_float := binary_normalize prec emax z 0 false.
(** [m * 2^e] *)
Definition scaled (m e : Z) : spec_float := binary_normalize prec emax m e false.
End F64.

Module F32.
Definition prec : Z := 24.
Definition emax : Z := 128.
Definition of_Z (z : Z) : spec_float := binary_normalize prec emax z 0 false.
Definition zero : spec_float := S754_zero false.
Definition one  : spec_float := SFone prec emax.
Definition div : spec_float -> spec_float -> spec_float := SFdiv prec emax.
(** Rounding of a binary64 value to binary32 ([dtype=torch.float],
    and the Python scalar [255.0] entering a float32 division). *)
Definition of_f64 (x : spec_float) : spec_float :=
  match x with
  | S754_finite s m e => binary_normalize prec emax (cond_Zopp s (Zpos m)) e s
  | _ => x
  end.
Definition leb : spec_float -> spec_float -> bool := SFleb.
End F32.

(* ================================================================== *)
(** ** Exceptions *)

Inductive exn : Type :=
| KeyError (key : string)
| TypeError
| ValueError
| AttributeError
| OverflowError
| IndexError
| FileNotFoundError
| JSONDecodeError
| RuntimeError
| CvError.

Inductive outcome (A : Type) : Type :=
| Ok (a : A)
| Raise (e : exn).
Arguments Ok {A} a.
Arguments Raise {A} e.

Definition is_ok {A} (o : outcome A) : bool :=
  match o with Ok _ => true | Raise _ => false end.

(** Pure code that can raise. *)
Definition obind {A B} (o : outcome A) (k : A -> outcome B) : outcome B :=
  match o with Ok a => k a | Raise e => Raise e end.

Fixpoint omap {A B} (f : A -> outcome B) (l : list A) : outcome (list B) :=
  match l with
  | [] => Ok []
  | x :: rest =>
      obind (f x) (fun y => obind (omap f rest) (fun ys => Ok (y :: ys)))
  end.

(* ================================================================== *)
(** ** Parsed JSON values and the Python operations applied to them *)

Inductive json : Type :=
| JNull
| JBool (b : bool)
| JInt (z : Z)
| JFloat (f : spec_float)           (* a Python float, binary64 *)
| JStr (s : string)
| JList (l : list json)
| JDict (kvs : list (string * json)). (* in insertion order, each key once *)

Fixpoint dict_lookup (k : string) (kvs : list (string * json)) : option json :=
  match kvs with
  | [] => None
  | (k', v) :: rest => if String.eqb k k' then Some v else dict_lookup k rest
  end.

(** [obj[key]] with a string key. *)
Definition py_getitem (obj : json) (key : string) : outcome json :=
  match obj with
  | JDict kvs =>
      match dict_lookup key kvs with
      | Some v => Ok v
      | None => Raise (KeyError key)
      end
  | _ => Raise TypeError
  end.

(** [obj.get(key, default)]: only a dict has the method.  The default is an
    arbitrary Python object, so the result is either a value found in the
    record or the default itself. *)
Definition py_get {D} (obj : json) (key : string) (default : D)
  : outcome (json + D) :=
  match obj with
  | JDict kvs =>
      match dict_lookup key kvs with
      | Some v => Ok (inl v)
      | None => Ok (inr default)
      end
  | _ => Raise AttributeError
  end.

Fixpoint chars (s : string) : list json :=
  match s with
  | EmptyString => []
  | String c rest => JStr (String c EmptyString) :: chars rest
  end.

(** The items Python iteration yields: the elements of a list, the
    one-character strings of a string, the keys of a dict. *)
Definition py_iter (v : json) : outcome (list json) :=
  match v with
  | JList l => Ok l
  | JStr s => Ok (chars s)
  | JDict kvs => Ok (map (fun kv => JStr (fst kv)) kvs)
  | _ => Raise TypeError
  end.

(** [tuple(v)] *)
Definition py_tuple (v : json) : outcome (list json) := py_iter v.

(** [a, b = v] *)
Definition unpack2 (v : json) : outcome (json * json) :=
  obind (py_iter v) (fun items =>
    match items with
    | [a; b] => Ok (a, b)
    | _ => Raise ValueError
    end).

(** [int(x)] on a float truncates towards zero. *)
Definition trunc_float (f : spec_float) : outcome Z :=
  match f with
  | S754_zero _ => Ok 0
  | S754_finite s m e =>
      Ok (cond_Zopp s (if 0 <=? e then Z.shiftl (Zpos m) e
                       else Z.shiftr (Zpos m) (- e)))
  | S754_infinity _ => Raise OverflowError
  | S754_nan => Raise ValueError
  end.

(* ================================================================== *)
(** ** Frames, crops and tensors *)

(** A decoded frame is a height x width x 3 array of [uint8], channel-last,
    in the decoder's native B, G, R order. *)
Definition pixel : Type := (byte * byte * byte)%type.
Definition image : Type := list (list pixel).

Definition ch0 (p : pixel) : byte := fst (fst p).
Definition ch1 (p : pixel) : byte := snd (fst p).
Definition ch2 (p : pixel) : byte := snd p.

(** Python slice bounds for a sequence of length [len] and step 1. *)
Definition slice_bound (len default : Z) (i : option Z) : Z :=
  match i with
  | None => default
  | Some z => if z <? 0 then Z.max 0 (z + len) else Z.min z len
  end.

Definition py_slice {A} (lo hi : option Z) (l : list A) : list A :=
  let n := Z.of_nat (length l) in
  let a := slice_bound n 0 lo in
  let b := slice_bound n n hi in
  firstn (Z.to_nat (b - a)) (skipn (Z.to_nat a) l).

(** A slice bound must be [None] or have [__index__]. *)
Definition as_index (v : json) : outcome (option Z) :=
  match v with
  | JNull => Ok None
  | JInt z => Ok (Some z)
  | JBool b => Ok (Some (if b then 1 else 0))
  | _ => Raise TypeError
  end.

(** [img[y1:y2, x1:x2]] *)
Definition crop_roi (img : image) (x1 y1 x2 y2 : json) : outcome image :=
  obind (as_index y1) (fun iy1 =>
  obind (as_index y2) (fun iy2 =>
  obind (as_index x1) (fun ix1 =>
  obind (as_index x2) (fun ix2 =>
  Ok (map (py_slice ix1 ix2) (py_slice iy1 iy2 img)))))).

Definition img_empty (img : image) : bool :=
  match img with
  | [] => true
  | [] :: _ => true
  | _ => false
  end.

(** [cv2.cvtColor(patch, cv2.COLOR_BGR2RGB)] *)
Definition cvtColor_BGR2RGB (img : image) : image :=
  map (map (fun p : pixel => (ch2 p, ch1 p, ch0 p))) img.

Definition tensor3 : Type := list (list (list spec_float)).
Definition tensor4 : Type := list tensor3.

(** The Python scalar [255.0] as it enters a float32 division. *)
Definition f255 : spec_float := F32.of_f64 (F64.of_Z 255).

Definition byte_to_f32 (b : byte) : spec_float :=
  F32.of_Z (Z.of_N (Byte.to_N b)).

(** [torch.from_numpy(patch).permute(2,0,1).float().div(255.0)] *)
Definition to_tensor (patch : image) : tensor3 :=
  map (fun ch => map (map (fun p => F32.div (byte_to_f32 (ch p)) f255)) patch)
      [ch0; ch1; ch2].

(** [t.shape] of a frame tensor. *)
Definition shape3 (t : tensor3) : list nat :=
  [length t; length (hd [] t); length (hd [] (hd [] t))].

(** [torch.stack(frames, dim=0)]: an empty list of tensors and tensors of
    different sizes are both errors. *)
Definition torch_stack (frames : list tensor3) : outcome tensor4 :=
  match frames with
  | [] => Raise RuntimeError
  | t0 :: rest =>
      if forallb (fun t => if list_eq_dec Nat.eq_dec (shape3 t) (shape3 t0)
                           then true else false) rest
      then Ok frames
      else Raise RuntimeError
  end.

(** Rectangular nested lists of the given sizes. *)
Definition has_shape2 {A} (h w : nat) (m : list (list A)) : bool :=
  (length m =? h)%nat && forallb (fun r => (length r =? w)%nat) m.

Definition has_shape3 {A} (c h w : nat) (t : list (list (list A))) : bool :=
  (length t =? c)%nat && forallb (has_shape2 h w) t.

Definition has_shape4 {A} (k c h w : nat) (s : list (list (list (list A))))
  : bool :=
  (length s =? k)%nat && forallb (has_shape3 c h w) s.

Definition in_unit_interval (x : spec_float) : bool :=
  F32.leb F32.zero x && F32.leb x F32.one.

Definition all_in_unit_interval (s : tensor4) : bool :=
  forallb (forallb (forallb (forallb in_unit_interval))) s.

(** The optional [transform] callable. *)
Definition transform_t : Type := option (tensor4 -> outcome tensor4).

(* ================================================================== *)
(** ** The platform: file system, decoder, library functions *)

(** A video container: the frame count its metadata reports (what
    [int(cap.get(cv2.CAP_PROP_FRAME_COUNT))] evaluates to) and the frames
    that actually decode, in order. *)
Record Video : Type := {
  frame_count : Z;
  frames : list image
}.

Inductive file_content : Type :=
| NoSuchFile
| NotJson
| Parsed (v : json).

Record Platform : Type := {
  glob_glob : string -> list string;
  os_path_join : string -> string -> string;
  os_path_dirname : string -> string;
  os_path_basename : string -> string;
  os_path_splitext : string -> string * string;
  fs_file : string -> file_content;
  fs_video : string -> option Video;
  int_of_str : string -> option Z;
  cv2_interp : image -> nat * nat -> image
}.

Section Conversions.
Variable P : Platform.

(** [int(v)]; on a string it is the interpreter's parser, taken from the
    platform. *)
Definition py_int (v : json) : outcome Z :=
  match v with
  | JInt z => Ok z
  | JBool b => Ok (if b then 1 else 0)
  | JFloat f => trunc_float f
  | JStr s =>
      match int_of_str P s with Some z => Ok z | None => Raise ValueError end
  | _ => Raise TypeError
  end.

(** One step of [for s, e in ...: (int(s), int(e))]. *)
Definition parse_range (v : json) : outcome (Z * Z) :=
  obind (unpack2 v) (fun se =>
  obind (py_int (fst se)) (fun s =>
  obind (py_int (snd se)) (fun e => Ok (s, e)))).

(** [item['annotations']['event_frame']] converted to integer pairs. *)
Definition load_event_frame (item : json) : outcome (list (Z * Z)) :=
  obind (py_getitem item "annotations") (fun ann =>
  obind (py_getitem ann "event_frame") (fun ef =>
  obind (py_iter ef) (omap parse_range))).

(** [tuple(item['annotations'].get('roi', default_roi))]; the default is
    already a tuple. *)
Definition load_roi (item : json) (default_roi : list json)
  : outcome (list json) :=
  obind (py_getitem item "annotations") (fun ann =>
  obind (py_get ann "roi" default_roi) (fun r =>
  match r with
  | inl v => py_tuple v
  | inr d => Ok d
  end)).

(** [with open(ann_path, 'r') as f: item = json.load(f)] *)
Definition json_load (ann_path : string) : outcome json :=
  match fs_file P ann_path with
  | NoSuchFile => Raise FileNotFoundError
  | NotJson => Raise JSONDecodeError
  | Parsed v => Ok v
  end.

(** [cv2.resize(crop, (256, 256))]: an empty source is an error of the
    library, otherwise the platform's interpolation produces the patch. *)
Definition cv2_resize (crop : image) (dsize : nat * nat) : outcome image :=
  if img_empty crop then Raise CvError else Ok (cv2_interp P crop dsize).

(** The body of the read loop after a successful read. *)
Definition process_frame (img : image) (x1 y1 x2 y2 : json)
  : outcome tensor3 :=
  obind (crop_roi img x1 y1 x2 y2) (fun crop =>
  obind (cv2_resize crop (256%nat, 256%nat)) (fun patch =>
  Ok (to_tensor (cvtColor_BGR2RGB patch)))).

End Conversions.

(* ================================================================== *)
(** ** The sample indexer *)

(** [range(lo, hi)] *)
Definition py_range (lo hi : Z) : list Z :=
  map (fun i => lo + Z.of_nat i) (seq 0 (Z.to_nat (hi - lo))).

(** The inner loop: [label = 0.0], then the first range with
    [not (end < s or start > e)] sets [label = 1.0] and breaks. *)
Fixpoint label_loop (start end_ : Z) (anomaly_frames : list (Z * Z))
  : spec_float :=
  match anomaly_frames with
  | [] => F64.zero
  | (s, e) :: rest =>
      if negb ((end_ <? s) || (start >? e)) then F64.one
      else label_loop start end_ rest
  end.

Definition window_label (seq_len : Z) (anomaly_frames : list (Z * Z))
  (start : Z) : spec_float :=
  let end_ := start + seq_len - 1 in
  label_loop start end_ anomaly_frames.

(** The outer loop, appending one entry per start to [samples];
    [mk] builds the tuple that the dataset stores. *)
Definition index_windows {S} (mk : Z -> spec_float -> S)
  (nframes seq_len : Z) (anomaly_frames : list (Z * Z)) (samples : list S)
  : list S :=
  fold_left
    (fun acc start => acc ++ [mk start (window_label seq_len anomaly_frames start)])
    (py_range 0 (nframes - seq_len + 1))
    samples.

(** The (start, label) pairs of one video. *)
Definition sample_indexer (frame_count seq_len : Z)
  (anomaly_frames : list (Z * Z)) : list (Z * spec_float) :=
  index_windows (fun start label => (start, label))
    frame_count seq_len anomaly_frames [].

(* ================================================================== *)
(** ** Decoder handles *)

Record Capture : Type := {
  cap_src : option Video;
  cap_pos : Z;
  cap_opened : bool
}.

Definition handles : Type := list Capture.

(** Computations over the handle table that may raise; the table after a
    raise is the one at the raise point. *)
Definition M (A : Type) : Type := handles -> outcome A * handles.

Definition ret {A} (a : A) : M A := fun hs => (Ok a, hs).

Definition bind {A B} (m : M A) (k : A -> M B) : M B :=
  fun hs =>
    match m hs with
    | (Ok a, hs') => k a hs'
    | (Raise e, hs') => (Raise e, hs')
    end.

Definition lift {A} (o : outcome A) : M A := fun hs => (o, hs).

Declare Scope m_scope.
Delimit Scope m_scope with M.
Notation "x <- c ;; k" := (bind c (fun x => k))
  (at level 100, c at next level, right associativity) : m_scope.
Notation "c ;;; k" := (bind c (fun _ => k))
  (at level 100, right associativity) : m_scope.

Fixpoint update_nth {A} (n : nat) (f : A -> A) (l : list A) : list A :=
  match l, n with
  | [], _ => []
  | x :: rest, O => f x :: rest
  | x :: rest, S n' => x :: update_nth n' f rest
  end.

Definition open_handles (hs : handles) : nat :=
  List.length (filter cap_opened hs).

Section Decoder.
Variable P : Platform.

(** [cv2.VideoCapture(path)]: a new handle, opened iff the file is there. *)
Definition VideoCapture (path : string) : M nat :=
  fun hs =>
    (Ok (List.length hs),
     hs ++ [ {| cap_src := fs_video P path;
                cap_pos := 0;
                cap_opened := match fs_video P path with
                              | Some _ => true
                              | None => false
                              end |} ]).

(** [int(cap.get(cv2.CAP_PROP_FRAME_COUNT))]; 0 on a handle that is not
    open. *)
Definition cap_get_frame_count (h : nat) : M Z :=
  fun hs =>
    (Ok match nth_error hs h with
        | Some c =>
            match cap_src c with
            | Some v => if cap_opened c then frame_count v else 0
            | None => 0
            end
        | None => 0
        end, hs).

(** [cap.set(cv2.CAP_PROP_POS_FRAMES, pos)] *)
Definition cap_set_pos (h : nat) (pos : Z) : M unit :=
  fun hs =>
    (Ok tt,
     update_nth h (fun c => {| cap_src := cap_src c; cap_pos := pos;
                               cap_opened := cap_opened c |}) hs).

Definition frame_at (c : Capture) : option image :=
  match cap_src c with
  | Some v =>
      if cap_opened c && (0 <=? cap_pos c)
      then nth_error (frames v) (Z.to_nat (cap_pos c))
      else None
  | None => None
  end.

(** [ret, img = cap.read()]: [None] stands for [ret == False]. *)
Definition cap_read (h : nat) : M (option image) :=
  fun hs =>
    match nth_error hs h with
    | Some c =>
        match frame_at c with
        | Some img =>
            (Ok (Some img),
             update_nth h (fun c => {| cap_src := cap_src c;
                                       cap_pos := cap_pos c + 1;
                                       cap_opened := cap_opened c |}) hs)
        | None => (Ok None, hs)
        end
    | None => (Ok None, hs)
    end.

(** [cap.release()] *)
Definition cap_release (h : nat) : M unit :=
  fun hs =>
    (Ok tt,
     update_nth h (fun c => {| cap_src := cap_src c; cap_pos := cap_pos c;
                               cap_opened := false |}) hs).

(** The frame-count query of both constructors. *)
Definition query_frame_count (vpath : string) : M Z :=
  (cap <- VideoCapture vpath ;;
   n <- cap_get_frame_count cap ;;
   cap_release cap ;;;
   ret n)%M.

End Decoder.

(* ================================================================== *)
(** ** The two datasets *)

(** [(video_path, start_idx, label, roi)] *)
Definition msample : Type := (string * Z * spec_float * list json)%type.
(** [(video_path, start_frame_idx, label)] *)
Definition ssample : Type := (string * Z * spec_float)%type.

Record MultiVideoAnomalyDataset : Type := {
  m_seq_len : Z;
  m_default_roi : list json;
  m_transform : transform_t;
  m_samples : list msample
}.

Record SingleVideoAnomalyDataset : Type := {
  s_seq_len : Z;
  s_fps : Z;
  s_transform : transform_t;
  s_roi : list json;
  s_samples : list ssample
}.

(** [seq[idx]] on a Python list, negative indices included. *)
Definition py_index {A} (l : list A) (idx : Z) : outcome A :=
  let n := Z.of_nat (List.length l) in
  let i := if idx <? 0 then idx + n else idx in
  if (0 <=? i) && (i <? n) then
    match nth_error l (Z.to_nat i) with
    | Some x => Ok x
    | None => Raise IndexError
    end
  else Raise IndexError.

(** [x1, y1, x2, y2 = roi] *)
Definition unpack4 (roi : list json) : outcome (json * json * json * json) :=
  match roi with
  | [x1; y1; x2; y2] => Ok (x1, y1, x2, y2)
  | _ => Raise ValueError
  end.

(** [if self.transform: seq = self.transform(seq)] *)
Definition apply_transform (tr : transform_t) (seq : tensor4)
  : outcome tensor4 :=
  match tr with
  | Some f => f seq
  | None => Ok seq
  end.

Section Datasets.
Variable P : Platform.

(** The video path derived from an annotation path. *)
Definition derive_vpath (video_dir ann_path : string) : string :=
  let base := fst (os_path_splitext P (os_path_basename P ann_path)) in
  os_path_join P video_dir (base ++ ".mp4")%string.

(** The body of [for ann_path in json_paths]. *)
Definition multi_file (seq_len : Z) (default_roi : list json)
  (video_dir : string) (samples : list msample) (ann_path : string)
  : M (list msample) :=
  (item <- lift (json_load P ann_path) ;;
   roi <- lift (load_roi item default_roi) ;;
   anomaly_frames <- lift (load_event_frame P item) ;;
   let vpath := derive_vpath video_dir ann_path in
   nframes <- query_frame_count P vpath ;;
   ret (index_windows (fun start label => (vpath, start, label, roi))
          nframes seq_len anomaly_frames samples))%M.

Fixpoint multi_files (seq_len : Z) (default_roi : list json)
  (video_dir : string) (json_paths : list string) (samples : list msample)
  : M (list msample) :=
  match json_paths with
  | [] => ret samples
  | ann_path :: rest =>
      (samples' <- multi_file seq_len default_roi video_dir samples ann_path ;;
       multi_files seq_len default_roi video_dir rest samples')%M
  end.

(** [MultiVideoAnomalyDataset.__init__] *)
Definition multi_init (label_dir : string) (seq_len : Z)
  (default_roi : list json) (transform : transform_t)
  : M MultiVideoAnomalyDataset :=
  let json_paths := glob_glob P (os_path_join P label_dir "*.json") in
  let project_dir := os_path_dirname P label_dir in
  let video_dir := os_path_join P project_dir "video" in
  (samples <- multi_files seq_len default_roi video_dir json_paths [] ;;
   ret {| m_seq_len := seq_len;
          m_default_roi := default_roi;
          m_transform := transform;
          m_samples := samples |})%M.

(** [MultiVideoAnomalyDataset.__len__] *)
Definition multi_len (self : MultiVideoAnomalyDataset) : Z :=
  Z.of_nat (List.length (m_samples self)).

(** [SingleVideoAnomalyDataset.__init__] *)
Definition single_init (ann_path : string) (seq_len fps : Z)
  (roi : list json) (transform : transform_t)
  : M SingleVideoAnomalyDataset :=
  (item <- lift (json_load P ann_path) ;;
   let label_dir := os_path_dirname P ann_path in
   let project_dir := os_path_dirname P label_dir in
   let video_dir := os_path_join P project_dir "video" in
   let video_path := derive_vpath video_dir ann_path in
   frame_count <- query_frame_count P video_path ;;
   anomaly_frames <- lift (load_event_frame P item) ;;
   ret {| s_seq_len := seq_len;
          s_fps := fps;
          s_transform := transform;
          s_roi := roi;
          s_samples :=
            index_windows (fun start label => (video_path, start, label))
              frame_count seq_len anomaly_frames [] |})%M.

(** [SingleVideoAnomalyDataset.__len__] *)
Definition single_len (self : SingleVideoAnomalyDataset) : Z :=
  Z.of_nat (List.length (s_samples self)).

(** The read loop of [__getitem__]: at most [n] reads, leaving at the first
    failed one. *)
Fixpoint read_loop (cap : nat) (x1 y1 x2 y2 : json) (n : nat)
  (frames : list tensor3) : M (list tensor3) :=
  match n with
  | O => ret frames
  | S n' =>
      (r <- cap_read cap ;;
       match r with
       | None => ret frames
       | Some img =>
           t <- lift (process_frame P img x1 y1 x2 y2) ;;
           read_loop cap x1 y1 x2 y2 n' (frames ++ [t])
       end)%M
  end.

(** [MultiVideoAnomalyDataset.__getitem__] *)
Definition multi_getitem (self : MultiVideoAnomalyDataset) (idx : Z)
  : M (tensor4 * spec_float) :=
  (s <- lift (py_index (m_samples self) idx) ;;
   let '(vpath, start, label, roi) := s in
   r <- lift (unpack4 roi) ;;
   let '(x1, y1, x2, y2) := r in
   cap <- VideoCapture P vpath ;;
   cap_set_pos cap start ;;;
   frames <- read_loop cap x1 y1 x2 y2 (Z.to_nat (m_seq_len self)) [] ;;
   cap_release cap ;;;
   seq <- lift (torch_stack frames) ;;
   seq <- lift (apply_transform (m_transform self) seq) ;;
   ret (seq, F32.of_f64 label))%M.

(** [SingleVideoAnomalyDataset.__getitem__] *)
Definition single_getitem (self : SingleVideoAnomalyDataset) (idx : Z)
  : M (tensor4 * spec_float) :=
  (s <- lift (py_index (s_samples self) idx) ;;
   let '(video_path, start_idx, label) := s in
   cap <- VideoCapture P video_path ;;
   cap_set_pos cap start_idx ;;;
   r <- lift (unpack4 (s_roi self)) ;;
   let '(x1, y1, x2, y2) := r in
   frames <- read_loop cap x1 y1 x2 y2 (Z.to_nat (s_seq_len self)) [] ;;
   cap_release cap ;;;
   seq <- lift (torch_stack frames) ;;
   seq <- lift (apply_transform (s_transform self) seq) ;;
   ret (seq, F32.of_f64 label))%M.

End Datasets.

(* ================================================================== *)
(** ** Quantities the statements below refer to *)

(** The closed-interval test of the inner loop for one range. *)
Definition overlaps (start end_ : Z) (r : Z * Z) : bool :=
  negb ((end_ <? fst r) || (start >? snd r)).

(** What the frame-count query yields for a path: the reported count of an
    existing video, 0 when there is none. *)
Definition reported_frames (P : Platform) (vpath : string) : Z :=
  match fs_video P vpath with
  | Some v => frame_count v
  | None => 0
  end.

(** The paths and the video directory of the multi-video constructor. *)
Definition multi_json_paths (P : Platform) (label_dir : string) : list string :=
  glob_glob P (os_path_join P label_dir "*.json").

Definition multi_video_dir (P : Platform) (label_dir : string) : string :=
  os_path_join P (os_path_dirname P label_dir) "video".

(** The valid window count of one annotation file's video,
    [max(frame_count - seq_len + 1, 0)]. *)
Definition window_count (P : Platform) (label_dir : string) (seq_len : Z)
  (ann_path : string) : Z :=
  Z.max 0 (reported_frames P (derive_vpath P (multi_video_dir P label_dir) ann_path)
           - seq_len + 1).

Definition sum_Z (l : list Z) : Z := fold_right Z.add 0 l.

Definition sample_video (s : msample) : string := fst (fst (fst s)).
Definition sample_start (s : msample) : Z := snd (fst (fst s)).

(** The table entry a frame-count query leaves behind. *)
Definition closed_capture (P : Platform) (vpath : string) : Capture :=
  {| cap_src := fs_video P vpath; cap_pos := 0; cap_opened := false |}.

(** The entries one annotation file contributes: its video's indexer output
    tagged with the video path and the file's ROI. *)
Definition file_block (P : Platform) (label_dir : string) (seq_len : Z)
  (ann_path : string) (b : list msample) : Prop :=
  exists roi anomaly_frames,
    b = map (fun p => (derive_vpath P (multi_video_dir P label_dir) ann_path,
                       fst p, snd p, roi))
          (sample_indexer
             (reported_frames P
                (derive_vpath P (multi_video_dir P label_dir) ann_path))
             seq_len anomaly_frames).

(** What [n] successive reads return from a capture in state [c]. *)
Definition frames_from (c : Capture) (n : nat) : list image :=
  match cap_src c with
  | Some v =>
      if cap_opened c && (0 <=? cap_pos c)
      then firstn n (skipn (Z.to_nat (cap_pos c)) (frames v))
      else []
  | None => []
  end.

(** The state of a fresh capture on [vpath] after seeking to [start]. *)
Definition seeked (P : Platform) (vpath : string) (start : Z) : Capture :=
  {| cap_src := fs_video P vpath;
     cap_pos := start;
     cap_opened := match fs_video P vpath with
                   | Some _ => true
                   | None => false
                   end |}.

(** The frames the decoder supplies to one access: up to [seq_len] reads
    from [start], stopping at the first failed read. *)
Definition supplied (P : Platform) (vpath : string) (start seq_len : Z)
  : list image :=
  frames_from (seeked P vpath start) (Z.to_nat seq_len).

(** What the code relies on from [cv2.resize]: a non-empty source gives a
    patch of the requested 256 x 256 size. *)
Definition interp_contract (P : Platform) : Prop :=
  forall img, img_empty img = false ->
    has_shape2 256 256 (cv2_interp P img (256%nat, 256%nat)) = true.

(** The ROI unpacks and every supplied frame crops to a non-empty patch. *)
Definition croppable (x1 y1 x2 y2 : json) (img : image) : Prop :=
  exists crop, crop_roi img x1 y1 x2 y2 = Ok crop /\ img_empty crop = false.

(** The normalised R, G and B planes, in this order, of a patch given in
    the decoder's B, G, R order: what the spec calls RGB channel order in
    channel-first layout. *)
Definition rgb_planes (patch_bgr : image) : tensor3 :=
  [ map (map (fun p => F32.div (byte_to_f32 (ch2 p)) f255)) patch_bgr;
    map (map (fun p => F32.div (byte_to_f32 (ch1 p)) f255)) patch_bgr;
    map (map (fun p => F32.div (byte_to_f32 (ch0 p)) f255)) patch_bgr ].

(** The capture state after one successful read. *)
Definition advance (c : Capture) : Capture :=
  {| cap_src := cap_src c; cap_pos := cap_pos c + 1;
     cap_opened := cap_opened c |}.

(** What [__getitem__] does with the frames once the handle is released. *)
Definition finish (tr : transform_t) (label : spec_float) (ts : list tensor3)
  : outcome (tensor4 * spec_float) :=
  obind (torch_stack ts) (fun seq =>
  obind (apply_transform tr seq) (fun seq' => Ok (seq', F32.of_f64 label))).

Definition released (c : Capture) : Capture :=
  {| cap_src := cap_src c; cap_pos := cap_pos c; cap_opened := false |}.

(** The decoder can supply [seq_len] frames from [start]. *)
Definition can_supply (P : Platform) (vpath : string) (start seq_len : Z)
  : Prop :=
  exists v, fs_video P vpath = Some v /\ 0 <= start /\
            start + seq_len <= Z.of_nat (List.length (frames v)).

(** What one access [getitem] to the sample [(vpath, start, label)] with
    ROI tuple [roi] returns when no transform is installed; [k] is the
    number of frames the decoder supplies.
    - [k <= seq_len], with equality when the decoder can supply [seq_len]
      frames from [start];
    - whatever is returned is the stack of the [k] supplied frames, each
      cropped, resized and laid out as normalised R, G, B planes: its
        shape is (k, 3, 256, 256) and every element is in [0, 1];
    - a result is returned as soon as [k >= 1] and every supplied frame
      crops to a non-empty patch. *)
Definition extractor_spec (P : Platform) (getitem : M (tensor4 * spec_float))
  (roi : list json) (vpath : string) (start seq_len : Z) (label : spec_float)
  : Prop :=
  (List.length (supplied P vpath start seq_len) <= Z.to_nat seq_len)%nat
  /\ (can_supply P vpath start seq_len ->
      List.length (supplied P vpath start seq_len) = Z.to_nat seq_len)
  /\ (forall hs seq lab hs',
        getitem hs = (Ok (seq, lab), hs') ->
        has_shape4 (List.length (supplied P vpath start seq_len))
          3 256 256 seq = true
        /\ all_in_unit_interval seq = true
        /\ lab = F32.of_f64 label
        /\ exists x1 y1 x2 y2 crops,
             unpack4 roi = Ok (x1, y1, x2, y2)
             /\ omap (fun img => crop_roi img x1 y1 x2 y2)
                  (supplied P vpath start seq_len) = Ok crops
             /\ seq = map (fun crop =>
                             rgb_planes (cv2_interp P crop (256%nat, 256%nat)))
                          crops)
  /\ (forall hs x1 y1 x2 y2,
        unpack4 roi = Ok (x1, y1, x2, y2) ->
        Forall (croppable x1 y1 x2 y2) (supplied P vpath start seq_len) ->
        (1 <= List.length (supplied P vpath start seq_len))%nat ->
        exists seq hs', getitem hs = (Ok (seq, F32.of_f64 label), hs')).

Definition outcome_map {A B} (f : A -> B) (o : outcome A) : outcome B :=
  match o with
  | Ok a => Ok (f a)
  | Raise e => Raise e
  end.

Definition sample_roi (s : msample) : list json := snd s.

(* ================================================================== *)
(** ** Annotation records *)

(** The record format in the words of the spec (section 6): a nested
    [annotations] section containing [event_frame], an ordered list of
    two-element integer-pair ranges, and optionally [roi], a four-element
    numeric list.  The source has no such check; this is the yardstick
    the loader is compared with. *)
Definition is_int_pair (v : json) : bool :=
  match v with
  | JList [JInt _; JInt _] => true
  | _ => false
  end.

Definition is_number (v : json) : bool :=
  match v with
  | JInt _ | JFloat _ => true
  | _ => false
  end.

Definition spec_well_formed_record (item : json) : bool :=
  match item with
  | JDict kvs =>
      match dict_lookup "annotations" kvs with
      | Some (JDict ann) =>
          match dict_lookup "event_frame" ann with
          | Some (JList ranges) => forallb is_int_pair ranges
          | _ => false
          end
          && match dict_lookup "roi" ann with
             | None => true
             | Some (JList [a; b; c; d]) =>
                 is_number a && is_number b && is_number c && is_number d
             | Some _ => false
             end
      | _ => false
      end
  | _ => false
  end.

(** The defects of a record that the loader cannot get past: the file is
    not there or is not JSON; [item['annotations']] or
    [item['annotations']['event_frame']] cannot be evaluated (the key is
    missing, or the container is not a dict); [event_frame] cannot be
    iterated; one of its entries is not a two-item iterable of values that
    [int] accepts. *)
Inductive rejected (P : Platform) : file_content -> Prop :=
| rej_no_file : rejected P NoSuchFile
| rej_not_json : rejected P NotJson
| rej_annotations item :
    is_ok (py_getitem item "annotations") = false ->
    rejected P (Parsed item)
| rej_event_frame item ann :
    py_getitem item "annotations" = Ok ann ->
    is_ok (py_getitem ann "event_frame") = false ->
    rejected P (Parsed item)
| rej_not_iterable item ann ef :
    py_getitem item "annotations" = Ok ann ->
    py_getitem ann "event_frame" = Ok ef ->
    is_ok (py_iter ef) = false ->
    rejected P (Parsed item)
| rej_entry item ann ef entries x :
    py_getitem item "annotations" = Ok ann ->
    py_getitem ann "event_frame" = Ok ef ->
    py_iter ef = Ok entries ->
    In x entries ->
    is_ok (parse_range P x) = false ->
    rejected P (Parsed item).

(* ================================================================== *)
(** ** A concrete platform for evaluating the model *)

Module Demo.
Local Open Scope string_scope.

(** Path functions for slash-separated paths without repeated slashes. *)
Fixpoint rsplit (c : ascii) (s : string) : option (string * string) :=
  match s with
  | EmptyString => None
  | String a rest =>
      match rsplit c rest with
      | Some (h, t) => Some (String a h, t)
      | None => if Ascii.eqb a c then Some (EmptyString, rest) else None
      end
  end.

Definition join (a b : string) : string := (a ++ "/" ++ b)%string.

Definition dirname (p : string) : string :=
  match rsplit "/" p with
  | Some (h, _) => h
  | None => EmptyString
  end.

Definition basename (p : string) : string :=
  match rsplit "/" p with
  | Some (_, t) => t
  | None => p
  end.

Definition splitext (p : string) : string * string :=
  match rsplit "." p with
  | Some (h, t) => (h, ("." ++ t)%string)
  | None => (p, EmptyString)
  end.

(** Nearest-neighbour sampling, standing in for the library's kernel. *)
Definition nearest_resize (img : image) (dsize : nat * nat) : image :=
  let w := fst dsize in
  let h := snd dsize in
  let H := List.length img in
  let W := List.length (hd [] img) in
  map (fun i =>
         map (fun j => nth (j * W / w)%nat (nth (i * H / h)%nat img []) (x00, x00, x00))
             (seq 0 w))
      (seq 0 h).

(** A 2 x 2 frame in B, G, R order. *)
Definition frame2x2 : image :=
  [ [ (x10, x80, xff); (x00, x00, x00) ];
    [ (xff, xff, xff); (x20, x40, x60) ] ].

(** [A.mp4] decodes all 12 frames it reports; [B.mp4] reports 14 frames
    but its stream ends after 4. *)
Definition videoA : Video := {| frame_count := 12; frames := repeat frame2x2 12 |}.
Definition videoB : Video := {| frame_count := 14; frames := repeat frame2x2 4 |}.

Definition int_pair (s e : Z) : json := JList [JInt s; JInt e].

(** [A.json] carries its own ROI, [B.json] has none, [F.json] gives its
    range as floats 5.5 and 9.5, [K.json] has no [event_frame] and
    [N.json] no [annotations]. *)
Definition recordA : json :=
  JDict [("annotations",
          JDict [("event_frame", JList [int_pair 5 9]);
                 ("roi", JList [JInt 0; JInt 0; JInt 2; JInt 2])])].
Definition recordB : json :=
  JDict [("annotations", JDict [("event_frame", JList [int_pair 1 2])])].
Definition recordF : json :=
  JDict [("annotations",
          JDict [("event_frame",
                  JList [JList [JFloat (F64.scaled 11 (-1));
                                JFloat (F64.scaled 19 (-1))]])])].
Definition recordK : json :=
  JDict [("annotations", JDict [("roi", JList [JInt 0; JInt 0; JInt 2; JInt 2])])].
Definition recordN : json := JDict [("video", JStr "A.mp4")].

Definition files (path : string) : file_content :=
  if String.eqb path "/data/label/A.json" then Parsed recordA
  else if String.eqb path "/data/label/B.json" then Parsed recordB
  else if String.eqb path "/data/label/F.json" then Parsed recordF
  else if String.eqb path "/bad/label/A.json" then Parsed recordA
  else if String.eqb path "/bad/label/K.json" then Parsed recordK
  else if String.eqb path "/bad/label/N.json" then Parsed recordN
  else if String.eqb path "/bad/label/X.json" then NotJson
  else NoSuchFile.

Definition videos (path : string) : option Video :=
  if String.eqb path "/data/video/A.mp4" then Some videoA
  else if String.eqb path "/data/video/B.mp4" then Some videoB
  else if String.eqb path "/data/video/F.mp4" then Some videoA
  else if String.eqb path "/bad/video/A.mp4" then Some videoA
  else None.

Definition glob (pattern : string) : list string :=
  if String.eqb pattern "/data/label/*.json"
  then ["/data/label/A.json"; "/data/label/B.json"]%string
  else if String.eqb pattern "/bad/label/*.json"
  then ["/bad/label/A.json"; "/bad/label/K.json"]%string
  else [].

Definition platform : Platform :=
  {| glob_glob := glob;
     os_path_join := join;
     os_path_dirname := dirname;
     os_path_basename := basename;
     os_path_splitext := splitext;
     fs_file := files;
     fs_video := videos;
     int_of_str := fun _ => None;
     cv2_interp := nearest_resize |}.

(** The constructors' default ROI, [(1150, 300, 1600, 700)]. *)
Definition default_roi : list json := [JInt 1150; JInt 300; JInt 1600; JInt 700].
Definition roi2x2 : list json := [JInt 0; JInt 0; JInt 2; JInt 2].

End Demo.

(* ================================================================== *)
(** ** The datasets built on the concrete platform *)

(** The value and the handle table a computation ends with ([fallback]
    stands in for the value when it raises). *)
Definition run_or {A} (m : M A) (hs : handles) (fallback : A) : A * handles :=
  match m hs with
  | (Ok a, hs') => (a, hs')
  | (Raise _, hs') => (fallback, hs')
  end.

(** [MultiVideoAnomalyDataset('/data/label')] with the default ROI, and
    [SingleVideoAnomalyDataset('/data/label/B.json', roi=(0, 0, 2, 2))]. *)
Definition demo_multi_run : MultiVideoAnomalyDataset * handles :=
  Eval vm_compute in
    run_or (multi_init Demo.platform "/data/label" 8 Demo.default_roi None) []
      {| m_seq_len := 0; m_default_roi := []; m_transform := None;
         m_samples := [] |}.

Definition demo_single_run : SingleVideoAnomalyDataset * handles :=
  Eval vm_compute in
    run_or (single_init Demo.platform "/data/label/B.json" 8 8 Demo.roi2x2 None) []
      {| s_seq_len := 0; s_fps := 0; s_transform := None; s_roi := [];
         s_samples := [] |}.

(** The same dataset built with a transform that keeps the first four
    frames of a sequence. *)
Definition keep_four : tensor4 -> outcome tensor4 := fun seq => Ok (firstn 4 seq).

Definition demo_multi_subsampled : MultiVideoAnomalyDataset :=
  {| m_seq_len := m_seq_len (fst demo_multi_run);
     m_default_roi := m_default_roi (fst demo_multi_run);
     m_transform := Some keep_four;
     m_samples := m_samples (fst demo_multi_run) |}.

(* ================================================================== *)
(** ** Further quantities *)

(** The video path the single-video constructor derives. *)
Definition single_video_path (P : Platform) (ann_path : string) : string :=
  derive_vpath P
    (os_path_join P (os_path_dirname P (os_path_dirname P ann_path)) "video")
    ann_path.

(** Every video decodes as many frames as its container reports. *)
Definition honest_decoder (P : Platform) : Prop :=
  forall vpath v, fs_video P vpath = Some v ->
    frame_count v = Z.of_nat (List.length (frames v)).

(** The concrete platform restricted to [A.mp4], whose count is exact. *)
Definition honest_platform : Platform :=
  {| glob_glob := glob_glob Demo.platform;
     os_path_join := os_path_join Demo.platform;
     os_path_dirname := os_path_dirname Demo.platform;
     os_path_basename := os_path_basename Demo.platform;
     os_path_splitext := os_path_splitext Demo.platform;
     fs_file := fs_file Demo.platform;
     fs_video := fun path =>
       if String.eqb path "/data/video/A.mp4" then Some Demo.videoA else None;
     int_of_str := int_of_str Demo.platform;
     cv2_interp := cv2_interp Demo.platform |}.

(** [seq, label] after a transform [f] is applied to [seq]. *)
Definition then_transform (f : tensor4 -> outcome tensor4)
  (r : outcome (tensor4 * spec_float)) : outcome (tensor4 * spec_float) :=
  obind r (fun sl => obind (f (fst sl)) (fun seq' => Ok (seq', snd sl))).

Definition ssample_start (s : ssample) : Z := snd (fst s).
Definition ssample_video (s : ssample) : string := fst (fst s).
Definition ssample_label (s : ssample) : spec_float := snd s.
Definition sample_label (s : msample) : spec_float := snd (fst s).

(** Datasets built on the concrete platforms with other arguments: a
    three-element ROI, [seq_len = 0], and the platform whose decoder is
    exact. *)
Definition roi3 : list json := [JInt 0; JInt 0; JInt 2].

Definition demo_multi_roi3 : MultiVideoAnomalyDataset * handles :=
  Eval vm_compute in
    run_or (multi_init Demo.platform "/data/label" 8 roi3 None) []
      {| m_seq_len := 0; m_default_roi := []; m_transform := None;
         m_samples := [] |}.

Definition demo_single_roi3 : SingleVideoAnomalyDataset * handles :=
  Eval vm_compute in
    run_or (single_init Demo.platform "/data/label/B.json" 8 8 roi3 None) []
      {| s_seq_len := 0; s_fps := 0; s_transform := None; s_roi := [];
         s_samples := [] |}.

Definition demo_single_len0 : SingleVideoAnomalyDataset * handles :=
  Eval vm_compute in
    run_or (single_init Demo.platform "/data/label/B.json" 0 8 Demo.roi2x2 None) []
      {| s_seq_len := 0; s_fps := 0; s_transform := None; s_roi := [];
         s_samples := [] |}.

Definition honest_multi_run : MultiVideoAnomalyDataset * handles :=
  Eval vm_compute in
    run_or (multi_init honest_platform "/data/label" 8 Demo.roi2x2 None) []
      {| m_seq_len := 0; m_default_roi := []; m_transform := None;
         m_samples := [] |}.

Definition honest_single_run : SingleVideoAnomalyDataset * handles :=
  Eval vm_compute in
    run_or (single_init honest_platform "/data/label/A.json" 8 8 Demo.roi2x2 None) []
      {| s_seq_len := 0; s_fps := 0; s_transform := None; s_roi := [];
         s_samples := [] |}.

(** The multi-video dataset built with the default ROI given as floats,
    [(0.0, 0.0, 2.0, 2.0)]. *)
Definition float_roi : list json :=
  [JFloat F64.zero; JFloat F64.zero; JFloat (F64.of_Z 2); JFloat (F64.of_Z 2)].

Definition demo_multi_float_roi : MultiVideoAnomalyDataset * handles :=
  Eval vm_compute in
    run_or (multi_init Demo.platform "/data/label" 8 float_roi None) []
      {| m_seq_len := 0; m_default_roi := []; m_transform := None;
         m_samples := [] |}.

(** The samples one annotation file contributes, or the exception its
    loading raises. *)
Definition file_samples (P : Platform) (seq_len : Z) (default_roi : list json)
  (video_dir ann_path : string) : outcome (list msample) :=
  fst (multi_file P seq_len default_roi video_dir [] ann_path []).

(* ================================================================== *)
(** ** What the indexing loop of a constructor is expected to store *)

(** The windows of a video of [frame_count] frames, for samples whose
    start is read with [start_of]: with [0 < seq_len <= frame_count]
    exactly [frame_count - seq_len + 1] samples, the i-th starting at [i],
    in strictly increasing order; with [frame_count < seq_len] none. *)
Definition windows_spec {S} (start_of : S -> Z) (frame_count seq_len : Z)
  (samples : list S) : Prop :=
  (0 < seq_len -> seq_len <= frame_count ->
     Z.of_nat (List.length samples) = frame_count - seq_len + 1
     /\ (forall i, 0 <= i <= frame_count - seq_len ->
           nth_error (map start_of samples) (Z.to_nat i) = Some i)
     /\ StronglySorted Z.lt (map start_of samples))
  /\ (frame_count < seq_len -> samples = []).

(** The label of the window starting at [start] against the event ranges
    [anomaly_frames]: 1.0 exactly when some range passes the test
    [not (start+seq_len-1 < s or start > e)], exactly when window and
    range share a frame index, 0.0 exactly when none does; a range touched
    at a boundary gives 1.0, and one overlapping range is enough. *)
Definition label_spec (seq_len : Z) (anomaly_frames : list (Z * Z))
  (start : Z) (label : spec_float) : Prop :=
  (label = F64.one <->
     exists s e, In (s, e) anomaly_frames /\
                 ~ (start + seq_len - 1 < s \/ start > e))
  /\ (label = F64.zero <->
        ~ exists s e, In (s, e) anomaly_frames /\
                      ~ (start + seq_len - 1 < s \/ start > e))
  /\ (label = F64.one <->
        exists s e x, In (s, e) anomaly_frames /\
                      start <= x <= start + seq_len - 1 /\ s <= x <= e)
  /\ (forall s e, In (s, e) anomaly_frames ->
        start + seq_len - 1 = s \/ start = e -> label = F64.one)
  /\ (forall s e, In (s, e) anomaly_frames ->
        ~ (start + seq_len - 1 < s \/ start > e) -> label = F64.one).

(** The samples the multi-video loop appends for one annotation file: the
    windows of the file's video, labelled against the ranges loaded from
    that file and stamped with the ROI loaded from it. *)
Definition loaded_block (P : Platform) (label_dir : string) (seq_len : Z)
  (default_roi : list json) (ann_path : string) (b : list msample) : Prop :=
  exists item roi anomaly_frames,
    json_load P ann_path = Ok item
    /\ load_roi item default_roi = Ok roi
    /\ load_event_frame P item = Ok anomaly_frames
    /\ b = map (fun p => (derive_vpath P (multi_video_dir P label_dir) ann_path,
                          fst p, snd p, roi))
             (sample_indexer
                (reported_frames P
                   (derive_vpath P (multi_video_dir P label_dir) ann_path))
                seq_len anomaly_frames).

(** The single-video dataset of [B.json] on the platform where [B.mp4] is
    missing. *)
Definition honest_single_B_run : SingleVideoAnomalyDataset * handles :=
  Eval vm_compute in
    run_or (single_init honest_platform "/data/label/B.json" 8 8 Demo.roi2x2 None) []
      {| s_seq_len := 0; s_fps := 0; s_transform := None; s_roi := [];
         s_samples := [] |}.

(* ================================================================== *)
(** * Properties *)

(** ** Floating-point constants *)

Lemma one_neq_zero : F64.one <> F64.zero.
Proof. vm_compute. discriminate. Qed.

Lemma f32_of_label_one : F32.of_f64 F64.one = F32.one.
Proof. vm_compute. reflexivity. Qed.

Lemma f32_of_label_zero : F32.of_f64 F64.zero = F32.zero.
Proof. reflexivity. Qed.

(** ** The sample indexer *)


Lemma fold_append_map {A B} (f : A -> B) (l : list A) (acc : list B) :
  fold_left (fun acc x => acc ++ [f x]) l acc = acc ++ map f l.
Proof.
  revert acc. induction l as [| x l IH]; intros acc; simpl.
  - now rewrite app_nil_r.
  - rewrite IH, <- app_assoc. reflexivity.
Qed.

Lemma index_windows_eq {S} (mk : Z -> spec_float -> S) n sl rs acc :
  index_windows mk n sl rs acc =
  acc ++ map (fun start => mk start (window_label sl rs start))
             (py_range 0 (n - sl + 1)).
Proof. unfold index_windows. apply fold_append_map. Qed.

Lemma sample_indexer_eq n sl rs :
  sample_indexer n sl rs =
  map (fun start => (start, window_label sl rs start)) (py_range 0 (n - sl + 1)).
Proof. unfold sample_indexer. now rewrite index_windows_eq. Qed.

Lemma index_windows_indexer {S} (mk : Z -> spec_float -> S) n sl rs acc :
  index_windows mk n sl rs acc =
  acc ++ map (fun p => mk (fst p) (snd p)) (sample_indexer n sl rs).
Proof.
  rewrite index_windows_eq, sample_indexer_eq, map_map. reflexivity.
Qed.

Lemma py_range_length lo hi :
  List.length (py_range lo hi) = Z.to_nat (hi - lo).
Proof. unfold py_range. now rewrite length_map, length_seq. Qed.

Lemma py_range_nth lo hi i :
  (i < Z.to_nat (hi - lo))%nat ->
  nth_error (py_range lo hi) i = Some (lo + Z.of_nat i).
Proof.
  intros Hi. unfold py_range.
  rewrite nth_error_map, nth_error_seq.
  destruct (Nat.ltb_spec i (Z.to_nat (hi - lo))); [reflexivity | lia].
Qed.

Lemma py_range_In lo hi x : In x (py_range lo hi) <-> lo <= x < hi.
Proof.
  unfold py_range. rewrite in_map_iff. split.
  - intros (i & <- & Hi). apply in_seq in Hi. lia.
  - intros H. exists (Z.to_nat (x - lo)). split; [lia |].
    apply in_seq. lia.
Qed.

Lemma py_range_sorted lo hi : StronglySorted Z.lt (py_range lo hi).
Proof.
  unfold py_range. generalize (Z.to_nat (hi - lo)) as n. intros n.
  generalize 0%nat as k. induction n as [| n IH]; intros k; simpl.
  - constructor.
  - constructor; [apply IH |].
    apply Forall_forall. intros x Hx.
    apply in_map_iff in Hx. destruct Hx as (i & <- & Hi).
    apply in_seq in Hi. lia.
Qed.

Lemma sample_indexer_starts n sl rs :
  map fst (sample_indexer n sl rs) = py_range 0 (n - sl + 1).
Proof.
  rewrite sample_indexer_eq, map_map. simpl. apply map_id.
Qed.

Lemma sample_indexer_length n sl rs :
  Z.of_nat (List.length (sample_indexer n sl rs)) = Z.max 0 (n - sl + 1).
Proof.
  rewrite sample_indexer_eq, length_map, py_range_length. lia.
Qed.

(** The (start, label) pairs of one video: with [0 < seq_len <=
    frame_count] exactly [frame_count - seq_len + 1] of them, the i-th
    starting at [i], in strictly increasing order; with [frame_count <
    seq_len] none. *)
Lemma indexer_count_and_starts (frame_count seq_len : Z)
  (anomaly_frames : list (Z * Z)) :
  (0 < seq_len -> seq_len <= frame_count ->
     Z.of_nat (List.length (sample_indexer frame_count seq_len anomaly_frames))
       = frame_count - seq_len + 1
     /\ (forall i, 0 <= i <= frame_count - seq_len ->
           nth_error (map fst (sample_indexer frame_count seq_len anomaly_frames))
                     (Z.to_nat i) = Some i)
     /\ StronglySorted Z.lt
          (map fst (sample_indexer frame_count seq_len anomaly_frames)))
  /\ (frame_count < seq_len ->
        sample_indexer frame_count seq_len anomaly_frames = []).
Proof.
  split.
  - intros Hpos Hle. split; [| split].
    + rewrite sample_indexer_length. lia.
    + intros i Hi. rewrite sample_indexer_starts, py_range_nth by lia.
      f_equal. lia.
    + rewrite sample_indexer_starts. apply py_range_sorted.
  - intros Hlt. apply length_zero_iff_nil.
    pose proof (sample_indexer_length frame_count seq_len anomaly_frames). lia.
Qed.


(** ** Labelling *)

Lemma label_loop_existsb start end_ rs :
  label_loop start end_ rs =
  if existsb (overlaps start end_) rs then F64.one else F64.zero.
Proof.
  induction rs as [| [s e] rs IH]; simpl; [reflexivity |].
  unfold overlaps at 1. simpl.
  destruct (negb ((end_ <? s) || (start >? e))); simpl; [reflexivity | exact IH].
Qed.

Lemma overlaps_spec start end_ s e :
  overlaps start end_ (s, e) = true <-> ~ (end_ < s \/ start > e).
Proof.
  unfold overlaps. simpl.
  rewrite negb_true_iff, orb_false_iff, Z.ltb_ge, Z.gtb_ltb, Z.ltb_ge. lia.
Qed.

Lemma label_loop_one start end_ rs :
  label_loop start end_ rs = F64.one <->
  exists s e, In (s, e) rs /\ ~ (end_ < s \/ start > e).
Proof.
  rewrite label_loop_existsb.
  destruct (existsb (overlaps start end_) rs) eqn:Hex.
  - split; [intros _ | reflexivity].
    apply existsb_exists in Hex. destruct Hex as ([s e] & Hin & Hov).
    exists s, e. split; [exact Hin | now apply overlaps_spec].
  - split.
    + intros H. symmetry in H. now apply one_neq_zero in H.
    + intros (s & e & Hin & Hov). exfalso.
      assert (existsb (overlaps start end_) rs = true) as Ht.
      { apply existsb_exists. exists (s, e). split; [exact Hin |].
        now apply overlaps_spec. }
      congruence.
Qed.

Lemma label_loop_cases start end_ rs :
  label_loop start end_ rs = F64.one \/ label_loop start end_ rs = F64.zero.
Proof.
  rewrite label_loop_existsb.
  destruct (existsb (overlaps start end_) rs); [now left | now right].
Qed.

Lemma sample_indexer_In n sl rs start label :
  In (start, label) (sample_indexer n sl rs) <->
  0 <= start < n - sl + 1 /\ label = window_label sl rs start.
Proof.
  rewrite sample_indexer_eq, in_map_iff. split.
  - intros (x & Heq & Hx). inversion Heq; subst.
    apply py_range_In in Hx. split; [lia | reflexivity].
  - intros (Hr & ->). exists start. split; [reflexivity |].
    apply py_range_In. lia.
Qed.

(** A pair [(start, label)] of the indexer, for event ranges that are
    closed intervals [s <= e]: the label is 1.0 exactly when some range
    passes the test of the inner loop, which is exactly when window and
    range share a frame index, and 0.0 exactly when none does. *)
Lemma indexer_label_iff_overlap (frame_count seq_len : Z)
  (anomaly_frames : list (Z * Z)) (start : Z) (label : spec_float) :
  In (start, label) (sample_indexer frame_count seq_len anomaly_frames) ->
  (forall s e, In (s, e) anomaly_frames -> s <= e) ->
  0 < seq_len ->
  (label = F64.one <->
     exists s e, In (s, e) anomaly_frames /\
                 ~ (start + seq_len - 1 < s \/ start > e))
  /\ (label = F64.zero <->
        ~ exists s e, In (s, e) anomaly_frames /\
                      ~ (start + seq_len - 1 < s \/ start > e))
  /\ (label = F64.one <->
        exists s e x, In (s, e) anomaly_frames /\
                      start <= x <= start + seq_len - 1 /\ s <= x <= e)
  /\ (forall s e, In (s, e) anomaly_frames ->
        start + seq_len - 1 = s \/ start = e -> label = F64.one)
  /\ (forall s e, In (s, e) anomaly_frames ->
        ~ (start + seq_len - 1 < s \/ start > e) -> label = F64.one).
Proof.
  intros Hin Hse Hsl.
  apply sample_indexer_In in Hin. destruct Hin as [Hrange ->].
  unfold window_label.
  pose proof (label_loop_one start (start + seq_len - 1) anomaly_frames) as H1.
  pose proof (label_loop_cases start (start + seq_len - 1) anomaly_frames) as Hc.
  split; [exact H1 |]. split; [| split; [| split]].
  - rewrite <- H1. split.
    + intros H0 Ho. rewrite Ho in H0. now apply one_neq_zero.
    + intros Hn. destruct Hc as [Ho | Hz]; [contradiction | exact Hz].
  - rewrite H1. split.
    + intros (s & e & Hi & Hov). pose proof (Hse s e Hi).
      exists s, e, (Z.max start s). split; [exact Hi | lia].
    + intros (s & e & x & Hi & Hw & Hr). exists s, e.
      split; [exact Hi | lia].
  - intros s e Hi Hb. apply H1. exists s, e. pose proof (Hse s e Hi).
    split; [exact Hi | lia].
  - intros s e Hi Hov. apply H1. exists s, e. now split.
Qed.

(** The scenario of the spec in full: starts 0..9 are labelled 1.0 and
    starts 10..12 are labelled 0.0. *)
Example indexer_scenario :
  sample_indexer 20 8 [(5, 9)] =
  map (fun s => (s, F64.one)) (py_range 0 10)
  ++ map (fun s => (s, F64.zero)) (py_range 10 13).
Proof. vm_compute. reflexivity. Qed.

(** ** Order of the ranges *)

Lemma existsb_Permutation {A} (f : A -> bool) l1 l2 :
  Permutation l1 l2 -> existsb f l1 = existsb f l2.
Proof.
  intros Hp. induction Hp; simpl.
  - reflexivity.
  - now rewrite IHHp.
  - destruct (f x), (f y); reflexivity.
  - congruence.
Qed.

(** C3: the label computed by the short-circuiting loop does not depend on
    the order of the event ranges, hence neither does the (start, label)
    sequence. *)
Theorem C3_label_permutation_invariant (frame_count seq_len : Z)
  (rs1 rs2 : list (Z * Z)) :
  Permutation rs1 rs2 ->
  (forall start, window_label seq_len rs1 start = window_label seq_len rs2 start)
  /\ sample_indexer frame_count seq_len rs1
     = sample_indexer frame_count seq_len rs2.
Proof.
  intros Hp.
  assert (forall start,
             window_label seq_len rs1 start = window_label seq_len rs2 start)
    as Hl.
  { intros start. unfold window_label. rewrite !label_loop_existsb.
    now rewrite (existsb_Permutation _ _ _ Hp). }
  split; [exact Hl |].
  rewrite !sample_indexer_eq. apply map_ext. intros start. now rewrite Hl.
Qed.

Lemma C3_permutation_witness :
  (forall start,
      window_label 8 [(5, 9); (30, 31); (0, 1)] start
      = window_label 8 [(0, 1); (5, 9); (30, 31)] start)
  /\ sample_indexer 20 8 [(5, 9); (30, 31); (0, 1)]
     = sample_indexer 20 8 [(0, 1); (5, 9); (30, 31)].
Proof.
  apply (C3_label_permutation_invariant 20 8).
  apply Permutation_sym.
  apply (Permutation_cons_app [(5, 9); (30, 31)] [] (0, 1)).
  apply Permutation_refl.
Defined.

(** ** Running the handle-table monad *)

Lemma nth_error_snoc {A} (l : list A) (x : A) :
  nth_error (l ++ [x]) (List.length l) = Some x.
Proof.
  rewrite nth_error_app2 by lia. now rewrite Nat.sub_diag.
Qed.

Lemma update_nth_snoc {A} (f : A -> A) (l : list A) (x : A) :
  update_nth (List.length l) f (l ++ [x]) = l ++ [f x].
Proof. induction l as [| y l IH]; simpl; [reflexivity | now rewrite IH]. Qed.

Lemma update_nth_length {A} n (f : A -> A) (l : list A) :
  List.length (update_nth n f l) = List.length l.
Proof.
  revert n. induction l as [| y l IH]; intros [| n]; simpl; auto.
Qed.

Lemma query_frame_count_run P vpath hs :
  query_frame_count P vpath hs =
  (Ok (reported_frames P vpath), hs ++ [closed_capture P vpath]).
Proof.
  unfold query_frame_count, bind, VideoCapture, cap_get_frame_count,
    cap_release, ret, reported_frames, closed_capture.
  rewrite nth_error_snoc, update_nth_snoc. simpl.
  destruct (fs_video P vpath); reflexivity.
Qed.

(** ** Length and layout of the multi-video dataset *)

Lemma multi_file_ok P label_dir seq_len default_roi samples ann_path hs r hs' :
  multi_file P seq_len default_roi (multi_video_dir P label_dir)
    samples ann_path hs = (Ok r, hs') ->
  exists b, r = samples ++ b /\ file_block P label_dir seq_len ann_path b.
Proof.
  unfold multi_file, bind, lift.
  destruct (json_load P ann_path) as [item |]; [| discriminate].
  destruct (load_roi item default_roi) as [roi |]; [| discriminate].
  destruct (load_event_frame P item) as [rs |]; [| discriminate].
  rewrite query_frame_count_run. unfold ret. intros H. inversion H; subst.
  rewrite index_windows_indexer. eexists. split; [reflexivity |].
  exists roi, rs. reflexivity.
Qed.

Lemma multi_files_ok P label_dir seq_len default_roi paths :
  forall samples hs r hs',
    multi_files P seq_len default_roi (multi_video_dir P label_dir)
      paths samples hs = (Ok r, hs') ->
    exists blocks,
      r = samples ++ concat blocks /\
      Forall2 (file_block P label_dir seq_len) paths blocks.
Proof.
  induction paths as [| p paths IH]; intros samples hs r hs'; simpl.
  - unfold ret. intros H. inversion H; subst.
    exists []. split; [now rewrite app_nil_r | constructor].
  - unfold bind at 1.
    destruct (multi_file P seq_len default_roi (multi_video_dir P label_dir)
                samples p hs) as [[s1 | e] hs1] eqn:Hf; [| discriminate].
    intros Hrest. apply multi_file_ok in Hf. destruct Hf as (b & -> & Hb).
    apply IH in Hrest. destruct Hrest as (blocks & -> & Hbl).
    exists (b :: blocks). split; [simpl; now rewrite app_assoc |].
    now constructor.
Qed.

Lemma file_block_facts P label_dir seq_len p b :
  file_block P label_dir seq_len p b ->
  Z.of_nat (List.length b) = window_count P label_dir seq_len p
  /\ map sample_start b = py_range 0 (window_count P label_dir seq_len p)
  /\ Forall (fun s => sample_video s
                      = derive_vpath P (multi_video_dir P label_dir) p) b.
Proof.
  intros (roi & rs & ->). unfold window_count. split; [| split].
  - rewrite length_map. apply sample_indexer_length.
  - rewrite map_map. unfold sample_start. simpl.
    change (map (fun x : Z * spec_float => fst x)) with (map (@fst Z spec_float)).
    rewrite sample_indexer_starts. unfold py_range. f_equal. f_equal. lia.
  - apply Forall_forall. intros s Hs. apply in_map_iff in Hs.
    destruct Hs as (q & <- & _). reflexivity.
Qed.

Lemma concat_block_nth {A} (blocks : list (list A)) :
  forall i b j,
    nth_error blocks i = Some b -> (j < List.length b)%nat ->
    nth_error (concat blocks) (List.length (concat (firstn i blocks)) + j)
    = nth_error b j.
Proof.
  induction blocks as [| b0 blocks IH]; intros [| i] b j Hb Hj; simpl in *;
    try discriminate.
  - inversion Hb; subst. now rewrite nth_error_app1.
  - rewrite length_app, <- Nat.add_assoc, nth_error_app2 by lia.
    replace (List.length b0 + (List.length (concat (firstn i blocks)) + j)
             - List.length b0)%nat
      with (List.length (concat (firstn i blocks)) + j)%nat by lia.
    now apply IH.
Qed.

Lemma blocks_total_length P label_dir seq_len paths blocks :
  Forall2 (file_block P label_dir seq_len) paths blocks ->
  Z.of_nat (List.length (concat blocks))
  = sum_Z (map (window_count P label_dir seq_len) paths).
Proof.
  induction 1 as [| p b paths blocks Hb _ IH]; simpl; [reflexivity |].
  rewrite length_app, Nat2Z.inj_add, IH.
  now rewrite (proj1 (file_block_facts _ _ _ _ _ Hb)).
Qed.

Lemma Forall2_firstn {A B} (R : A -> B -> Prop) l1 l2 n :
  Forall2 R l1 l2 -> Forall2 R (firstn n l1) (firstn n l2).
Proof.
  intros H. revert n. induction H; intros [| n]; simpl; constructor; auto.
Qed.

Lemma Forall2_nth_error_l {A B} (R : A -> B -> Prop) l1 l2 i x :
  Forall2 R l1 l2 -> nth_error l1 i = Some x ->
  exists y, nth_error l2 i = Some y /\ R x y.
Proof.
  intros H. revert i. induction H; intros [| i] Hx; simpl in *;
    try discriminate.
  - inversion Hx; subst. eauto.
  - eauto.
Qed.

Lemma py_index_nonneg {A} (l : list A) (i : nat) (x : A) :
  nth_error l i = Some x -> py_index l (Z.of_nat i) = Ok x.
Proof.
  intros Hx. unfold py_index.
  assert (i < List.length l)%nat as Hlt
      by (apply nth_error_Some; congruence).
  destruct (Z.ltb_spec (Z.of_nat i) 0); [lia |].
  destruct (Z.leb_spec 0 (Z.of_nat i)); [| lia].
  destruct (Z.ltb_spec (Z.of_nat i) (Z.of_nat (List.length l))); [| lia].
  simpl. now rewrite Nat2Z.id, Hx.
Qed.

(** C4: when the multi-video constructor returns a dataset, [__len__] is
    the sum over the discovered annotation files of
    [max(frame_count - seq_len + 1, 0)], and the samples are the
    concatenation, in file-processing order, of one block per file: the
    block of the i-th file starts at the sum of the counts of the files
    before it, and its j-th entry is window start [j] of that file's
    video. *)
Theorem C4_multi_len_and_blocks (P : Platform) (label_dir : string)
  (seq_len : Z) (default_roi : list json) (transform : transform_t)
  (hs hs' : handles) (ds : MultiVideoAnomalyDataset) :
  multi_init P label_dir seq_len default_roi transform hs = (Ok ds, hs') ->
  multi_len ds
  = sum_Z (map (window_count P label_dir seq_len) (multi_json_paths P label_dir))
  /\ (exists blocks,
        m_samples ds = concat blocks /\
        Forall2 (fun p b =>
                   Z.of_nat (List.length b) = window_count P label_dir seq_len p
                   /\ map sample_start b
                      = py_range 0 (window_count P label_dir seq_len p)
                   /\ Forall (fun s =>
                                sample_video s
                                = derive_vpath P (multi_video_dir P label_dir) p)
                             b)
                (multi_json_paths P label_dir) blocks)
  /\ (forall i p j,
        nth_error (multi_json_paths P label_dir) i = Some p ->
        0 <= j < window_count P label_dir seq_len p ->
        exists s,
          py_index (m_samples ds)
            (sum_Z (map (window_count P label_dir seq_len)
                      (firstn i (multi_json_paths P label_dir))) + j) = Ok s
          /\ sample_video s = derive_vpath P (multi_video_dir P label_dir) p
          /\ sample_start s = j).
Proof.
  unfold multi_init. fold (multi_json_paths P label_dir).
  fold (multi_video_dir P label_dir). unfold bind at 1.
  destruct (multi_files P seq_len default_roi (multi_video_dir P label_dir)
              (multi_json_paths P label_dir) [] hs)
    as [[samples | e] hs1] eqn:Hrun; [| discriminate].
  unfold ret. intros H. inversion H; subst; clear H. simpl.
  apply multi_files_ok in Hrun. destruct Hrun as (blocks & -> & Hbl).
  simpl. split; [| split].
  - unfold multi_len. simpl. now apply blocks_total_length.
  - exists blocks. split; [reflexivity |].
    eapply Forall2_impl; [| exact Hbl].
    intros p b Hb. now apply file_block_facts.
  - intros i p j Hp Hj.
    destruct (Forall2_nth_error_l _ _ _ _ _ Hbl Hp) as (b & Hb & Hfb).
    pose proof (file_block_facts _ _ _ _ _ Hfb) as (Hlen & Hstarts & Hvid).
    assert (Z.to_nat j < List.length b)%nat as Hjb by lia.
    destruct (nth_error b (Z.to_nat j)) as [s |] eqn:Hs;
      [| apply nth_error_None in Hs; lia].
    exists s. split; [| split].
    + rewrite <- (blocks_total_length P label_dir seq_len _ _
                    (Forall2_firstn _ _ _ i Hbl)).
      replace (Z.of_nat (List.length (concat (firstn i blocks))) + j)
        with (Z.of_nat (List.length (concat (firstn i blocks)) + Z.to_nat j))
        by lia.
      apply py_index_nonneg.
      now rewrite (concat_block_nth blocks i b (Z.to_nat j) Hb Hjb).
    + rewrite Forall_forall in Hvid. apply Hvid.
      eapply nth_error_In; eauto.
    + assert (nth_error (map sample_start b) (Z.to_nat j)
              = Some (sample_start s)) as Hm
          by (rewrite nth_error_map, Hs; reflexivity).
      rewrite Hstarts, py_range_nth in Hm by lia.
      inversion Hm. lia.
Qed.

(** ** The concrete platform *)

Example demo_vpath :
  derive_vpath Demo.platform (multi_video_dir Demo.platform "/data/label")
    "/data/label/A.json" = "/data/video/A.mp4"%string.
Proof. vm_compute. reflexivity. Qed.


Lemma single_init_samples P ann_path seq_len fps roi tr hs ds hs' :
  single_init P ann_path seq_len fps roi tr hs = (Ok ds, hs') ->
  exists item anomaly_frames video_path,
    json_load P ann_path = Ok item
    /\ load_event_frame P item = Ok anomaly_frames
    /\ s_samples ds
       = map (fun p => (video_path, fst p, snd p))
           (sample_indexer (reported_frames P video_path) seq_len anomaly_frames).
Proof.
  unfold single_init, bind, lift.
  destruct (json_load P ann_path) as [item |] eqn:Hitem; [| discriminate].
  rewrite query_frame_count_run.
  destruct (load_event_frame P item) as [rs |] eqn:Hrs; [| discriminate].
  unfold ret. intros H. inversion H; subst. simpl.
  rewrite index_windows_indexer. simpl.
  exists item, rs. eexists. split; [reflexivity |]. split; [exact Hrs |].
  reflexivity.
Qed.

Example demo_runs :
  multi_init Demo.platform "/data/label" 8 Demo.default_roi None []
  = (Ok (fst demo_multi_run), snd demo_multi_run)
  /\ single_init Demo.platform "/data/label/B.json" 8 8 Demo.roi2x2 None []
     = (Ok (fst demo_single_run), snd demo_single_run)
  /\ multi_init Demo.platform "/data/label" 8 Demo.default_roi (Some keep_four) []
     = (Ok demo_multi_subsampled, snd demo_multi_run).
Proof. vm_compute. repeat split; reflexivity. Qed.

(** C4 on the concrete platform: two files yielding 5 and 7 samples. *)
Lemma C4_multi_witness :
  multi_len (fst demo_multi_run)
  = sum_Z (map (window_count Demo.platform "/data/label" 8)
             (multi_json_paths Demo.platform "/data/label"))
  /\ (exists blocks,
        m_samples (fst demo_multi_run) = concat blocks /\
        Forall2 (fun p b =>
                   Z.of_nat (List.length b)
                   = window_count Demo.platform "/data/label" 8 p
                   /\ map sample_start b
                      = py_range 0 (window_count Demo.platform "/data/label" 8 p)
                   /\ Forall (fun s =>
                                sample_video s
                                = derive_vpath Demo.platform
                                    (multi_video_dir Demo.platform "/data/label") p)
                             b)
                (multi_json_paths Demo.platform "/data/label") blocks)
  /\ (forall i p j,
        nth_error (multi_json_paths Demo.platform "/data/label") i = Some p ->
        0 <= j < window_count Demo.platform "/data/label" 8 p ->
        exists s,
          py_index (m_samples (fst demo_multi_run))
            (sum_Z (map (window_count Demo.platform "/data/label" 8)
                      (firstn i (multi_json_paths Demo.platform "/data/label")))
             + j) = Ok s
          /\ sample_video s
             = derive_vpath Demo.platform
                 (multi_video_dir Demo.platform "/data/label") p
          /\ sample_start s = j).
Proof.
  apply (C4_multi_len_and_blocks Demo.platform "/data/label" 8
           Demo.default_roi None [] (snd demo_multi_run) (fst demo_multi_run)).
  vm_compute. reflexivity.
Defined.

Example demo_multi_layout :
  multi_len (fst demo_multi_run) = 12
  /\ map sample_video (m_samples (fst demo_multi_run))
     = repeat "/data/video/A.mp4"%string 5 ++ repeat "/data/video/B.mp4"%string 7
  /\ map sample_start (m_samples (fst demo_multi_run))
     = py_range 0 5 ++ py_range 0 7.
Proof. vm_compute. auto. Qed.

(** ** The read loop *)

Lemma update_nth_same {A} n (l : list A) (x : A) :
  nth_error l n = Some x -> update_nth n (fun _ => x) l = l.
Proof.
  revert n. induction l as [| y l IH]; intros [| n] H; simpl in *;
    try discriminate.
  - now inversion H.
  - now rewrite IH.
Qed.

Lemma update_nth_twice {A} n (f g : A -> A) (l : list A) :
  update_nth n g (update_nth n f l) = update_nth n (fun x => g (f x)) l.
Proof.
  revert n. induction l as [| y l IH]; intros [| n]; simpl; try reflexivity.
  now rewrite IH.
Qed.

Lemma update_nth_const {A} n (f : A -> A) (l : list A) (x : A) :
  nth_error l n = Some x -> update_nth n f l = update_nth n (fun _ => f x) l.
Proof.
  revert n. induction l as [| y l IH]; intros [| n] H; simpl in *;
    try discriminate.
  - now inversion H.
  - now rewrite (IH n H).
Qed.

Lemma nth_error_update_nth {A} n (f : A -> A) (l : list A) (x : A) :
  nth_error l n = Some x -> nth_error (update_nth n f l) n = Some (f x).
Proof.
  revert n. induction l as [| y l IH]; intros [| n] H; simpl in *;
    try discriminate.
  - now inversion H.
  - now apply IH.
Qed.

Lemma firstn_skipn_step {A} (l : list A) p n x :
  nth_error l p = Some x ->
  firstn (S n) (skipn p l) = x :: firstn n (skipn (S p) l).
Proof.
  revert p. induction l as [| y l IH]; intros [| p] H; simpl in *;
    try discriminate.
  - now inversion H.
  - now apply IH.
Qed.

Lemma frames_from_read c n img :
  frame_at c = Some img ->
  frames_from c (S n) = img :: frames_from (advance c) n.
Proof.
  unfold frame_at, frames_from, advance. cbn [cap_src cap_pos cap_opened].
  destruct (cap_src c) as [v |]; [| discriminate].
  destruct (cap_opened c); cbn [andb]; [| discriminate].
  destruct (Z.leb_spec 0 (cap_pos c)); [| discriminate].
  destruct (Z.leb_spec 0 (cap_pos c + 1)); [| lia].
  intros Hn. rewrite (firstn_skipn_step _ _ n _ Hn).
  now replace (Z.to_nat (cap_pos c + 1)) with (S (Z.to_nat (cap_pos c))) by lia.
Qed.

Lemma frames_from_eof c n :
  frame_at c = None -> frames_from c n = [].
Proof.
  unfold frame_at, frames_from.
  destruct (cap_src c) as [v |]; [| reflexivity].
  destruct (cap_opened c && (0 <=? cap_pos c)); [| reflexivity].
  intros H. apply nth_error_None in H.
  now rewrite skipn_all2, firstn_nil.
Qed.

Lemma frames_from_length c n : (List.length (frames_from c n) <= n)%nat.
Proof.
  unfold frames_from. destruct (cap_src c); simpl; [| lia].
  destruct (cap_opened c && (0 <=? cap_pos c)); simpl; [| lia].
  rewrite length_firstn. lia.
Qed.

Section ReadLoop.
Variable P : Platform.
Variables x1 y1 x2 y2 : json.

Lemma read_loop_run cap n :
  forall acc hs c,
    nth_error hs cap = Some c ->
    exists c',
      read_loop P cap x1 y1 x2 y2 n acc hs
      = (obind (omap (fun img => process_frame P img x1 y1 x2 y2)
                  (frames_from c n))
           (fun ts => Ok (acc ++ ts)),
         update_nth cap (fun _ => c') hs)
      /\ cap_opened c' = cap_opened c
      /\ cap_src c' = cap_src c.
Proof.
  induction n as [| n IH]; intros acc hs c Hc.
  - exists c. simpl. unfold ret.
    replace (frames_from c 0) with (@nil image).
    + simpl. rewrite app_nil_r, (update_nth_same _ _ _ Hc). auto.
    + unfold frames_from. destruct (cap_src c); [| reflexivity].
      now destruct (cap_opened c && (0 <=? cap_pos c)).
  - simpl. unfold bind at 1. unfold cap_read. rewrite Hc.
    destruct (frame_at c) as [img |] eqn:Hf.
    + rewrite (frames_from_read _ n _ Hf). simpl.
      unfold bind at 1. unfold lift.
      pose proof (nth_error_update_nth cap advance hs c Hc) as Hc1.
      change (fun c0 : Capture =>
                {| cap_src := cap_src c0; cap_pos := cap_pos c0 + 1;
                   cap_opened := cap_opened c0 |}) with advance.
      destruct (process_frame P img x1 y1 x2 y2) as [t | e] eqn:Hp; simpl.
      * destruct (IH (acc ++ [t]) _ _ Hc1) as (c' & Hrun & Ho & Hs).
        exists c'. rewrite Hrun, update_nth_twice. split; [| auto].
        f_equal.
        destruct (omap (fun img0 => process_frame P img0 x1 y1 x2 y2)
                    (frames_from (advance c) n)); simpl; [| reflexivity].
        now rewrite <- app_assoc.
      * exists (advance c). rewrite (update_nth_const _ _ _ _ Hc). auto.
    + rewrite (frames_from_eof _ _ Hf). simpl. unfold ret.
      exists c. rewrite app_nil_r, (update_nth_same _ _ _ Hc). auto.
Qed.

End ReadLoop.

(** ** Running [__getitem__] *)

Section GetItem.
Variable P : Platform.

Lemma extract_run cap_hs vpath start x1 y1 x2 y2 n :
  exists c,
    cap_src c = fs_video P vpath /\
    cap_opened c = cap_opened (seeked P vpath start) /\
    read_loop P (List.length cap_hs) x1 y1 x2 y2 n []
      (cap_hs ++ [seeked P vpath start])
    = (omap (fun img => process_frame P img x1 y1 x2 y2)
         (frames_from (seeked P vpath start) n),
       cap_hs ++ [c]).
Proof.
  destruct (read_loop_run P x1 y1 x2 y2 (List.length cap_hs) n []
              (cap_hs ++ [seeked P vpath start]) (seeked P vpath start)
              (nth_error_snoc _ _)) as (c & Hrun & Ho & Hs).
  exists c. split; [exact Hs |]. split; [exact Ho |].
  rewrite Hrun, update_nth_snoc. f_equal.
  destruct (omap _ _); reflexivity.
Qed.

Lemma open_and_seek vpath start hs :
  (cap <- VideoCapture P vpath ;; cap_set_pos cap start ;;; ret cap)%M hs
  = (Ok (List.length hs), hs ++ [seeked P vpath start]).
Proof.
  unfold bind, VideoCapture, cap_set_pos, ret.
  now rewrite update_nth_snoc.
Qed.

Lemma multi_getitem_run self idx hs vpath start label roi x1 y1 x2 y2 :
  py_index (m_samples self) idx = Ok (vpath, start, label, roi) ->
  unpack4 roi = Ok (x1, y1, x2, y2) ->
  exists c,
    cap_src c = fs_video P vpath /\
    cap_opened c = cap_opened (seeked P vpath start) /\
    multi_getitem P self idx hs
    = match omap (fun img => process_frame P img x1 y1 x2 y2)
              (supplied P vpath start (m_seq_len self)) with
      | Ok ts => (finish (m_transform self) label ts, hs ++ [released c])
      | Raise e => (Raise e, hs ++ [c])
      end.
Proof.
  intros Hidx Hroi.
  destruct (extract_run hs vpath start x1 y1 x2 y2 (Z.to_nat (m_seq_len self)))
    as (c & Hs & Ho & Hrun).
  exists c. split; [exact Hs |]. split; [exact Ho |].
  unfold multi_getitem. unfold bind at 1. unfold lift at 1. rewrite Hidx.
  unfold bind at 1. unfold lift at 1. rewrite Hroi.
  unfold bind at 1. unfold VideoCapture at 1.
  unfold bind at 1. unfold cap_set_pos at 1. rewrite update_nth_snoc.
  cbn [cap_src cap_opened]. fold (seeked P vpath start).
  unfold bind at 1. rewrite Hrun. unfold supplied.
  destruct (omap _ (frames_from (seeked P vpath start) _)) as [ts | e];
    [| reflexivity].
  unfold bind at 1. unfold cap_release at 1. rewrite update_nth_snoc.
  fold (released c). unfold finish, bind, lift, ret, obind.
  destruct (torch_stack ts); [| reflexivity].
  destruct (apply_transform _ _); reflexivity.
Qed.

Lemma single_getitem_run self idx hs vpath start label x1 y1 x2 y2 :
  py_index (s_samples self) idx = Ok (vpath, start, label) ->
  unpack4 (s_roi self) = Ok (x1, y1, x2, y2) ->
  exists c,
    cap_src c = fs_video P vpath /\
    cap_opened c = cap_opened (seeked P vpath start) /\
    single_getitem P self idx hs
    = match omap (fun img => process_frame P img x1 y1 x2 y2)
              (supplied P vpath start (s_seq_len self)) with
      | Ok ts => (finish (s_transform self) label ts, hs ++ [released c])
      | Raise e => (Raise e, hs ++ [c])
      end.
Proof.
  intros Hidx Hroi.
  destruct (extract_run hs vpath start x1 y1 x2 y2 (Z.to_nat (s_seq_len self)))
    as (c & Hs & Ho & Hrun).
  exists c. split; [exact Hs |]. split; [exact Ho |].
  unfold single_getitem. unfold bind at 1. unfold lift at 1. rewrite Hidx.
  unfold bind at 1. unfold VideoCapture at 1.
  unfold bind at 1. unfold cap_set_pos at 1. rewrite update_nth_snoc.
  cbn [cap_src cap_opened]. fold (seeked P vpath start).
  unfold bind at 1. unfold lift at 1. rewrite Hroi.
  unfold bind at 1. rewrite Hrun. unfold supplied.
  destruct (omap _ (frames_from (seeked P vpath start) _)) as [ts | e];
    [| reflexivity].
  unfold bind at 1. unfold cap_release at 1. rewrite update_nth_snoc.
  fold (released c). unfold finish, bind, lift, ret, obind.
  destruct (torch_stack ts); [| reflexivity].
  destruct (apply_transform _ _); reflexivity.
Qed.

End GetItem.

(** ** Frame tensors *)

Lemma omap_ok_Forall2 {A B} (f : A -> outcome B) l ys :
  omap f l = Ok ys -> Forall2 (fun x y => f x = Ok y) l ys.
Proof.
  revert ys. induction l as [| x l IH]; intros ys; simpl.
  - intros H. inversion H. constructor.
  - destruct (f x) as [y |] eqn:Hx; simpl; [| discriminate].
    destruct (omap f l) as [ys' |]; simpl; [| discriminate].
    intros H. inversion H; subst. constructor; auto.
Qed.

Lemma omap_total {A B} (f : A -> outcome B) l :
  Forall (fun x => exists y, f x = Ok y) l -> exists ys, omap f l = Ok ys.
Proof.
  induction 1 as [| x l (y & Hy) _ (ys & Hys)]; simpl.
  - now exists [].
  - rewrite Hy, Hys. simpl. now exists (y :: ys).
Qed.

Lemma omap_raise {A B} (f : A -> outcome B) l x :
  In x l -> is_ok (f x) = false -> is_ok (omap f l) = false.
Proof.
  induction l as [| y l IH]; simpl; [tauto |].
  intros [-> | Hin] Hx.
  - destruct (f x); [discriminate | reflexivity].
  - destruct (f y); simpl; [| reflexivity].
    specialize (IH Hin Hx). destruct (omap f l); [discriminate | reflexivity].
Qed.

Lemma to_tensor_rgb patch :
  to_tensor (cvtColor_BGR2RGB patch) = rgb_planes patch.
Proof.
  unfold to_tensor, cvtColor_BGR2RGB, rgb_planes. simpl.
  assert (forall f : pixel -> spec_float,
             map (map f) (map (map (fun p : pixel => (ch2 p, ch1 p, ch0 p))) patch)
             = map (map (fun p => f (ch2 p, ch1 p, ch0 p))) patch) as Hm.
  { intros f. rewrite map_map. apply map_ext. intros row. now rewrite map_map. }
  now rewrite !Hm.
Qed.

Lemma process_frame_ok P img x1 y1 x2 y2 t :
  process_frame P img x1 y1 x2 y2 = Ok t <->
  exists crop, crop_roi img x1 y1 x2 y2 = Ok crop /\ img_empty crop = false
               /\ t = rgb_planes (cv2_interp P crop (256%nat, 256%nat)).
Proof.
  unfold process_frame, cv2_resize. split.
  - destruct (crop_roi img x1 y1 x2 y2) as [crop |]; simpl; [| discriminate].
    destruct (img_empty crop) eqn:He; simpl; [discriminate |].
    rewrite to_tensor_rgb. intros H. inversion H.
    exists crop. split; [reflexivity |]. split; [exact He | reflexivity].
  - intros (crop & -> & He & ->). simpl. rewrite He. simpl.
    now rewrite to_tensor_rgb.
Qed.

Lemma has_shape2_map {A B} (f : A -> B) h w (m : list (list A)) :
  has_shape2 h w m = true -> has_shape2 h w (map (map f) m) = true.
Proof.
  unfold has_shape2. rewrite !andb_true_iff, length_map.
  intros [Hl Hr]. split; [exact Hl |].
  rewrite forallb_forall in *. intros r Hin.
  apply in_map_iff in Hin. destruct Hin as (r0 & <- & Hin0).
  rewrite length_map. now apply Hr.
Qed.

Lemma rgb_planes_shape h w patch :
  has_shape2 h w patch = true -> has_shape3 3 h w (rgb_planes patch) = true.
Proof.
  intros H. unfold has_shape3, rgb_planes. simpl.
  now rewrite !has_shape2_map by exact H.
Qed.

Lemma has_shape3_shape3 c h w (t : tensor3) :
  (0 < c)%nat -> (0 < h)%nat ->
  has_shape3 c h w t = true -> shape3 t = [c; h; w].
Proof.
  intros Hc Hh. unfold has_shape3, shape3. rewrite andb_true_iff.
  intros [Hl Hp]. apply Nat.eqb_eq in Hl.
  destruct t as [| p t]; simpl in *; [lia |].
  apply andb_true_iff in Hp. destruct Hp as [Hp _].
  unfold has_shape2 in Hp. apply andb_true_iff in Hp. destruct Hp as [Hlp Hr].
  apply Nat.eqb_eq in Hlp.
  destruct p as [| r p]; simpl in *; [lia |].
  apply andb_true_iff in Hr. destruct Hr as [Hr _]. apply Nat.eqb_eq in Hr.
  now rewrite Hl, Hlp, Hr.
Qed.

Lemma torch_stack_same_shape (ts : list tensor3) :
  ts <> [] ->
  Forall (fun t => has_shape3 3 256 256 t = true) ts ->
  torch_stack ts = Ok ts.
Proof.
  intros Hne Hall. destruct ts as [| t0 rest]; [congruence |].
  unfold torch_stack. inversion Hall as [| ? ? H0 Hrest]; subst.
  replace (forallb _ rest) with true; [reflexivity |].
  symmetry. apply forallb_forall. intros t Hin.
  rewrite Forall_forall in Hrest.
  rewrite (has_shape3_shape3 3 256 256 t), (has_shape3_shape3 3 256 256 t0);
    auto; try lia.
Qed.

Lemma pixel_in_unit_interval (b : byte) :
  in_unit_interval (F32.div (byte_to_f32 b) f255) = true.
Proof. destruct b; vm_compute; reflexivity. Qed.

Lemma rgb_planes_unit patch :
  forallb (forallb (forallb in_unit_interval)) (rgb_planes patch) = true.
Proof.
  unfold rgb_planes. simpl. rewrite !andb_true_iff.
  repeat split; try reflexivity;
    apply forallb_forall; intros row Hin;
    apply in_map_iff in Hin; destruct Hin as (r0 & <- & _);
    apply forallb_forall; intros x Hx;
    apply in_map_iff in Hx; destruct Hx as (p & <- & _);
    apply pixel_in_unit_interval.
Qed.

(** ** The extractor without a transform *)

Section Extractor.
Variable P : Platform.
Hypothesis interp_ok : interp_contract P.
Variables x1 y1 x2 y2 : json.

Lemma omap_process_crops l ts :
  omap (fun img => process_frame P img x1 y1 x2 y2) l = Ok ts ->
  exists crops,
    omap (fun img => crop_roi img x1 y1 x2 y2) l = Ok crops
    /\ Forall (fun c => img_empty c = false) crops
    /\ ts = map (fun crop => rgb_planes (cv2_interp P crop (256%nat, 256%nat)))
                crops.
Proof.
  revert ts. induction l as [| img l IH]; intros ts; simpl.
  - intros H. inversion H. exists []. repeat split. constructor.
  - destruct (process_frame P img x1 y1 x2 y2) as [t |] eqn:Hp; simpl;
      [| discriminate].
    destruct (omap _ l) as [ts' |]; simpl; [| discriminate].
    intros H. inversion H; subst.
    apply process_frame_ok in Hp. destruct Hp as (crop & Hc & He & ->).
    destruct (IH ts' eq_refl) as (crops & Hcs & Hne & ->).
    exists (crop :: crops). rewrite Hc, Hcs. simpl.
    repeat split. now constructor.
Qed.

Lemma omap_process_total l :
  Forall (croppable x1 y1 x2 y2) l ->
  exists ts, omap (fun img => process_frame P img x1 y1 x2 y2) l = Ok ts.
Proof.
  intros H. apply omap_total. eapply Forall_impl; [| exact H].
  intros img (crop & Hc & He). eexists. apply process_frame_ok. eauto.
Qed.

Lemma omap_length {A B} (f : A -> outcome B) l ys :
  omap f l = Ok ys -> List.length ys = List.length l.
Proof.
  intros H. apply omap_ok_Forall2 in H. symmetry.
  eapply Forall2_length; eauto.
Qed.

Lemma frames_shape_unit crops :
  Forall (fun c => img_empty c = false) crops ->
  Forall (fun t => has_shape3 3 256 256 t = true)
    (map (fun crop => rgb_planes (cv2_interp P crop (256%nat, 256%nat))) crops)
  /\ all_in_unit_interval
       (map (fun crop => rgb_planes (cv2_interp P crop (256%nat, 256%nat))) crops)
     = true.
Proof.
  induction 1 as [| c crops Hc _ [IHs IHu]]; cbn [map].
  - split; [constructor | reflexivity].
  - split.
    + constructor; [| exact IHs]. apply rgb_planes_shape. now apply interp_ok.
    + unfold all_in_unit_interval in *. cbn [forallb].
      now rewrite rgb_planes_unit, IHu.
Qed.

(** What [finish] returns, without a transform, for the tensors of the
    supplied frames. *)
Lemma finish_spec sup label ts seq lab :
  omap (fun img => process_frame P img x1 y1 x2 y2) sup = Ok ts ->
  finish None label ts = Ok (seq, lab) ->
  (1 <= List.length sup)%nat
  /\ has_shape4 (List.length sup) 3 256 256 seq = true
  /\ all_in_unit_interval seq = true
  /\ lab = F32.of_f64 label
  /\ exists crops,
       omap (fun img => crop_roi img x1 y1 x2 y2) sup = Ok crops
       /\ seq = map (fun crop =>
                       rgb_planes (cv2_interp P crop (256%nat, 256%nat)))
                    crops.
Proof.
  intros Hts Hfin. pose proof (omap_length _ _ _ Hts) as Hlen.
  destruct (omap_process_crops _ _ Hts) as (crops & Hcs & Hne & Heq).
  destruct (frames_shape_unit crops Hne) as [Hsh Hun]. rewrite <- Heq in *.
  unfold finish in Hfin. destruct ts as [| t0 rest]; [discriminate |].
  rewrite torch_stack_same_shape in Hfin by (auto; discriminate).
  simpl in Hfin. inversion Hfin; subst seq lab. clear Hfin.
  split; [simpl in Hlen; lia |].
  split.
  { unfold has_shape4. rewrite <- Hlen, Nat.eqb_refl. cbn [andb].
    apply forallb_forall. intros t Hin. rewrite Forall_forall in Hsh.
    now apply Hsh. }
  split; [exact Hun |]. split; [reflexivity |].
  exists crops. split; [exact Hcs | exact Heq].
Qed.

Lemma finish_total sup label :
  Forall (croppable x1 y1 x2 y2) sup -> (1 <= List.length sup)%nat ->
  exists ts seq,
    omap (fun img => process_frame P img x1 y1 x2 y2) sup = Ok ts
    /\ finish None label ts = Ok (seq, F32.of_f64 label).
Proof.
  intros Hcr Hk. destruct (omap_process_total sup Hcr) as (ts & Hts).
  pose proof (omap_length _ _ _ Hts) as Hlen.
  destruct (omap_process_crops _ _ Hts) as (crops & Hcs & Hne & Heq).
  destruct (frames_shape_unit crops Hne) as [Hsh _]. rewrite <- Heq in Hsh.
  exists ts, ts. split; [exact Hts |].
  unfold finish. rewrite torch_stack_same_shape; [reflexivity | | exact Hsh].
  intros ->. simpl in Hlen. lia.
Qed.

End Extractor.

Lemma supplied_length P vpath start seq_len :
  (List.length (supplied P vpath start seq_len) <= Z.to_nat seq_len)%nat.
Proof. apply frames_from_length. Qed.

Lemma supplied_full P vpath start seq_len :
  can_supply P vpath start seq_len ->
  List.length (supplied P vpath start seq_len) = Z.to_nat seq_len.
Proof.
  intros (v & Hv & Hs & Hn). unfold supplied, frames_from, seeked.
  cbn [cap_src cap_pos cap_opened]. rewrite Hv. cbn [andb].
  destruct (Z.leb_spec 0 start); [| lia].
  rewrite length_firstn, length_skipn. lia.
Qed.

Lemma getitem_bad_index_multi P self idx hs e :
  py_index (m_samples self) idx = Raise e ->
  multi_getitem P self idx hs = (Raise e, hs).
Proof. intros H. unfold multi_getitem, bind, lift. now rewrite H. Qed.

Lemma getitem_bad_index_single P self idx hs e :
  py_index (s_samples self) idx = Raise e ->
  single_getitem P self idx hs = (Raise e, hs).
Proof. intros H. unfold single_getitem, bind, lift. now rewrite H. Qed.

Lemma multi_getitem_bad_roi P self idx hs vpath start label roi e :
  py_index (m_samples self) idx = Ok (vpath, start, label, roi) ->
  unpack4 roi = Raise e ->
  multi_getitem P self idx hs = (Raise e, hs).
Proof.
  intros Hidx Hroi. unfold multi_getitem, bind, lift.
  now rewrite Hidx, Hroi.
Qed.

Lemma single_getitem_bad_roi P self idx hs vpath start label e :
  py_index (s_samples self) idx = Ok (vpath, start, label) ->
  unpack4 (s_roi self) = Raise e ->
  single_getitem P self idx hs = (Raise e, hs ++ [seeked P vpath start]).
Proof.
  intros Hidx Hroi. unfold single_getitem. unfold bind at 1. unfold lift at 1.
  rewrite Hidx. unfold bind at 1. unfold VideoCapture at 1.
  unfold bind at 1. unfold cap_set_pos at 1. rewrite update_nth_snoc.
  unfold bind at 1. unfold lift at 1. now rewrite Hroi.
Qed.

Lemma stack_total P x1 y1 x2 y2 sup :
  interp_contract P ->
  Forall (croppable x1 y1 x2 y2) sup -> (1 <= List.length sup)%nat ->
  exists ts,
    omap (fun img => process_frame P img x1 y1 x2 y2) sup = Ok ts
    /\ torch_stack ts = Ok ts
    /\ List.length ts = List.length sup.
Proof.
  intros Hi Hcr Hk. destruct (omap_process_total P x1 y1 x2 y2 sup Hcr) as (ts & Hts).
  pose proof (omap_length _ _ _ Hts) as Hlen.
  destruct (omap_process_crops P x1 y1 x2 y2 _ _ Hts) as (crops & Hcs & Hne & Heq).
  destruct (frames_shape_unit P Hi crops Hne) as [Hsh _]. rewrite <- Heq in Hsh.
  exists ts. split; [exact Hts |]. split; [| exact Hlen].
  apply torch_stack_same_shape; [| exact Hsh].
  intros ->. simpl in Hlen. lia.
Qed.

Lemma multi_extractor_spec P self idx vpath start label roi :
  interp_contract P ->
  m_transform self = None ->
  py_index (m_samples self) idx = Ok (vpath, start, label, roi) ->
  extractor_spec P (multi_getitem P self idx) roi vpath start
    (m_seq_len self) label.
Proof.
  intros Hi Htr Hidx. unfold extractor_spec.
  split; [apply supplied_length |]. split; [apply supplied_full |]. split.
  - intros hs seq lab hs' Hget.
    destruct (unpack4 roi) as [[[[x1 y1] x2] y2] | e] eqn:Hroi.
    + destruct (multi_getitem_run P self idx hs _ _ _ _ _ _ _ _ Hidx Hroi)
        as (c & _ & _ & Hrun).
      rewrite Hrun in Hget.
      destruct (omap _ (supplied P vpath start (m_seq_len self)))
        as [ts |] eqn:Hts; [| discriminate].
      rewrite Htr in Hget. inversion Hget as [[Hfin Hhs]].
      destruct (finish_spec P Hi x1 y1 x2 y2 _ _ _ _ _ Hts Hfin)
        as (_ & Hsh & Hun & Hlab & crops & Hcs & Hseq).
      repeat (split; [assumption |]).
      exists x1, y1, x2, y2, crops. auto.
    + rewrite (multi_getitem_bad_roi P self idx hs _ _ _ _ _ Hidx Hroi) in Hget.
      discriminate.
  - intros hs x1 y1 x2 y2 Hroi Hcr Hk.
    destruct (finish_total P Hi x1 y1 x2 y2 _ label Hcr Hk) as (ts & seq & Hts & Hfin).
    destruct (multi_getitem_run P self idx hs _ _ _ _ _ _ _ _ Hidx Hroi)
      as (c & _ & _ & Hrun).
    rewrite Hts, Htr, Hfin in Hrun. eauto.
Qed.

Lemma single_extractor_spec P self idx vpath start label :
  interp_contract P ->
  s_transform self = None ->
  py_index (s_samples self) idx = Ok (vpath, start, label) ->
  extractor_spec P (single_getitem P self idx) (s_roi self) vpath start
    (s_seq_len self) label.
Proof.
  intros Hi Htr Hidx. unfold extractor_spec.
  split; [apply supplied_length |]. split; [apply supplied_full |]. split.
  - intros hs seq lab hs' Hget.
    destruct (unpack4 (s_roi self)) as [[[[x1 y1] x2] y2] | e] eqn:Hroi.
    + destruct (single_getitem_run P self idx hs _ _ _ _ _ _ _ Hidx Hroi)
        as (c & _ & _ & Hrun).
      rewrite Hrun in Hget.
      destruct (omap _ (supplied P vpath start (s_seq_len self)))
        as [ts |] eqn:Hts; [| discriminate].
      rewrite Htr in Hget. inversion Hget as [[Hfin Hhs]].
      destruct (finish_spec P Hi x1 y1 x2 y2 _ _ _ _ _ Hts Hfin)
        as (_ & Hsh & Hun & Hlab & crops & Hcs & Hseq).
      repeat (split; [assumption |]).
      exists x1, y1, x2, y2, crops. auto.
    + rewrite (single_getitem_bad_roi P self idx hs _ _ _ _ Hidx Hroi) in Hget.
      discriminate.
  - intros hs x1 y1 x2 y2 Hroi Hcr Hk.
    destruct (finish_total P Hi x1 y1 x2 y2 _ label Hcr Hk) as (ts & seq & Hts & Hfin).
    destruct (single_getitem_run P self idx hs _ _ _ _ _ _ _ Hidx Hroi)
      as (c & _ & _ & Hrun).
    rewrite Hts, Htr, Hfin in Hrun. eauto.
Qed.

(** C5 (amended): on either dataset built without a transform, an access
    whose decoder supplies [k] frames returns, whenever it returns, the
    stack of those [k] frames with shape (k, 3, 256, 256), [k <=
    seq_len], [k = seq_len] whenever the decoder can supply [seq_len]
    frames from the start index, every element in [0, 1], and the planes
    of each frame the normalised R, G, B channels of the resized patch;
    and it does return when [k >= 1] and every supplied frame crops to a
    non-empty patch. *)
Theorem C5_extractor_without_transform (P : Platform) :
  interp_contract P ->
  (forall self idx vpath start label roi,
      m_transform self = None ->
      py_index (m_samples self) idx = Ok (vpath, start, label, roi) ->
      extractor_spec P (multi_getitem P self idx) roi vpath start
        (m_seq_len self) label)
  /\ (forall self idx vpath start label,
        s_transform self = None ->
        py_index (s_samples self) idx = Ok (vpath, start, label) ->
        extractor_spec P (single_getitem P self idx) (s_roi self) vpath start
          (s_seq_len self) label).
Proof.
  intros Hi. split.
  - intros. now apply multi_extractor_spec.
  - intros. now apply single_extractor_spec.
Qed.

Lemma nearest_resize_contract : interp_contract Demo.platform.
Proof.
  intros img _. unfold has_shape2. simpl cv2_interp. unfold Demo.nearest_resize.
  cbn [fst snd]. rewrite length_map, length_seq, Nat.eqb_refl. cbn [andb].
  apply forallb_forall. intros row Hin. apply in_map_iff in Hin.
  destruct Hin as (i & <- & _). now rewrite length_map, length_seq, Nat.eqb_refl.
Qed.

Lemma demo_croppable n :
  Forall (croppable (JInt 0) (JInt 0) (JInt 2) (JInt 2)) (repeat Demo.frame2x2 n).
Proof.
  apply Forall_forall. intros img Hin. apply repeat_spec in Hin. subst img.
  eexists. split; [vm_compute; reflexivity | reflexivity].
Qed.

(** C5 on the concrete platform: sample 0 of the multi-video dataset (a
    full read from [A.mp4]) and sample 0 of the single-video dataset on
    [B.mp4]. *)
Lemma C5_extractor_witness :
  extractor_spec Demo.platform
    (multi_getitem Demo.platform (fst demo_multi_run) 0)
    Demo.roi2x2 "/data/video/A.mp4" 0 8 F64.one
  /\ extractor_spec Demo.platform
       (single_getitem Demo.platform (fst demo_single_run) 0)
       Demo.roi2x2 "/data/video/B.mp4" 0 8 F64.one.
Proof.
  split.
  - apply (proj1 (C5_extractor_without_transform Demo.platform
                    nearest_resize_contract)
             (fst demo_multi_run) 0 "/data/video/A.mp4"%string 0 F64.one
             Demo.roi2x2).
    + reflexivity.
    + vm_compute. reflexivity.
  - apply (proj2 (C5_extractor_without_transform Demo.platform
                    nearest_resize_contract)
             (fst demo_single_run) 0 "/data/video/B.mp4"%string 0 F64.one).
    + reflexivity.
    + vm_compute. reflexivity.
Defined.

(** The two accesses do return: eight frames from [A.mp4], and the four
    frames that [B.mp4] can supply. *)
Example demo_full_read :
  exists seq hs',
    multi_getitem Demo.platform (fst demo_multi_run) 0 []
    = (Ok (seq, F32.one), hs')
    /\ has_shape4 8 3 256 256 seq = true
    /\ all_in_unit_interval seq = true.
Proof.
  assert (py_index (m_samples (fst demo_multi_run)) 0
          = Ok ("/data/video/A.mp4"%string, 0, F64.one, Demo.roi2x2)) as Hidx
      by (vm_compute; reflexivity).
  destruct (multi_extractor_spec Demo.platform (fst demo_multi_run) 0 _ _ _ _
              nearest_resize_contract eq_refl Hidx) as (_ & _ & Hret & Htot).
  destruct (Htot [] (JInt 0) (JInt 0) (JInt 2) (JInt 2) eq_refl
              (demo_croppable 8)) as (seq & hs' & Hrun).
  { vm_compute. lia. }
  exists seq, hs'. rewrite f32_of_label_one in Hrun. split; [exact Hrun |].
  destruct (Hret _ _ _ _ Hrun) as (Hsh & Hun & _). auto.
Qed.

Example demo_short_read :
  exists seq hs',
    single_getitem Demo.platform (fst demo_single_run) 0 []
    = (Ok (seq, F32.one), hs')
    /\ has_shape4 4 3 256 256 seq = true
    /\ all_in_unit_interval seq = true.
Proof.
  assert (py_index (s_samples (fst demo_single_run)) 0
          = Ok ("/data/video/B.mp4"%string, 0, F64.one)) as Hidx
      by (vm_compute; reflexivity).
  destruct (single_extractor_spec Demo.platform (fst demo_single_run) 0 _ _ _
              nearest_resize_contract eq_refl Hidx) as (_ & _ & Hret & Htot).
  destruct (Htot [] (JInt 0) (JInt 0) (JInt 2) (JInt 2) eq_refl
              (demo_croppable 4)) as (seq & hs' & Hrun).
  { vm_compute. lia. }
  exists seq, hs'. rewrite f32_of_label_one in Hrun. split; [exact Hrun |].
  destruct (Hret _ _ _ _ Hrun) as (Hsh & Hun & _). auto.
Qed.

(** The claim as stated also covers datasets with a transform: with
    [keep_four] the decoder supplies eight frames and the returned
    sequence has four. *)
Lemma C5_counterexample_transform :
  exists seq lab hs',
    multi_getitem Demo.platform demo_multi_subsampled 0 []
    = (Ok (seq, lab), hs')
    /\ List.length (supplied Demo.platform "/data/video/A.mp4" 0 8) = 8%nat
    /\ has_shape4 8 3 256 256 seq = false.
Proof.
  assert (py_index (m_samples demo_multi_subsampled) 0
          = Ok ("/data/video/A.mp4"%string, 0, F64.one, Demo.roi2x2)) as Hidx
      by (vm_compute; reflexivity).
  destruct (multi_getitem_run Demo.platform demo_multi_subsampled 0 []
              _ _ _ _ (JInt 0) (JInt 0) (JInt 2) (JInt 2) Hidx eq_refl)
    as (c & _ & _ & Hrun).
  destruct (stack_total Demo.platform (JInt 0) (JInt 0) (JInt 2) (JInt 2)
              (supplied Demo.platform "/data/video/A.mp4" 0 8)
              nearest_resize_contract (demo_croppable 8))
    as (ts & Hts & Hst & Hlen).
  { vm_compute. lia. }
  change (m_seq_len demo_multi_subsampled) with 8 in Hrun.
  rewrite Hts in Hrun. unfold finish in Hrun. rewrite Hst in Hrun.
  simpl in Hrun.
  exists (firstn 4 ts), (F32.of_f64 F64.one), ([] ++ [released c]).
  split; [exact Hrun |]. split; [vm_compute; reflexivity |].
  unfold has_shape4. rewrite length_firstn, Hlen.
  replace (List.length (supplied Demo.platform "/data/video/A.mp4" 0 8))
    with 8%nat by (vm_compute; reflexivity).
  reflexivity.
Qed.

(** ** Short reads *)

(** C6, evaluated where it fails: [B.mp4] reports 14 frames and decodes 4,
    so the samples starting at frame 4 exist and their first read fails;
    the read loop leaves with no frame and [torch.stack] of the empty list
    raises, in both datasets. *)
Theorem C6_zero_frames_raises :
  py_index (m_samples (fst demo_multi_run)) 9
  = Ok ("/data/video/B.mp4"%string, 4, F64.zero, Demo.default_roi)
  /\ py_index (s_samples (fst demo_single_run)) 4
     = Ok ("/data/video/B.mp4"%string, 4, F64.zero)
  /\ supplied Demo.platform "/data/video/B.mp4" 4 8 = []
  /\ fst (multi_getitem Demo.platform (fst demo_multi_run) 9 [])
     = Raise RuntimeError
  /\ fst (single_getitem Demo.platform (fst demo_single_run) 4 [])
     = Raise RuntimeError.
Proof. vm_compute. repeat split; reflexivity. Qed.

(** ** Release of the decoder handle *)

Lemma open_handles_snoc hs c :
  open_handles (hs ++ [c])
  = (open_handles hs + if cap_opened c then 1 else 0)%nat.
Proof.
  unfold open_handles. rewrite filter_app, length_app. simpl.
  now destruct (cap_opened c).
Qed.

Lemma multi_getitem_releases P self idx hs vpath start label roi x1 y1 x2 y2 :
  py_index (m_samples self) idx = Ok (vpath, start, label, roi) ->
  unpack4 roi = Ok (x1, y1, x2, y2) ->
  Forall (croppable x1 y1 x2 y2) (supplied P vpath start (m_seq_len self)) ->
  exists c,
    snd (multi_getitem P self idx hs) = hs ++ [c]
    /\ cap_opened c = false
    /\ open_handles (snd (multi_getitem P self idx hs)) = open_handles hs.
Proof.
  intros Hidx Hroi Hcr.
  destruct (multi_getitem_run P self idx hs _ _ _ _ _ _ _ _ Hidx Hroi)
    as (c & _ & _ & Hrun).
  destruct (omap_process_total P x1 y1 x2 y2 _ Hcr) as (ts & Hts).
  rewrite Hts in Hrun. rewrite Hrun. simpl.
  exists (released c). split; [reflexivity |]. split; [reflexivity |].
  rewrite open_handles_snoc. simpl. lia.
Qed.

Lemma single_getitem_releases P self idx hs vpath start label x1 y1 x2 y2 :
  py_index (s_samples self) idx = Ok (vpath, start, label) ->
  unpack4 (s_roi self) = Ok (x1, y1, x2, y2) ->
  Forall (croppable x1 y1 x2 y2) (supplied P vpath start (s_seq_len self)) ->
  exists c,
    snd (single_getitem P self idx hs) = hs ++ [c]
    /\ cap_opened c = false
    /\ open_handles (snd (single_getitem P self idx hs)) = open_handles hs.
Proof.
  intros Hidx Hroi Hcr.
  destruct (single_getitem_run P self idx hs _ _ _ _ _ _ _ Hidx Hroi)
    as (c & _ & _ & Hrun).
  destruct (omap_process_total P x1 y1 x2 y2 _ Hcr) as (ts & Hts).
  rewrite Hts in Hrun. rewrite Hrun. simpl.
  exists (released c). split; [reflexivity |]. split; [reflexivity |].
  rewrite open_handles_snoc. simpl. lia.
Qed.

(** C7 (amended): in an access whose ROI unpacks into four bounds and whose
    supplied frames all crop to a non-empty patch, so that nothing raises
    between opening the handle and the release statement, the handle the
    access opened is released whatever the outcome: after [seq_len] reads,
    after leaving the loop at a failed read, and before an error of
    [torch.stack] or of the transform.  No handle that was open before is
    touched, and the number of open handles is the one before the
    access. *)
Theorem C7_release_when_loop_completes (P : Platform) :
  (forall self idx hs vpath start label roi x1 y1 x2 y2,
      py_index (m_samples self) idx = Ok (vpath, start, label, roi) ->
      unpack4 roi = Ok (x1, y1, x2, y2) ->
      Forall (croppable x1 y1 x2 y2) (supplied P vpath start (m_seq_len self)) ->
      exists c,
        snd (multi_getitem P self idx hs) = hs ++ [c]
        /\ cap_opened c = false
        /\ open_handles (snd (multi_getitem P self idx hs)) = open_handles hs)
  /\ (forall self idx hs vpath start label x1 y1 x2 y2,
        py_index (s_samples self) idx = Ok (vpath, start, label) ->
        unpack4 (s_roi self) = Ok (x1, y1, x2, y2) ->
        Forall (croppable x1 y1 x2 y2) (supplied P vpath start (s_seq_len self)) ->
        exists c,
          snd (single_getitem P self idx hs) = hs ++ [c]
          /\ cap_opened c = false
          /\ open_handles (snd (single_getitem P self idx hs)) = open_handles hs).
Proof.
  split; intros.
  - eapply multi_getitem_releases; eauto.
  - eapply single_getitem_releases; eauto.
Qed.

(** C7 on the concrete platform: a full read in the multi-video dataset
    and, in the single-video dataset, the access that ends in the error of
    [torch.stack]. *)
Lemma C7_release_witness :
  (exists c,
      snd (multi_getitem Demo.platform (fst demo_multi_run) 0 []) = [] ++ [c]
      /\ cap_opened c = false
      /\ open_handles (snd (multi_getitem Demo.platform (fst demo_multi_run) 0 []))
         = open_handles [])
  /\ (exists c,
        snd (single_getitem Demo.platform (fst demo_single_run) 4 []) = [] ++ [c]
        /\ cap_opened c = false
        /\ open_handles
             (snd (single_getitem Demo.platform (fst demo_single_run) 4 []))
           = open_handles []).
Proof.
  split.
  - apply (proj1 (C7_release_when_loop_completes Demo.platform)
             (fst demo_multi_run) 0 [] "/data/video/A.mp4"%string 0 F64.one
             Demo.roi2x2 (JInt 0) (JInt 0) (JInt 2) (JInt 2)).
    + vm_compute. reflexivity.
    + reflexivity.
    + apply (demo_croppable 8).
  - apply (proj2 (C7_release_when_loop_completes Demo.platform)
             (fst demo_single_run) 4 [] "/data/video/B.mp4"%string 4 F64.zero
             (JInt 0) (JInt 0) (JInt 2) (JInt 2)).
    + vm_compute. reflexivity.
    + reflexivity.
    + vm_compute. constructor.
Defined.

(** The claim as stated fails on the exit path of an exception raised
    inside the loop: sample 5 of the multi-video dataset is the first
    window of [B.mp4] with the default ROI (1150, 300, 1600, 700); the
    2 x 2 frame crops to an empty patch, [cv2.resize] raises, and the
    handle opened by the access is still open afterwards. *)
Lemma C7_counterexample_leak :
  py_index (m_samples (fst demo_multi_run)) 5
  = Ok ("/data/video/B.mp4"%string, 0, F64.one, Demo.default_roi)
  /\ fst (multi_getitem Demo.platform (fst demo_multi_run) 5 [])
     = Raise CvError
  /\ open_handles [] = 0%nat
  /\ open_handles (snd (multi_getitem Demo.platform (fst demo_multi_run) 5 []))
     = 1%nat.
Proof. vm_compute. repeat split; reflexivity. Qed.

(** ** The annotation loader *)

Lemma load_event_frame_pairs P item ann ranges :
  py_getitem item "annotations" = Ok (JDict ann) ->
  dict_lookup "event_frame" ann
  = Some (JList (map (fun r => JList [JInt (fst r); JInt (snd r)]) ranges)) ->
  load_event_frame P item = Ok ranges.
Proof.
  intros Hann Hef. unfold load_event_frame. rewrite Hann. simpl.
  rewrite Hef. simpl. clear Hef.
  induction ranges as [| [s e] ranges IH]; simpl; [reflexivity |].
  now rewrite IH.
Qed.

Lemma load_roi_present item ann default_roi l :
  py_getitem item "annotations" = Ok (JDict ann) ->
  dict_lookup "roi" ann = Some (JList l) ->
  load_roi item default_roi = Ok l.
Proof. intros Hann Hroi. unfold load_roi. rewrite Hann. simpl. now rewrite Hroi. Qed.

Lemma load_roi_absent item ann default_roi :
  py_getitem item "annotations" = Ok (JDict ann) ->
  dict_lookup "roi" ann = None ->
  load_roi item default_roi = Ok default_roi.
Proof. intros Hann Hroi. unfold load_roi. rewrite Hann. simpl. now rewrite Hroi. Qed.

Lemma multi_file_loads P seq_len default_roi video_dir samples ann_path hs r hs' :
  multi_file P seq_len default_roi video_dir samples ann_path hs = (Ok r, hs') ->
  exists item roi anomaly_frames b,
    json_load P ann_path = Ok item
    /\ load_roi item default_roi = Ok roi
    /\ load_event_frame P item = Ok anomaly_frames
    /\ r = samples ++ b
    /\ Forall (fun s => sample_roi s = roi) b
    /\ map (fun s => (sample_start s, snd (fst s))) b
       = sample_indexer (reported_frames P (derive_vpath P video_dir ann_path))
           seq_len anomaly_frames.
Proof.
  unfold multi_file, bind, lift.
  destruct (json_load P ann_path) as [item |] eqn:Hitem; [| discriminate].
  destruct (load_roi item default_roi) as [roi |] eqn:Hroi; [| discriminate].
  destruct (load_event_frame P item) as [rs |] eqn:Hrs; [| discriminate].
  rewrite query_frame_count_run. unfold ret. intros H. inversion H; subst.
  rewrite index_windows_indexer.
  exists item, roi, rs. eexists.
  split; [reflexivity |]. split; [exact Hroi |]. split; [exact Hrs |].
  split; [reflexivity |]. split.
  - apply Forall_forall. intros s Hin. apply in_map_iff in Hin.
    destruct Hin as (q & <- & _). reflexivity.
  - rewrite map_map. unfold sample_start. simpl.
    rewrite <- (map_id (sample_indexer _ _ _)) at 2.
    apply map_ext. now intros [a b].
Qed.

Lemma single_init_roi P ann_path seq_len fps roi tr hs ds hs' :
  single_init P ann_path seq_len fps roi tr hs = (Ok ds, hs') ->
  s_roi ds = roi /\ s_fps ds = fps /\ s_seq_len ds = seq_len.
Proof.
  unfold single_init, bind, lift.
  destruct (json_load P ann_path) as [item |]; [| discriminate].
  rewrite query_frame_count_run.
  destruct (load_event_frame P item) as [rs |]; [| discriminate].
  unfold ret. intros H. inversion H; subst. auto.
Qed.

(** C8 (amended): from a record whose [annotations] section lists its
    event ranges as integer pairs the loader returns exactly these ranges;
    in the multi-video dataset every sample of a file carries the record's
    [roi] list when the key is present and the caller's [default_roi]
    unchanged when it is absent; the single-video dataset does not read
    the key: its ROI is the constructor's [roi] argument, whatever the
    record says. *)
Theorem C8_roi_of_record (P : Platform) :
  (forall item ann ranges,
      py_getitem item "annotations" = Ok (JDict ann) ->
      dict_lookup "event_frame" ann
      = Some (JList (map (fun r => JList [JInt (fst r); JInt (snd r)]) ranges)) ->
      load_event_frame P item = Ok ranges)
  /\ (forall item ann default_roi,
        py_getitem item "annotations" = Ok (JDict ann) ->
        (forall l, dict_lookup "roi" ann = Some (JList l) ->
                   load_roi item default_roi = Ok l)
        /\ (dict_lookup "roi" ann = None ->
            load_roi item default_roi = Ok default_roi))
  /\ (forall seq_len default_roi video_dir samples ann_path hs r hs',
        multi_file P seq_len default_roi video_dir samples ann_path hs
        = (Ok r, hs') ->
        exists item roi anomaly_frames b,
          json_load P ann_path = Ok item
          /\ load_roi item default_roi = Ok roi
          /\ load_event_frame P item = Ok anomaly_frames
          /\ r = samples ++ b
          /\ Forall (fun s => sample_roi s = roi) b
          /\ map (fun s => (sample_start s, snd (fst s))) b
             = sample_indexer
                 (reported_frames P (derive_vpath P video_dir ann_path))
                 seq_len anomaly_frames)
  /\ (forall ann_path seq_len fps roi tr hs ds hs',
        single_init P ann_path seq_len fps roi tr hs = (Ok ds, hs') ->
        s_roi ds = roi).
Proof.
  split; [| split; [| split]].
  - intros. eapply load_event_frame_pairs; eauto.
  - intros item ann default_roi Hann. split.
    + intros l Hl. eapply load_roi_present; eauto.
    + intros Hn. eapply load_roi_absent; eauto.
  - intros. eapply multi_file_loads; eauto.
  - intros. eapply single_init_roi; eauto.
Qed.

(** C8 on the concrete platform: [A.json] has a [roi], [B.json] has none. *)
Lemma C8_roi_witness :
  load_event_frame Demo.platform Demo.recordA = Ok [(5, 9)]
  /\ load_roi Demo.recordA Demo.default_roi = Ok Demo.roi2x2
  /\ load_roi Demo.recordB Demo.default_roi = Ok Demo.default_roi
  /\ (exists item roi anomaly_frames b,
        json_load Demo.platform "/data/label/B.json" = Ok item
        /\ load_roi item Demo.default_roi = Ok roi
        /\ load_event_frame Demo.platform item = Ok anomaly_frames
        /\ fst (multi_file Demo.platform 8 Demo.default_roi "/data/video" []
                  "/data/label/B.json" [])
           = Ok ([] ++ b)
        /\ Forall (fun s => sample_roi s = roi) b
        /\ map (fun s => (sample_start s, snd (fst s))) b
           = sample_indexer
               (reported_frames Demo.platform
                  (derive_vpath Demo.platform "/data/video" "/data/label/B.json"))
               8 anomaly_frames)
  /\ s_roi (fst demo_single_run) = Demo.roi2x2.
Proof.
  pose proof (C8_roi_of_record Demo.platform) as (Hef & Hroi & Hfile & Hsingle).
  split; [| split; [| split; [| split]]].
  - apply (Hef Demo.recordA
             [("event_frame", JList [Demo.int_pair 5 9]);
              ("roi", JList Demo.roi2x2)]%string [(5, 9)]); reflexivity.
  - apply (proj1 (Hroi Demo.recordA
             [("event_frame", JList [Demo.int_pair 5 9]);
              ("roi", JList Demo.roi2x2)]%string Demo.default_roi eq_refl)).
    reflexivity.
  - apply (proj2 (Hroi Demo.recordB
             [("event_frame", JList [Demo.int_pair 1 2])]%string
             Demo.default_roi eq_refl)).
    reflexivity.
  - destruct (Hfile 8 Demo.default_roi "/data/video"%string []
                "/data/label/B.json"%string []
                (fst (run_or (multi_file Demo.platform 8 Demo.default_roi
                                "/data/video" [] "/data/label/B.json") [] []))
                (snd (run_or (multi_file Demo.platform 8 Demo.default_roi
                                "/data/video" [] "/data/label/B.json") [] [])))
      as (item & roi & rs & b & H1 & H2 & H3 & H4 & H5 & H6).
    { vm_compute. reflexivity. }
    exists item, roi, rs, b. repeat (split; [assumption |]).
    split; [| split; assumption].
    rewrite <- H4. vm_compute. reflexivity.
  - apply (Hsingle "/data/label/B.json"%string 8 8 Demo.roi2x2 None []
             (fst demo_single_run) (snd demo_single_run)).
    vm_compute. reflexivity.
Defined.

(** The claim as stated fails for the single-video dataset: [A.json] has a
    [roi] of its own, and the dataset built from it with the default ROI
    argument keeps the argument. *)
Lemma C8_counterexample_single :
  fs_file Demo.platform "/data/label/A.json" = Parsed Demo.recordA
  /\ load_roi Demo.recordA Demo.default_roi = Ok Demo.roi2x2
  /\ exists ds hs',
       single_init Demo.platform "/data/label/A.json" 8 8 Demo.default_roi
         None [] = (Ok ds, hs')
       /\ s_roi ds = Demo.default_roi
       /\ s_roi ds <> Demo.roi2x2.
Proof.
  split; [reflexivity |]. split; [reflexivity |].
  eexists. eexists. split; [vm_compute; reflexivity |].
  split; [reflexivity | discriminate].
Qed.

(** ** Records the loader rejects *)

Lemma rejected_load P ann_path :
  rejected P (fs_file P ann_path) ->
  is_ok (obind (json_load P ann_path) (load_event_frame P)) = false.
Proof.
  unfold json_load. intros Hrej.
  destruct (fs_file P ann_path) as [| | item]; try reflexivity.
  inversion Hrej as
    [ | | i Ha | i ann Ha He | i ann ef Ha He Hi
    | i ann ef entries x Ha He Hi Hin Hx ];
    subst; simpl; unfold load_event_frame.
  - destruct (py_getitem item "annotations"); [discriminate | reflexivity].
  - rewrite Ha. simpl.
    destruct (py_getitem ann "event_frame"); [discriminate | reflexivity].
  - rewrite Ha. simpl. rewrite He. simpl.
    destruct (py_iter ef); [discriminate | reflexivity].
  - rewrite Ha. simpl. rewrite He. simpl. rewrite Hi. simpl.
    eapply omap_raise; eauto.
Qed.

Lemma multi_file_rejected P seq_len default_roi video_dir samples ann_path hs :
  rejected P (fs_file P ann_path) ->
  exists e,
    multi_file P seq_len default_roi video_dir samples ann_path hs
    = (Raise e, hs).
Proof.
  intros Hrej. apply rejected_load in Hrej.
  unfold multi_file, bind, lift.
  destruct (json_load P ann_path) as [item | e]; [| eauto].
  destruct (load_roi item default_roi) as [roi | e]; [| eauto].
  simpl in Hrej.
  destruct (load_event_frame P item) as [rs | e]; [discriminate | eauto].
Qed.

Lemma single_init_rejected P ann_path seq_len fps roi tr hs :
  rejected P (fs_file P ann_path) ->
  exists e hs', single_init P ann_path seq_len fps roi tr hs = (Raise e, hs').
Proof.
  intros Hrej. apply rejected_load in Hrej.
  unfold single_init, bind, lift.
  destruct (json_load P ann_path) as [item | e]; [| eauto].
  rewrite query_frame_count_run. simpl in Hrej.
  destruct (load_event_frame P item) as [rs | e]; [discriminate | eauto].
Qed.

Lemma multi_files_rejected P seq_len default_roi video_dir paths ann_path :
  In ann_path paths ->
  rejected P (fs_file P ann_path) ->
  forall samples hs,
  exists e hs',
    multi_files P seq_len default_roi video_dir paths samples hs
    = (Raise e, hs').
Proof.
  intros Hin Hrej. induction paths as [| p paths IH]; [contradiction |].
  intros samples hs. simpl. unfold bind at 1.
  destruct (multi_file P seq_len default_roi video_dir samples p hs)
    as [[s1 | e] hs1] eqn:Hf; [| eauto].
  destruct Hin as [-> | Hin].
  - destruct (multi_file_rejected P seq_len default_roi video_dir samples
                ann_path hs Hrej) as (e & He).
    congruence.
  - apply (IH Hin).
Qed.

Lemma multi_init_rejected P label_dir seq_len default_roi tr hs ann_path :
  In ann_path (multi_json_paths P label_dir) ->
  rejected P (fs_file P ann_path) ->
  exists e hs',
    multi_init P label_dir seq_len default_roi tr hs = (Raise e, hs').
Proof.
  intros Hin Hrej. unfold multi_init. fold (multi_json_paths P label_dir).
  destruct (multi_files_rejected P seq_len default_roi
              (os_path_join P (os_path_dirname P label_dir) "video")
              _ _ Hin Hrej [] hs) as (e & hs' & Hrun).
  unfold bind. rewrite Hrun. eauto.
Qed.

(** C9 (amended): for an annotation record that cannot be read or parsed,
    that lacks the [annotations] section or the [event_frame] list, or
    whose [event_frame] is not an iterable of two-item iterables of values
    accepted by [int], construction raises at load time: the
    single-video constructor returns no dataset; the multi-video loop body
    raises before the record's video is opened, hence before any of its
    samples is indexed; and one such record among the discovered files
    makes the multi-video constructor raise, whatever the other files
    are.  A missing key is a [KeyError] naming the key and an unparsable
    file a [JSONDecodeError]. *)
Theorem C9_rejected_record_raises (P : Platform) :
  (forall ann_path seq_len fps roi tr hs,
      rejected P (fs_file P ann_path) ->
      exists e hs', single_init P ann_path seq_len fps roi tr hs = (Raise e, hs'))
  /\ (forall seq_len default_roi video_dir samples ann_path hs,
        rejected P (fs_file P ann_path) ->
        exists e,
          multi_file P seq_len default_roi video_dir samples ann_path hs
          = (Raise e, hs))
  /\ (forall label_dir seq_len default_roi tr hs ann_path,
        In ann_path (multi_json_paths P label_dir) ->
        rejected P (fs_file P ann_path) ->
        exists e hs',
          multi_init P label_dir seq_len default_roi tr hs = (Raise e, hs'))
  /\ (forall ann_path seq_len fps roi tr hs default_roi video_dir samples,
        fs_file P ann_path = NotJson ->
        fst (single_init P ann_path seq_len fps roi tr hs) = Raise JSONDecodeError
        /\ multi_file P seq_len default_roi video_dir samples ann_path hs
           = (Raise JSONDecodeError, hs))
  /\ (forall ann_path kvs seq_len fps roi tr hs default_roi video_dir samples,
        fs_file P ann_path = Parsed (JDict kvs) ->
        dict_lookup "annotations" kvs = None ->
        fst (single_init P ann_path seq_len fps roi tr hs)
        = Raise (KeyError "annotations")
        /\ multi_file P seq_len default_roi video_dir samples ann_path hs
           = (Raise (KeyError "annotations"), hs))
  /\ (forall ann_path kvs ann seq_len fps roi tr hs default_roi video_dir samples,
        fs_file P ann_path = Parsed (JDict kvs) ->
        dict_lookup "annotations" kvs = Some (JDict ann) ->
        dict_lookup "event_frame" ann = None ->
        fst (single_init P ann_path seq_len fps roi tr hs)
        = Raise (KeyError "event_frame")
        /\ exists e,
             multi_file P seq_len default_roi video_dir samples ann_path hs
             = (Raise e, hs)
             /\ (is_ok (load_roi (JDict kvs) default_roi) = true ->
                 e = KeyError "event_frame")).
Proof.
  split; [| split; [| split; [| split; [| split]]]].
  - intros. now apply single_init_rejected.
  - intros. now apply multi_file_rejected.
  - intros. eapply multi_init_rejected; eauto.
  - intros ann_path seq_len fps roi tr hs default_roi video_dir samples Hf.
    unfold single_init, multi_file, bind, lift, json_load. now rewrite Hf.
  - intros ann_path kvs seq_len fps roi tr hs default_roi video_dir samples
      Hf Hk.
    unfold single_init, multi_file, bind, lift, json_load. rewrite Hf.
    rewrite query_frame_count_run.
    unfold load_event_frame, load_roi, py_getitem. now rewrite Hk.
  - intros ann_path kvs ann seq_len fps roi tr hs default_roi video_dir
      samples Hf Hk He.
    unfold single_init, multi_file, bind, lift, json_load. rewrite Hf.
    rewrite query_frame_count_run.
    unfold load_event_frame, py_getitem. rewrite Hk. simpl. rewrite He.
    simpl. split; [reflexivity |].
    destruct (load_roi (JDict kvs) default_roi) as [r | e].
    + eexists. split; [reflexivity | reflexivity].
    + eexists. split; [reflexivity | discriminate].
Qed.

Lemma demo_K_rejected :
  rejected Demo.platform (fs_file Demo.platform "/bad/label/K.json").
Proof.
  change (fs_file Demo.platform "/bad/label/K.json") with (Parsed Demo.recordK).
  eapply rej_event_frame; reflexivity.
Qed.

(** C9 on the concrete platform: [K.json] has no [event_frame], [N.json]
    no [annotations], [X.json] is not JSON; the directory [/bad/label]
    holds the good record [A.json] followed by [K.json]. *)
Lemma C9_rejected_witness :
  (exists e hs',
      single_init Demo.platform "/bad/label/K.json" 8 8 Demo.roi2x2 None []
      = (Raise e, hs'))
  /\ (exists e,
        multi_file Demo.platform 8 Demo.default_roi "/bad/video" []
          "/bad/label/K.json" [] = (Raise e, []))
  /\ (exists e hs',
        multi_init Demo.platform "/bad/label" 8 Demo.default_roi None []
        = (Raise e, hs'))
  /\ (fst (single_init Demo.platform "/bad/label/X.json" 8 8 Demo.roi2x2 None [])
      = Raise JSONDecodeError
      /\ multi_file Demo.platform 8 Demo.default_roi "/bad/video" []
           "/bad/label/X.json" [] = (Raise JSONDecodeError, []))
  /\ (fst (single_init Demo.platform "/bad/label/N.json" 8 8 Demo.roi2x2 None [])
      = Raise (KeyError "annotations")
      /\ multi_file Demo.platform 8 Demo.default_roi "/bad/video" []
           "/bad/label/N.json" [] = (Raise (KeyError "annotations"), []))
  /\ (fst (single_init Demo.platform "/bad/label/K.json" 8 8 Demo.roi2x2 None [])
      = Raise (KeyError "event_frame")
      /\ exists e,
           multi_file Demo.platform 8 Demo.default_roi "/bad/video" []
             "/bad/label/K.json" [] = (Raise e, [])
           /\ (is_ok (load_roi Demo.recordK Demo.default_roi) = true ->
               e = KeyError "event_frame")).
Proof.
  pose proof (C9_rejected_record_raises Demo.platform)
    as (Hs & Hf & Hm & Hx & Hn & Hk).
  split; [| split; [| split; [| split; [| split]]]].
  - apply Hs. exact demo_K_rejected.
  - apply Hf. exact demo_K_rejected.
  - apply (Hm "/bad/label"%string 8 Demo.default_roi None []
             "/bad/label/K.json"%string).
    + vm_compute. right. left. reflexivity.
    + exact demo_K_rejected.
  - apply Hx. reflexivity.
  - apply (Hn "/bad/label/N.json"%string [("video", JStr "A.mp4")]%string);
      reflexivity.
  - apply (Hk "/bad/label/K.json"%string
             [("annotations", JDict [("roi", JList Demo.roi2x2)])]%string
             [("roi", JList Demo.roi2x2)]%string);
      reflexivity.
Defined.

Example demo_bad_directory :
  fst (multi_init Demo.platform "/bad/label" 8 Demo.default_roi None [])
  = Raise (KeyError "event_frame").
Proof. vm_compute. reflexivity. Qed.

(** The claim as stated fails for a record whose required field is there
    but malformed: the range of [F.json] is the pair of floats 5.5 and
    9.5, not an integer pair; [int] truncates both and the dataset is
    built with the range (5, 9). *)
Lemma C9_counterexample_coerced :
  fs_file Demo.platform "/data/label/F.json" = Parsed Demo.recordF
  /\ spec_well_formed_record Demo.recordF = false
  /\ load_event_frame Demo.platform Demo.recordF = Ok [(5, 9)]
  /\ exists ds hs',
       single_init Demo.platform "/data/label/F.json" 8 8 Demo.roi2x2 None []
       = (Ok ds, hs')
       /\ single_len ds = 5.
Proof.
  split; [reflexivity |]. split; [vm_compute; reflexivity |].
  split; [vm_compute; reflexivity |].
  eexists. eexists. split; vm_compute; reflexivity.
Qed.

(** ** The [fps] argument *)

(** C10: two single-video constructions that differ only in [fps] end the
    same way: both raise the same exception, or both return datasets with
    the same samples list (video path, start index and label at every
    position); the handle table is the same too. *)
Theorem C10_fps_irrelevant (P : Platform) (ann_path : string)
  (seq_len fps1 fps2 : Z) (roi : list json) (tr : transform_t) (hs : handles) :
  outcome_map s_samples (fst (single_init P ann_path seq_len fps1 roi tr hs))
  = outcome_map s_samples (fst (single_init P ann_path seq_len fps2 roi tr hs))
  /\ snd (single_init P ann_path seq_len fps1 roi tr hs)
     = snd (single_init P ann_path seq_len fps2 roi tr hs).
Proof.
  unfold single_init, bind, lift.
  destruct (json_load P ann_path) as [item | e]; [| split; reflexivity].
  rewrite query_frame_count_run.
  destruct (load_event_frame P item) as [rs | e]; split; reflexivity.
Qed.

Example demo_fps :
  outcome_map s_samples
    (fst (single_init Demo.platform "/data/label/A.json" 8 8 Demo.roi2x2 None []))
  = outcome_map s_samples
      (fst (single_init Demo.platform "/data/label/A.json" 8 30 Demo.roi2x2 None []))
  /\ is_ok (fst (single_init Demo.platform "/data/label/A.json" 8 30
                   Demo.roi2x2 None [])) = true.
Proof. vm_compute. split; reflexivity. Qed.

(* ================================================================== *)
(** * Further properties of the constructors and of [__getitem__] *)

(** ** What the constructors store *)

Lemma single_init_run P ann_path seq_len fps roi tr hs :
  single_init P ann_path seq_len fps roi tr hs
  = match json_load P ann_path with
    | Raise e => (Raise e, hs)
    | Ok item =>
        match load_event_frame P item with
        | Raise e =>
            (Raise e, hs ++ [closed_capture P (single_video_path P ann_path)])
        | Ok rs =>
            (Ok {| s_seq_len := seq_len; s_fps := fps; s_transform := tr;
                   s_roi := roi;
                   s_samples :=
                     map (fun p => (single_video_path P ann_path, fst p, snd p))
                       (sample_indexer
                          (reported_frames P (single_video_path P ann_path))
                          seq_len rs) |},
             hs ++ [closed_capture P (single_video_path P ann_path)])
        end
    end.
Proof.
  unfold single_init, bind, lift. fold (single_video_path P ann_path).
  destruct (json_load P ann_path) as [item | e]; [| reflexivity].
  rewrite query_frame_count_run.
  destruct (load_event_frame P item) as [rs | e]; [| reflexivity].
  unfold ret. now rewrite index_windows_indexer.
Qed.

Lemma single_sample_facts P ann_path seq_len fps roi tr hs ds hs' s :
  single_init P ann_path seq_len fps roi tr hs = (Ok ds, hs') ->
  In s (s_samples ds) ->
  exists rs,
    ssample_video s = single_video_path P ann_path
    /\ 0 <= ssample_start s
       < reported_frames P (single_video_path P ann_path) - seq_len + 1
    /\ ssample_label s = window_label seq_len rs (ssample_start s)
    /\ s_seq_len ds = seq_len.
Proof.
  rewrite single_init_run.
  destruct (json_load P ann_path) as [item |]; [| discriminate].
  destruct (load_event_frame P item) as [rs |]; [| discriminate].
  intros H Hin. inversion H; subst; clear H. simpl in Hin.
  apply in_map_iff in Hin. destruct Hin as ([start label] & <- & Hin).
  apply sample_indexer_In in Hin. destruct Hin as [Hr ->].
  exists rs. unfold ssample_video, ssample_start, ssample_label. simpl.
  repeat split; try reflexivity; lia.
Qed.

Lemma multi_init_blocks P label_dir seq_len default_roi tr hs ds hs' :
  multi_init P label_dir seq_len default_roi tr hs = (Ok ds, hs') ->
  m_seq_len ds = seq_len
  /\ exists blocks,
       m_samples ds = concat blocks
       /\ Forall2 (file_block P label_dir seq_len)
            (multi_json_paths P label_dir) blocks.
Proof.
  unfold multi_init. fold (multi_json_paths P label_dir).
  fold (multi_video_dir P label_dir). unfold bind at 1.
  destruct (multi_files P seq_len default_roi (multi_video_dir P label_dir)
              (multi_json_paths P label_dir) [] hs)
    as [[samples | e] hs1] eqn:Hrun; [| discriminate].
  unfold ret. intros H. inversion H; subst; clear H. simpl.
  apply multi_files_ok in Hrun. destruct Hrun as (blocks & -> & Hbl).
  split; [reflexivity |]. exists blocks. auto.
Qed.

Lemma Forall2_concat_In {A B} (R : A -> list B -> Prop) l blocks x :
  Forall2 R l blocks -> In x (concat blocks) ->
  exists a b, In a l /\ R a b /\ In x b.
Proof.
  induction 1 as [| a b l blocks Hab _ IH]; simpl; [tauto |].
  intros Hin. apply in_app_or in Hin. destruct Hin as [Hin | Hin].
  - exists a, b. auto.
  - destruct (IH Hin) as (a' & b' & Ha & Hr & Hx). exists a', b'. auto.
Qed.

Lemma multi_sample_facts P label_dir seq_len default_roi tr hs ds hs' s :
  multi_init P label_dir seq_len default_roi tr hs = (Ok ds, hs') ->
  In s (m_samples ds) ->
  exists ann_path rs,
    In ann_path (multi_json_paths P label_dir)
    /\ sample_video s = derive_vpath P (multi_video_dir P label_dir) ann_path
    /\ 0 <= sample_start s < reported_frames P (sample_video s) - seq_len + 1
    /\ sample_label s = window_label seq_len rs (sample_start s)
    /\ m_seq_len ds = seq_len.
Proof.
  intros Hinit Hin. apply multi_init_blocks in Hinit.
  destruct Hinit as (Hsl & blocks & Hs & Hbl). rewrite Hs in Hin.
  destruct (Forall2_concat_In _ _ _ _ Hbl Hin)
    as (p & b & Hp & (roi & rs & ->) & Hx).
  apply in_map_iff in Hx. destruct Hx as ([start label] & <- & Hx).
  apply sample_indexer_In in Hx. destruct Hx as [Hr ->].
  exists p, rs. unfold sample_video, sample_start, sample_label. simpl.
  repeat split; auto; lia.
Qed.

(** X1: every sample a constructor stores is a window inside the frame
    count reported for its video: [0 <= start] and
    [start + seq_len <= frame_count], in both datasets. *)
Theorem X1_windows_within_reported_frames (P : Platform) :
  (forall label_dir seq_len default_roi tr hs ds hs' s,
      multi_init P label_dir seq_len default_roi tr hs = (Ok ds, hs') ->
      In s (m_samples ds) ->
      0 <= sample_start s
      /\ sample_start s + m_seq_len ds <= reported_frames P (sample_video s))
  /\ (forall ann_path seq_len fps roi tr hs ds hs' s,
        single_init P ann_path seq_len fps roi tr hs = (Ok ds, hs') ->
        In s (s_samples ds) ->
        0 <= ssample_start s
        /\ ssample_start s + s_seq_len ds
           <= reported_frames P (ssample_video s)).
Proof.
  split.
  - intros label_dir seq_len default_roi tr hs ds hs' s Hinit Hin.
    destruct (multi_sample_facts _ _ _ _ _ _ _ _ _ Hinit Hin)
      as (p & rs & _ & _ & Hr & _ & ->). lia.
  - intros ann_path seq_len fps roi tr hs ds hs' s Hinit Hin.
    destruct (single_sample_facts _ _ _ _ _ _ _ _ _ _ Hinit Hin)
      as (rs & -> & Hr & _ & ->). lia.
Qed.

Lemma X1_windows_witness :
  (0 <= sample_start ("/data/video/B.mp4"%string, 6, F64.zero, Demo.default_roi)
   /\ sample_start ("/data/video/B.mp4"%string, 6, F64.zero, Demo.default_roi)
      + m_seq_len (fst demo_multi_run)
      <= reported_frames Demo.platform
           (sample_video
              ("/data/video/B.mp4"%string, 6, F64.zero, Demo.default_roi)))
  /\ (0 <= ssample_start ("/data/video/B.mp4"%string, 6, F64.zero)
      /\ ssample_start ("/data/video/B.mp4"%string, 6, F64.zero)
         + s_seq_len (fst demo_single_run)
         <= reported_frames Demo.platform
              (ssample_video ("/data/video/B.mp4"%string, 6, F64.zero))).
Proof.
  split.
  - apply (proj1 (X1_windows_within_reported_frames Demo.platform)
             "/data/label"%string 8 Demo.default_roi None []
             (fst demo_multi_run) (snd demo_multi_run)).
    + vm_compute. reflexivity.
    + vm_compute. do 11 right. left. reflexivity.
  - apply (proj2 (X1_windows_within_reported_frames Demo.platform)
             "/data/label/B.json"%string 8 8 Demo.roi2x2 None []
             (fst demo_single_run) (snd demo_single_run)).
    + vm_compute. reflexivity.
    + vm_compute. do 6 right. left. reflexivity.
Defined.

(** ** The outcomes of an access *)

Lemma py_index_In {A} (l : list A) idx x : py_index l idx = Ok x -> In x l.
Proof.
  unfold py_index.
  destruct ((0 <=? _) && _); [| discriminate].
  destruct (nth_error l _) as [y |] eqn:Hn; [| discriminate].
  intros H. inversion H; subst. eapply nth_error_In; eauto.
Qed.

Lemma multi_getitem_cases P self idx hs :
  (exists e, py_index (m_samples self) idx = Raise e
             /\ multi_getitem P self idx hs = (Raise e, hs))
  \/ (exists vpath start label roi e,
         py_index (m_samples self) idx = Ok (vpath, start, label, roi)
         /\ unpack4 roi = Raise e
         /\ multi_getitem P self idx hs = (Raise e, hs))
  \/ (exists vpath start label roi x1 y1 x2 y2 c,
         py_index (m_samples self) idx = Ok (vpath, start, label, roi)
         /\ unpack4 roi = Ok (x1, y1, x2, y2)
         /\ cap_opened c = cap_opened (seeked P vpath start)
         /\ multi_getitem P self idx hs
            = match omap (fun img => process_frame P img x1 y1 x2 y2)
                      (supplied P vpath start (m_seq_len self)) with
              | Ok ts => (finish (m_transform self) label ts, hs ++ [released c])
              | Raise e => (Raise e, hs ++ [c])
              end).
Proof.
  destruct (py_index (m_samples self) idx) as [[[[vpath start] label] roi] | e]
    eqn:Hidx.
  - destruct (unpack4 roi) as [[[[x1 y1] x2] y2] | e] eqn:Hroi.
    + right. right.
      destruct (multi_getitem_run P self idx hs _ _ _ _ _ _ _ _ Hidx Hroi)
        as (c & _ & Ho & Hrun).
      exists vpath, start, label, roi, x1, y1, x2, y2, c. auto.
    + right. left. exists vpath, start, label, roi, e.
      repeat split; auto. eapply multi_getitem_bad_roi; eauto.
  - left. exists e. split; [reflexivity |].
    now apply getitem_bad_index_multi.
Qed.

Lemma single_getitem_cases P self idx hs :
  (exists e, py_index (s_samples self) idx = Raise e
             /\ single_getitem P self idx hs = (Raise e, hs))
  \/ (exists vpath start label e,
         py_index (s_samples self) idx = Ok (vpath, start, label)
         /\ unpack4 (s_roi self) = Raise e
         /\ single_getitem P self idx hs
            = (Raise e, hs ++ [seeked P vpath start]))
  \/ (exists vpath start label x1 y1 x2 y2 c,
         py_index (s_samples self) idx = Ok (vpath, start, label)
         /\ unpack4 (s_roi self) = Ok (x1, y1, x2, y2)
         /\ cap_opened c = cap_opened (seeked P vpath start)
         /\ single_getitem P self idx hs
            = match omap (fun img => process_frame P img x1 y1 x2 y2)
                      (supplied P vpath start (s_seq_len self)) with
              | Ok ts => (finish (s_transform self) label ts, hs ++ [released c])
              | Raise e => (Raise e, hs ++ [c])
              end).
Proof.
  destruct (py_index (s_samples self) idx) as [[[vpath start] label] | e]
    eqn:Hidx.
  - destruct (unpack4 (s_roi self)) as [[[[x1 y1] x2] y2] | e] eqn:Hroi.
    + right. right.
      destruct (single_getitem_run P self idx hs _ _ _ _ _ _ _ Hidx Hroi)
        as (c & _ & Ho & Hrun).
      exists vpath, start, label, x1, y1, x2, y2, c. auto.
    + right. left. exists vpath, start, label, e.
      repeat split; auto. eapply single_getitem_bad_roi; eauto.
  - left. exists e. split; [reflexivity |].
    now apply getitem_bad_index_single.
Qed.

Lemma finish_label tr label ts seq lab :
  finish tr label ts = Ok (seq, lab) -> lab = F32.of_f64 label.
Proof.
  unfold finish. destruct (torch_stack ts); simpl; [| discriminate].
  destruct (apply_transform tr a); simpl; [| discriminate].
  intros H. now inversion H.
Qed.

Lemma multi_getitem_label P self idx hs seq lab hs' :
  multi_getitem P self idx hs = (Ok (seq, lab), hs') ->
  exists s, In s (m_samples self) /\ py_index (m_samples self) idx = Ok s
            /\ lab = F32.of_f64 (sample_label s).
Proof.
  intros Hget.
  destruct (multi_getitem_cases P self idx hs)
    as [(e & _ & Hr) | [(vp & st & l & roi & e & _ & _ & Hr)
       | (vp & st & l & roi & x1 & y1 & x2 & y2 & c & Hidx & _ & _ & Hr)]];
    rewrite Hr in Hget; try discriminate.
  destruct (omap _ _) as [ts |]; [| discriminate].
  inversion Hget as [[Hfin Hhs]]. apply finish_label in Hfin.
  exists (vp, st, l, roi). split; [eapply py_index_In; eauto |]. auto.
Qed.

Lemma single_getitem_label P self idx hs seq lab hs' :
  single_getitem P self idx hs = (Ok (seq, lab), hs') ->
  exists s, In s (s_samples self) /\ py_index (s_samples self) idx = Ok s
            /\ lab = F32.of_f64 (ssample_label s).
Proof.
  intros Hget.
  destruct (single_getitem_cases P self idx hs)
    as [(e & _ & Hr) | [(vp & st & l & e & _ & _ & Hr)
       | (vp & st & l & x1 & y1 & x2 & y2 & c & Hidx & _ & _ & Hr)]];
    rewrite Hr in Hget; try discriminate.
  destruct (omap _ _) as [ts |]; [| discriminate].
  inversion Hget as [[Hfin Hhs]]. apply finish_label in Hfin.
  exists (vp, st, l). split; [eapply py_index_In; eauto |]. auto.
Qed.

Lemma window_label_cases seq_len rs start :
  window_label seq_len rs start = F64.zero
  \/ window_label seq_len rs start = F64.one.
Proof.
  unfold window_label.
  destruct (label_loop_cases start (start + seq_len - 1) rs); auto.
Qed.

(** X2: every label a constructor stores is the float 0.0 or 1.0, and the
    label tensor returned by an access to a constructed dataset is the
    float32 0.0 or 1.0, whatever transform is installed (the transform
    sees the sequence only). *)
Theorem X2_labels_are_binary (P : Platform) :
  (forall label_dir seq_len default_roi tr hs ds hs',
      multi_init P label_dir seq_len default_roi tr hs = (Ok ds, hs') ->
      (forall s, In s (m_samples ds) ->
                 sample_label s = F64.zero \/ sample_label s = F64.one)
      /\ (forall idx hs1 seq lab hs2,
            multi_getitem P ds idx hs1 = (Ok (seq, lab), hs2) ->
            lab = F32.zero \/ lab = F32.one))
  /\ (forall ann_path seq_len fps roi tr hs ds hs',
        single_init P ann_path seq_len fps roi tr hs = (Ok ds, hs') ->
        (forall s, In s (s_samples ds) ->
                   ssample_label s = F64.zero \/ ssample_label s = F64.one)
        /\ (forall idx hs1 seq lab hs2,
              single_getitem P ds idx hs1 = (Ok (seq, lab), hs2) ->
              lab = F32.zero \/ lab = F32.one)).
Proof.
  split.
  - intros label_dir seq_len default_roi tr hs ds hs' Hinit.
    assert (forall s, In s (m_samples ds) ->
                      sample_label s = F64.zero \/ sample_label s = F64.one)
      as Hbin.
    { intros s Hin.
      destruct (multi_sample_facts _ _ _ _ _ _ _ _ _ Hinit Hin)
        as (p & rs & _ & _ & _ & -> & _).
      apply window_label_cases. }
    split; [exact Hbin |].
    intros idx hs1 seq lab hs2 Hget.
    destruct (multi_getitem_label _ _ _ _ _ _ _ Hget) as (s & Hin & _ & ->).
    destruct (Hbin s Hin) as [-> | ->].
    + left. apply f32_of_label_zero.
    + right. apply f32_of_label_one.
  - intros ann_path seq_len fps roi tr hs ds hs' Hinit.
    assert (forall s, In s (s_samples ds) ->
                      ssample_label s = F64.zero \/ ssample_label s = F64.one)
      as Hbin.
    { intros s Hin.
      destruct (single_sample_facts _ _ _ _ _ _ _ _ _ _ Hinit Hin)
        as (rs & _ & _ & -> & _).
      apply window_label_cases. }
    split; [exact Hbin |].
    intros idx hs1 seq lab hs2 Hget.
    destruct (single_getitem_label _ _ _ _ _ _ _ Hget) as (s & Hin & _ & ->).
    destruct (Hbin s Hin) as [-> | ->].
    + left. apply f32_of_label_zero.
    + right. apply f32_of_label_one.
Qed.

Lemma X2_labels_witness :
  ((forall s, In s (m_samples (fst demo_multi_run)) ->
              sample_label s = F64.zero \/ sample_label s = F64.one)
   /\ (forall idx hs1 seq lab hs2,
         multi_getitem Demo.platform (fst demo_multi_run) idx hs1
         = (Ok (seq, lab), hs2) ->
         lab = F32.zero \/ lab = F32.one))
  /\ ((forall s, In s (s_samples (fst demo_single_run)) ->
                 ssample_label s = F64.zero \/ ssample_label s = F64.one)
      /\ (forall idx hs1 seq lab hs2,
            single_getitem Demo.platform (fst demo_single_run) idx hs1
            = (Ok (seq, lab), hs2) ->
            lab = F32.zero \/ lab = F32.one)).
Proof.
  split.
  - apply (proj1 (X2_labels_are_binary Demo.platform)
             "/data/label"%string 8 Demo.default_roi None []
             (fst demo_multi_run) (snd demo_multi_run)).
    vm_compute. reflexivity.
  - apply (proj2 (X2_labels_are_binary Demo.platform)
             "/data/label/B.json"%string 8 8 Demo.roi2x2 None []
             (fst demo_single_run) (snd demo_single_run)).
    vm_compute. reflexivity.
Defined.

(** ** Indexing a dataset *)

Lemma py_index_out_of_range {A} (l : list A) idx :
  idx < - Z.of_nat (List.length l) \/ Z.of_nat (List.length l) <= idx ->
  py_index l idx = Raise IndexError.
Proof.
  intros H. unfold py_index.
  destruct (Z.ltb_spec idx 0).
  - destruct (Z.leb_spec 0 (idx + Z.of_nat (List.length l))); [| reflexivity].
    destruct (Z.ltb_spec (idx + Z.of_nat (List.length l))
                (Z.of_nat (List.length l))); simpl; [lia | reflexivity].
  - destruct (Z.leb_spec 0 idx); [| reflexivity].
    destruct (Z.ltb_spec idx (Z.of_nat (List.length l))); simpl;
      [lia | reflexivity].
Qed.

Lemma py_index_negative {A} (l : list A) idx :
  - Z.of_nat (List.length l) <= idx < 0 ->
  py_index l idx = py_index l (idx + Z.of_nat (List.length l)).
Proof.
  intros H. unfold py_index.
  destruct (Z.ltb_spec idx 0); [| lia].
  destruct (Z.ltb_spec (idx + Z.of_nat (List.length l)) 0); [lia |].
  reflexivity.
Qed.

Lemma multi_getitem_index_ext P self i j hs :
  py_index (m_samples self) i = py_index (m_samples self) j ->
  multi_getitem P self i hs = multi_getitem P self j hs.
Proof. intros H. unfold multi_getitem, bind, lift. now rewrite H. Qed.

Lemma single_getitem_index_ext P self i j hs :
  py_index (s_samples self) i = py_index (s_samples self) j ->
  single_getitem P self i hs = single_getitem P self j hs.
Proof. intros H. unfold single_getitem, bind, lift. now rewrite H. Qed.

(** X3: [__getitem__] indexes [self.samples] the Python way.  An index
    outside [-len, len) raises [IndexError] before any decoder handle is
    opened, and a negative index in range is the access at [idx + len]. *)
Theorem X3_index_semantics (P : Platform) :
  (forall self idx hs,
      idx < - multi_len self \/ multi_len self <= idx ->
      multi_getitem P self idx hs = (Raise IndexError, hs))
  /\ (forall self idx hs,
        - multi_len self <= idx < 0 ->
        multi_getitem P self idx hs
        = multi_getitem P self (idx + multi_len self) hs)
  /\ (forall self idx hs,
        idx < - single_len self \/ single_len self <= idx ->
        single_getitem P self idx hs = (Raise IndexError, hs))
  /\ (forall self idx hs,
        - single_len self <= idx < 0 ->
        single_getitem P self idx hs
        = single_getitem P self (idx + single_len self) hs).
Proof.
  unfold multi_len, single_len. split; [| split; [| split]].
  - intros self idx hs H. apply getitem_bad_index_multi.
    now apply py_index_out_of_range.
  - intros self idx hs H. apply multi_getitem_index_ext.
    now apply py_index_negative.
  - intros self idx hs H. apply getitem_bad_index_single.
    now apply py_index_out_of_range.
  - intros self idx hs H. apply single_getitem_index_ext.
    now apply py_index_negative.
Qed.

Lemma X3_index_witness :
  multi_getitem Demo.platform (fst demo_multi_run) 12 []
  = (Raise IndexError, [])
  /\ multi_getitem Demo.platform (fst demo_multi_run) (-1) []
     = multi_getitem Demo.platform (fst demo_multi_run)
         (-1 + multi_len (fst demo_multi_run)) []
  /\ single_getitem Demo.platform (fst demo_single_run) (-8) []
     = (Raise IndexError, [])
  /\ single_getitem Demo.platform (fst demo_single_run) (-7) []
     = single_getitem Demo.platform (fst demo_single_run)
         (-7 + single_len (fst demo_single_run)) [].
Proof.
  pose proof (X3_index_semantics Demo.platform) as (H1 & H2 & H3 & H4).
  split; [| split; [| split]].
  - apply H1. vm_compute. right. discriminate.
  - apply H2. vm_compute. split; [discriminate | reflexivity].
  - apply H3. vm_compute. left. reflexivity.
  - apply H4. vm_compute. split; [discriminate | reflexivity].
Defined.

(** ** The layout of the single-video dataset *)

(** X4: when the single-video constructor returns, [__len__] is
    [max(frame_count - seq_len + 1, 0)] for the count reported for the
    derived video, and the sample at index [i] is the derived video path
    with window start [i]; the constructor stores its [seq_len], [fps],
    [roi] and [transform] arguments as given. *)
Theorem X4_single_layout (P : Platform) (ann_path : string)
  (seq_len fps : Z) (roi : list json) (tr : transform_t)
  (hs hs' : handles) (ds : SingleVideoAnomalyDataset) :
  single_init P ann_path seq_len fps roi tr hs = (Ok ds, hs') ->
  single_len ds
  = Z.max 0 (reported_frames P (single_video_path P ann_path) - seq_len + 1)
  /\ (forall i, 0 <= i < single_len ds ->
        exists label,
          py_index (s_samples ds) i
          = Ok (single_video_path P ann_path, i, label))
  /\ s_seq_len ds = seq_len /\ s_fps ds = fps /\ s_roi ds = roi
  /\ s_transform ds = tr.
Proof.
  rewrite single_init_run.
  destruct (json_load P ann_path) as [item |]; [| discriminate].
  destruct (load_event_frame P item) as [rs |]; [| discriminate].
  intros H. inversion H; subst; clear H. unfold single_len. simpl.
  rewrite length_map.
  split; [apply sample_indexer_length |].
  split; [| auto].
  intros i Hi. rewrite sample_indexer_length in Hi.
  exists (window_label seq_len rs i).
  replace i with (Z.of_nat (Z.to_nat i)) at 1 by lia.
  apply py_index_nonneg.
  rewrite nth_error_map, sample_indexer_eq, nth_error_map.
  rewrite py_range_nth by lia. simpl.
  now replace (Z.of_nat (Z.to_nat i)) with i by lia.
Qed.

Lemma X4_single_layout_witness :
  single_len (fst demo_single_run)
  = Z.max 0 (reported_frames Demo.platform
               (single_video_path Demo.platform "/data/label/B.json") - 8 + 1)
  /\ (forall i, 0 <= i < single_len (fst demo_single_run) ->
        exists label,
          py_index (s_samples (fst demo_single_run)) i
          = Ok (single_video_path Demo.platform "/data/label/B.json", i, label))
  /\ s_seq_len (fst demo_single_run) = 8
  /\ s_fps (fst demo_single_run) = 8
  /\ s_roi (fst demo_single_run) = Demo.roi2x2
  /\ s_transform (fst demo_single_run) = None.
Proof.
  apply (X4_single_layout Demo.platform "/data/label/B.json" 8 8 Demo.roi2x2
           None [] (snd demo_single_run) (fst demo_single_run)).
  vm_compute. reflexivity.
Defined.

(** ** Handles opened by the constructors *)

Lemma open_handles_closed hs caps :
  Forall (fun c => cap_opened c = false) caps ->
  open_handles (hs ++ caps) = open_handles hs.
Proof.
  intros Hc. unfold open_handles. rewrite filter_app, length_app.
  replace (filter cap_opened caps) with (@nil Capture); [simpl; lia |].
  induction Hc as [| c caps Hc _ IH]; simpl; [reflexivity |].
  now rewrite Hc.
Qed.

Lemma multi_file_handles P seq_len default_roi video_dir samples ann_path hs :
  exists caps,
    snd (multi_file P seq_len default_roi video_dir samples ann_path hs)
    = hs ++ caps
    /\ Forall (fun c => cap_opened c = false) caps
    /\ (List.length caps <= 1)%nat.
Proof.
  unfold multi_file, bind, lift.
  destruct (json_load P ann_path) as [item |];
    [| exists []; simpl; rewrite app_nil_r; auto].
  destruct (load_roi item default_roi) as [roi |];
    [| exists []; simpl; rewrite app_nil_r; auto].
  destruct (load_event_frame P item) as [rs |];
    [| exists []; simpl; rewrite app_nil_r; auto].
  rewrite query_frame_count_run. simpl.
  exists [closed_capture P (derive_vpath P video_dir ann_path)].
  split; [reflexivity |]. split; [| simpl; lia].
  constructor; [reflexivity | constructor].
Qed.

Lemma multi_files_handles P seq_len default_roi video_dir paths :
  forall samples hs,
  exists caps,
    snd (multi_files P seq_len default_roi video_dir paths samples hs)
    = hs ++ caps
    /\ Forall (fun c => cap_opened c = false) caps
    /\ (List.length caps <= List.length paths)%nat.
Proof.
  induction paths as [| p paths IH]; intros samples hs; simpl.
  - exists []. simpl. rewrite app_nil_r. auto.
  - destruct (multi_file_handles P seq_len default_roi video_dir samples p hs)
      as (caps1 & H1 & Hc1 & Hl1).
    unfold bind at 1.
    destruct (multi_file P seq_len default_roi video_dir samples p hs)
      as [[s1 | e] hs1]; simpl in H1; subst hs1.
    + destruct (IH s1 (hs ++ caps1)) as (caps2 & H2 & Hc2 & Hl2).
      exists (caps1 ++ caps2). rewrite H2, app_assoc.
      split; [reflexivity |]. split; [now apply Forall_app |].
      rewrite length_app. lia.
    + exists caps1. simpl. split; [reflexivity |]. split; [assumption | lia].
Qed.

(** X5: the frame-count queries of the constructors release every handle
    they open, on the raising paths too: either constructor leaves the
    handles that existed before untouched and adds only released ones (at
    most one per annotation file), so the number of open handles is the
    same before and after. *)
Theorem X5_constructors_release_handles (P : Platform) :
  (forall label_dir seq_len default_roi tr hs,
      exists caps,
        snd (multi_init P label_dir seq_len default_roi tr hs) = hs ++ caps
        /\ Forall (fun c => cap_opened c = false) caps
        /\ (List.length caps <= List.length (multi_json_paths P label_dir))%nat
        /\ open_handles (snd (multi_init P label_dir seq_len default_roi tr hs))
           = open_handles hs)
  /\ (forall ann_path seq_len fps roi tr hs,
        exists caps,
          snd (single_init P ann_path seq_len fps roi tr hs) = hs ++ caps
          /\ Forall (fun c => cap_opened c = false) caps
          /\ (List.length caps <= 1)%nat
          /\ open_handles (snd (single_init P ann_path seq_len fps roi tr hs))
             = open_handles hs).
Proof.
  split.
  - intros label_dir seq_len default_roi tr hs.
    unfold multi_init. fold (multi_json_paths P label_dir).
    destruct (multi_files_handles P seq_len default_roi
                (os_path_join P (os_path_dirname P label_dir) "video")
                (multi_json_paths P label_dir) [] hs)
      as (caps & Hs & Hc & Hl).
    exists caps. unfold bind.
    destruct (multi_files _ _ _ _ _ _ _) as [[samples | e] hs1];
      simpl in *; subst hs1;
      (split; [reflexivity |]; split; [assumption |]; split; [assumption |];
       now apply open_handles_closed).
  - intros ann_path seq_len fps roi tr hs. rewrite single_init_run.
    destruct (json_load P ann_path) as [item |].
    + exists [closed_capture P (single_video_path P ann_path)].
      assert (Forall (fun c => cap_opened c = false)
                [closed_capture P (single_video_path P ann_path)]) as Hc
          by (constructor; [reflexivity | constructor]).
      destruct (load_event_frame P item); simpl;
        (split; [reflexivity |]; split; [assumption |]; split; [lia |];
         now apply open_handles_closed).
    + exists []. simpl. rewrite app_nil_r. auto.
Qed.

(** ** A video that is not there *)

(** X6: an annotation whose video file is missing is not an error.  With
    [seq_len >= 1] the single-video constructor returns an empty dataset,
    on which every access raises [IndexError], and in the multi-video
    constructor the file contributes no sample. *)
Theorem X6_missing_video_gives_no_samples (P : Platform) (seq_len : Z) :
  1 <= seq_len ->
  (forall ann_path fps roi tr hs item rs,
      json_load P ann_path = Ok item ->
      load_event_frame P item = Ok rs ->
      fs_video P (single_video_path P ann_path) = None ->
      exists ds hs',
        single_init P ann_path seq_len fps roi tr hs = (Ok ds, hs')
        /\ s_samples ds = []
        /\ single_len ds = 0
        /\ forall idx hs1,
             single_getitem P ds idx hs1 = (Raise IndexError, hs1))
  /\ (forall default_roi video_dir samples ann_path hs item roi rs,
        json_load P ann_path = Ok item ->
        load_roi item default_roi = Ok roi ->
        load_event_frame P item = Ok rs ->
        fs_video P (derive_vpath P video_dir ann_path) = None ->
        fst (multi_file P seq_len default_roi video_dir samples ann_path hs)
        = Ok samples).
Proof.
  intros Hsl. split.
  - intros ann_path fps roi tr hs item rs Hitem Hrs Hv.
    rewrite single_init_run, Hitem, Hrs.
    eexists. eexists. split; [reflexivity |].
    assert (sample_indexer
              (reported_frames P (single_video_path P ann_path)) seq_len rs
            = []) as He.
    { apply length_zero_iff_nil.
      pose proof (sample_indexer_length
                    (reported_frames P (single_video_path P ann_path))
                    seq_len rs) as Hl.
      unfold reported_frames in *. rewrite Hv in *. lia. }
    unfold single_len. cbn [s_samples]. rewrite He. simpl.
    split; [reflexivity |]. split; [reflexivity |].
    intros idx hs1. apply getitem_bad_index_single.
    apply py_index_out_of_range. simpl. lia.
  - intros default_roi video_dir samples ann_path hs item roi rs
      Hitem Hroi Hrs Hv.
    unfold multi_file, bind, lift. rewrite Hitem, Hroi, Hrs.
    rewrite query_frame_count_run. simpl.
    rewrite index_windows_indexer.
    replace (sample_indexer _ _ _) with (@nil (Z * spec_float));
      [simpl; now rewrite app_nil_r |].
    symmetry. apply length_zero_iff_nil.
    pose proof (sample_indexer_length
                  (reported_frames P (derive_vpath P video_dir ann_path))
                  seq_len rs) as Hl.
    unfold reported_frames in *. rewrite Hv in *. lia.
Qed.

Lemma X6_missing_video_witness :
  (exists ds hs',
      single_init honest_platform "/data/label/B.json" 8 8 Demo.roi2x2 None []
      = (Ok ds, hs')
      /\ s_samples ds = []
      /\ single_len ds = 0
      /\ forall idx hs1,
           single_getitem honest_platform ds idx hs1 = (Raise IndexError, hs1))
  /\ fst (multi_file honest_platform 8 Demo.default_roi "/data/video" []
            "/data/label/B.json" [])
     = Ok [].
Proof.
  assert (1 <= 8) as H8 by lia.
  pose proof (X6_missing_video_gives_no_samples honest_platform 8 H8)
    as (Hs & Hm).
  split.
  - apply (Hs "/data/label/B.json"%string 8 Demo.roi2x2 None []
             Demo.recordB [(1, 2)]); reflexivity.
  - apply (Hm Demo.default_roi "/data/video"%string [] "/data/label/B.json"%string
             [] Demo.recordB Demo.default_roi [(1, 2)]); reflexivity.
Defined.

(** ** Labels and sets of ranges *)

(** X7: the label of a window over two lists of event ranges put together
    is 1.0 exactly when it is 1.0 over one of them, and 0.0 exactly when
    it is 0.0 over both: annotating more events never turns an anomalous
    window into a normal one. *)
Theorem X7_label_of_joined_ranges (seq_len : Z) (rs1 rs2 : list (Z * Z))
  (start : Z) :
  (window_label seq_len (rs1 ++ rs2) start = F64.one <->
     window_label seq_len rs1 start = F64.one
     \/ window_label seq_len rs2 start = F64.one)
  /\ (window_label seq_len (rs1 ++ rs2) start = F64.zero <->
        window_label seq_len rs1 start = F64.zero
        /\ window_label seq_len rs2 start = F64.zero).
Proof.
  unfold window_label. rewrite !label_loop_existsb, existsb_app.
  pose proof one_neq_zero as Hne.
  destruct (existsb _ rs1), (existsb _ rs2); simpl; split; split;
    try tauto; try (intros [H | H]; congruence);
    try (intros [H1 H2]; congruence); intros H; try congruence;
    exfalso; apply Hne; congruence.
Qed.

(** ** Accesses do not depend on one another *)

(** X8: what an access returns or raises does not depend on the handle
    table it starts from, so not on earlier accesses either; and an access
    extends the table by at most one entry, never touching the handles
    that were there. *)
Theorem X8_access_is_stateless (P : Platform) :
  (forall self idx hs1 hs2,
      fst (multi_getitem P self idx hs1) = fst (multi_getitem P self idx hs2))
  /\ (forall self idx hs,
        exists caps,
          snd (multi_getitem P self idx hs) = hs ++ caps
          /\ (List.length caps <= 1)%nat)
  /\ (forall self idx hs1 hs2,
        fst (single_getitem P self idx hs1)
        = fst (single_getitem P self idx hs2))
  /\ (forall self idx hs,
        exists caps,
          snd (single_getitem P self idx hs) = hs ++ caps
          /\ (List.length caps <= 1)%nat).
Proof.
  split; [| split; [| split]].
  - intros self idx hs1 hs2.
    destruct (multi_getitem_cases P self idx hs1)
      as [(e & Hi & Hr) | [(vp & st & l & roi & e & Hi & Hu & Hr)
         | (vp & st & l & roi & x1 & y1 & x2 & y2 & c & Hi & Hu & _ & Hr)]];
      destruct (multi_getitem_cases P self idx hs2)
      as [(e' & Hi' & Hr') | [(vp' & st' & l' & roi' & e' & Hi' & Hu' & Hr')
         | (vp' & st' & l' & roi' & x1' & y1' & x2' & y2' & c' & Hi' & Hu'
            & _ & Hr')]];
      rewrite Hr, Hr'; rewrite Hi in Hi'; try discriminate;
      inversion Hi'; subst; try rewrite Hu in Hu'; try discriminate;
      try (inversion Hu'; subst); try reflexivity.
    destruct (omap _ _); reflexivity.
  - intros self idx hs.
    destruct (multi_getitem_cases P self idx hs)
      as [(e & Hi & Hr) | [(vp & st & l & roi & e & Hi & Hu & Hr)
         | (vp & st & l & roi & x1 & y1 & x2 & y2 & c & Hi & Hu & _ & Hr)]];
      rewrite Hr.
    + exists []. simpl. rewrite app_nil_r. auto.
    + exists []. simpl. rewrite app_nil_r. auto.
    + destruct (omap _ _); eexists; simpl; split; try reflexivity; simpl; lia.
  - intros self idx hs1 hs2.
    destruct (single_getitem_cases P self idx hs1)
      as [(e & Hi & Hr) | [(vp & st & l & e & Hi & Hu & Hr)
         | (vp & st & l & x1 & y1 & x2 & y2 & c & Hi & Hu & _ & Hr)]];
      destruct (single_getitem_cases P self idx hs2)
      as [(e' & Hi' & Hr') | [(vp' & st' & l' & e' & Hi' & Hu' & Hr')
         | (vp' & st' & l' & x1' & y1' & x2' & y2' & c' & Hi' & Hu'
            & _ & Hr')]];
      rewrite Hr, Hr'; rewrite Hi in Hi'; try discriminate;
      inversion Hi'; subst; try rewrite Hu in Hu'; try discriminate;
      try (inversion Hu'; subst); try reflexivity.
    destruct (omap _ _); reflexivity.
  - intros self idx hs.
    destruct (single_getitem_cases P self idx hs)
      as [(e & Hi & Hr) | [(vp & st & l & e & Hi & Hu & Hr)
         | (vp & st & l & x1 & y1 & x2 & y2 & c & Hi & Hu & _ & Hr)]];
      rewrite Hr.
    + exists []. simpl. rewrite app_nil_r. auto.
    + eexists. simpl. split; [reflexivity | simpl; lia].
    + destruct (omap _ _); eexists; simpl; split; try reflexivity; simpl; lia.
Qed.

(** ** The crop *)

Lemma py_slice_length {A} (l : list A) a b :
  0 <= a -> 0 <= b ->
  List.length (py_slice (Some a) (Some b) l)
  = Z.to_nat (Z.min b (Z.of_nat (List.length l))
              - Z.min a (Z.of_nat (List.length l))).
Proof.
  intros Ha Hb. unfold py_slice, slice_bound.
  destruct (Z.ltb_spec a 0); [lia |]. destruct (Z.ltb_spec b 0); [lia |].
  rewrite length_firstn, length_skipn. lia.
Qed.

Lemma py_slice_nth {A} (l : list A) a b i :
  0 <= a -> 0 <= b ->
  (i < List.length (py_slice (Some a) (Some b) l))%nat ->
  nth_error (py_slice (Some a) (Some b) l) i = nth_error l (Z.to_nat a + i).
Proof.
  intros Ha Hb Hi. rewrite py_slice_length in Hi by assumption.
  unfold py_slice, slice_bound.
  destruct (Z.ltb_spec a 0); [lia |]. destruct (Z.ltb_spec b 0); [lia |].
  rewrite nth_error_firstn, nth_error_skipn.
  destruct (Nat.ltb_spec i
              (Z.to_nat (Z.min b (Z.of_nat (List.length l))
                         - Z.min a (Z.of_nat (List.length l))))); [| lia].
  f_equal. lia.
Qed.

Lemma has_shape2_empty {A} r c (m : list (list A)) :
  has_shape2 r c m = true ->
  match m with
  | [] => true
  | [] :: _ => true
  | _ => false
  end = ((r =? 0)%nat || (c =? 0)%nat).
Proof.
  unfold has_shape2. rewrite andb_true_iff. intros [Hr Hc].
  apply Nat.eqb_eq in Hr. destruct m as [| row m]; simpl in *.
  - subst r. reflexivity.
  - apply andb_true_iff in Hc. destruct Hc as [Hc _]. apply Nat.eqb_eq in Hc.
    subst r c. destruct row; reflexivity.
Qed.

(** X9: on an H x W frame, an ROI with non-negative integer bounds crops
    without error to the part of the rectangle that lies inside the frame:
    the crop has [min(y2,H) - min(y1,H)] rows and [min(x2,W) - min(x1,W)]
    columns (none when a difference is negative), its pixel (i, j) is the
    frame's pixel (y1 + i, x1 + j), and it is empty, which is what makes
    [cv2.resize] raise, exactly when one of the two counts is zero. *)
Theorem X9_crop_is_clipped_to_frame (img : image) (H W : nat)
  (x1 y1 x2 y2 : Z) :
  has_shape2 H W img = true ->
  0 <= x1 -> 0 <= y1 -> 0 <= x2 -> 0 <= y2 ->
  exists crop,
    crop_roi img (JInt x1) (JInt y1) (JInt x2) (JInt y2) = Ok crop
    /\ has_shape2
         (Z.to_nat (Z.min y2 (Z.of_nat H) - Z.min y1 (Z.of_nat H)))
         (Z.to_nat (Z.min x2 (Z.of_nat W) - Z.min x1 (Z.of_nat W)))
         crop = true
    /\ (img_empty crop = true <->
          Z.min y2 (Z.of_nat H) <= Z.min y1 (Z.of_nat H)
          \/ Z.min x2 (Z.of_nat W) <= Z.min x1 (Z.of_nat W))
    /\ (forall i j row p,
          nth_error crop i = Some row -> nth_error row j = Some p ->
          exists frame_row,
            nth_error img (Z.to_nat y1 + i) = Some frame_row
            /\ nth_error frame_row (Z.to_nat x1 + j) = Some p).
Proof.
  intros Hshape Hx1 Hy1 Hx2 Hy2.
  assert (List.length img = H
          /\ forall row, In row img -> List.length row = W) as [HH HW].
  { unfold has_shape2 in Hshape. apply andb_true_iff in Hshape.
    destruct Hshape as [Hl Hr]. apply Nat.eqb_eq in Hl. split; [exact Hl |].
    intros row Hin. rewrite forallb_forall in Hr. now apply Nat.eqb_eq, Hr. }
  assert (forall row, In row (py_slice (Some y1) (Some y2) img) -> In row img)
    as Hsub.
  { intros row Hin. unfold py_slice in Hin.
    apply In_nth_error in Hin. destruct Hin as (i & Hi).
    rewrite nth_error_firstn, nth_error_skipn in Hi.
    destruct (i <? _)%nat; [| discriminate].
    eapply nth_error_In; eauto. }
  eexists. split; [reflexivity |].
  assert (has_shape2
            (Z.to_nat (Z.min y2 (Z.of_nat H) - Z.min y1 (Z.of_nat H)))
            (Z.to_nat (Z.min x2 (Z.of_nat W) - Z.min x1 (Z.of_nat W)))
            (map (py_slice (Some x1) (Some x2))
               (py_slice (Some y1) (Some y2) img)) = true) as Hcrop.
  { unfold has_shape2. rewrite length_map, py_slice_length, HH by assumption.
    rewrite Nat.eqb_refl. cbn [andb]. apply forallb_forall.
    intros r Hin. apply in_map_iff in Hin. destruct Hin as (row & <- & Hin).
    rewrite py_slice_length, (HW row (Hsub row Hin)) by assumption.
    apply Nat.eqb_refl. }
  split; [exact Hcrop |]. split.
  - unfold img_empty. rewrite (has_shape2_empty _ _ _ Hcrop).
    rewrite orb_true_iff, !Nat.eqb_eq. lia.
  - intros i j row p Hrow Hp.
    rewrite nth_error_map in Hrow.
    destruct (nth_error (py_slice (Some y1) (Some y2) img) i)
      as [frame_row |] eqn:Hfr; [| discriminate].
    inversion Hrow; subst row. exists frame_row.
    assert (i < List.length (py_slice (Some y1) (Some y2) img))%nat as Hi
        by (apply nth_error_Some; congruence).
    rewrite py_slice_nth in Hfr by assumption. split; [exact Hfr |].
    assert (j < List.length (py_slice (Some x1) (Some x2) frame_row))%nat as Hj
        by (apply nth_error_Some; congruence).
    now rewrite py_slice_nth in Hp by assumption.
Qed.

(** The default ROI (1150, 300, 1600, 700) on the 2 x 2 frame: the clipped
    rectangle has no rows and no columns. *)
Lemma X9_crop_witness :
  exists crop,
    crop_roi Demo.frame2x2 (JInt 1150) (JInt 300) (JInt 1600) (JInt 700)
    = Ok crop
    /\ has_shape2
         (Z.to_nat (Z.min 700 (Z.of_nat 2) - Z.min 300 (Z.of_nat 2)))
         (Z.to_nat (Z.min 1600 (Z.of_nat 2) - Z.min 1150 (Z.of_nat 2)))
         crop = true
    /\ (img_empty crop = true <->
          Z.min 700 (Z.of_nat 2) <= Z.min 300 (Z.of_nat 2)
          \/ Z.min 1600 (Z.of_nat 2) <= Z.min 1150 (Z.of_nat 2))
    /\ (forall i j row p,
          nth_error crop i = Some row -> nth_error row j = Some p ->
          exists frame_row,
            nth_error Demo.frame2x2 (Z.to_nat 300 + i) = Some frame_row
            /\ nth_error frame_row (Z.to_nat 1150 + j) = Some p).
Proof.
  apply (X9_crop_is_clipped_to_frame Demo.frame2x2 2 2 1150 300 1600 700);
    [reflexivity | lia | lia | lia | lia].
Defined.

(** ** An ROI that is not four values *)

Lemma unpack4_arity roi :
  List.length roi <> 4%nat -> unpack4 roi = Raise ValueError.
Proof.
  intros H. destruct roi as [| a [| b [| c [| d [| e roi]]]]]; simpl in *;
    try reflexivity. congruence.
Qed.

(** X10: an ROI tuple that does not hold exactly four values is found at
    access time only.  In the multi-video dataset the access raises
    [ValueError] before a handle is opened; in the single-video dataset it
    raises [ValueError] after the handle was opened and positioned, and
    the handle stays open when the video exists. *)
Theorem X10_roi_arity_error (P : Platform) :
  (forall self idx hs vpath start label roi,
      py_index (m_samples self) idx = Ok (vpath, start, label, roi) ->
      List.length roi <> 4%nat ->
      multi_getitem P self idx hs = (Raise ValueError, hs))
  /\ (forall self idx hs vpath start label,
        py_index (s_samples self) idx = Ok (vpath, start, label) ->
        List.length (s_roi self) <> 4%nat ->
        single_getitem P self idx hs
        = (Raise ValueError, hs ++ [seeked P vpath start])
        /\ open_handles (snd (single_getitem P self idx hs))
           = (open_handles hs
              + match fs_video P vpath with Some _ => 1 | None => 0 end)%nat).
Proof.
  split.
  - intros self idx hs vpath start label roi Hidx Hlen.
    eapply multi_getitem_bad_roi; eauto. now apply unpack4_arity.
  - intros self idx hs vpath start label Hidx Hlen.
    rewrite (single_getitem_bad_roi P self idx hs _ _ _ _ Hidx
               (unpack4_arity _ Hlen)).
    split; [reflexivity |]. simpl. rewrite open_handles_snoc. simpl.
    now destruct (fs_video P vpath).
Qed.

Lemma X10_roi_arity_witness :
  multi_getitem Demo.platform (fst demo_multi_roi3) 5 []
  = (Raise ValueError, [])
  /\ (single_getitem Demo.platform (fst demo_single_roi3) 0 []
      = (Raise ValueError, [] ++ [seeked Demo.platform "/data/video/B.mp4" 0])
      /\ open_handles
           (snd (single_getitem Demo.platform (fst demo_single_roi3) 0 []))
         = (open_handles []
            + match fs_video Demo.platform "/data/video/B.mp4" with
              | Some _ => 1
              | None => 0
              end)%nat).
Proof.
  split.
  - apply (proj1 (X10_roi_arity_error Demo.platform) (fst demo_multi_roi3) 5 []
             "/data/video/B.mp4"%string 0 F64.one roi3).
    + vm_compute. reflexivity.
    + vm_compute. discriminate.
  - apply (proj2 (X10_roi_arity_error Demo.platform) (fst demo_single_roi3) 0 []
             "/data/video/B.mp4"%string 0 F64.one).
    + vm_compute. reflexivity.
    + vm_compute. discriminate.
Defined.

Example demo_roi3_built :
  multi_init Demo.platform "/data/label" 8 roi3 None []
  = (Ok (fst demo_multi_roi3), snd demo_multi_roi3)
  /\ single_init Demo.platform "/data/label/B.json" 8 8 roi3 None []
     = (Ok (fst demo_single_roi3), snd demo_single_roi3)
  /\ single_init Demo.platform "/data/label/B.json" 0 8 Demo.roi2x2 None []
     = (Ok (fst demo_single_len0), snd demo_single_len0)
  /\ multi_init honest_platform "/data/label" 8 Demo.roi2x2 None []
     = (Ok (fst honest_multi_run), snd honest_multi_run)
  /\ single_init honest_platform "/data/label/A.json" 8 8 Demo.roi2x2 None []
     = (Ok (fst honest_single_run), snd honest_single_run).
Proof. vm_compute. repeat split; reflexivity. Qed.

(** ** The transform *)

(** X11: the transform is applied once, last, to the stacked sequence
    only.  For two datasets that differ in nothing but the transform, one
    having none and the other having [f], an access to the second gives
    what the first gives with [f] applied to the sequence: the same error
    when the first raises, the error of [f] when [f] raises, the same
    label, and the same handle table. *)
Theorem X11_transform_is_applied_last (P : Platform)
  (f : tensor4 -> outcome tensor4) :
  (forall self self2 idx hs,
      m_samples self2 = m_samples self ->
      m_seq_len self2 = m_seq_len self ->
      m_transform self = None ->
      m_transform self2 = Some f ->
      multi_getitem P self2 idx hs
      = (then_transform f (fst (multi_getitem P self idx hs)),
         snd (multi_getitem P self idx hs)))
  /\ (forall self self2 idx hs,
        s_samples self2 = s_samples self ->
        s_seq_len self2 = s_seq_len self ->
        s_roi self2 = s_roi self ->
        s_transform self = None ->
        s_transform self2 = Some f ->
        single_getitem P self2 idx hs
        = (then_transform f (fst (single_getitem P self idx hs)),
           snd (single_getitem P self idx hs))).
Proof.
  split.
  - intros self self2 idx hs Hs Hl Hn Hf.
    unfold multi_getitem, bind, lift. rewrite Hs, Hl, Hn, Hf.
    destruct (py_index (m_samples self) idx) as [[[[vp st] l] roi] |];
      [| reflexivity].
    destruct (unpack4 roi) as [[[[x1 y1] x2] y2] |]; [| reflexivity].
    destruct (VideoCapture P vp hs) as [[cap | e] hs1]; [| reflexivity].
    destruct (cap_set_pos cap st hs1) as [[u | e] hs2]; [| reflexivity].
    destruct (read_loop P cap x1 y1 x2 y2 (Z.to_nat (m_seq_len self)) [] hs2)
      as [[fr | e] hs3]; [| reflexivity].
    destruct (cap_release cap hs3) as [[u2 | e] hs4]; [| reflexivity].
    destruct (torch_stack fr) as [seq |]; [| reflexivity].
    unfold ret, then_transform. simpl.
    destruct (f seq); reflexivity.
  - intros self self2 idx hs Hs Hl Hr Hn Hf.
    unfold single_getitem, bind, lift. rewrite Hs, Hl, Hr, Hn, Hf.
    destruct (py_index (s_samples self) idx) as [[[vp st] l] |];
      [| reflexivity].
    destruct (VideoCapture P vp hs) as [[cap | e] hs1]; [| reflexivity].
    destruct (cap_set_pos cap st hs1) as [[u | e] hs2]; [| reflexivity].
    destruct (unpack4 (s_roi self)) as [[[[x1 y1] x2] y2] |]; [| reflexivity].
    destruct (read_loop P cap x1 y1 x2 y2 (Z.to_nat (s_seq_len self)) [] hs2)
      as [[fr | e] hs3]; [| reflexivity].
    destruct (cap_release cap hs3) as [[u2 | e] hs4]; [| reflexivity].
    destruct (torch_stack fr) as [seq |]; [| reflexivity].
    unfold ret, then_transform. simpl.
    destruct (f seq); reflexivity.
Qed.

Lemma X11_transform_witness :
  multi_getitem Demo.platform demo_multi_subsampled 0 []
  = (then_transform keep_four
       (fst (multi_getitem Demo.platform (fst demo_multi_run) 0 [])),
     snd (multi_getitem Demo.platform (fst demo_multi_run) 0 [])).
Proof.
  apply (proj1 (X11_transform_is_applied_last Demo.platform keep_four)
           (fst demo_multi_run) demo_multi_subsampled 0 []);
    reflexivity.
Defined.

(** ** A sequence length that is not positive *)

Lemma supplied_nonpos P vpath start seq_len :
  seq_len <= 0 -> supplied P vpath start seq_len = [].
Proof.
  intros H. unfold supplied, frames_from.
  replace (Z.to_nat seq_len) with 0%nat by lia.
  destruct (cap_src _); [| reflexivity].
  now destruct (cap_opened _ && _).
Qed.

Lemma finish_empty tr label : finish tr label [] = Raise RuntimeError.
Proof. reflexivity. Qed.

(** X12: [seq_len] is not validated.  With [seq_len <= 0] the read loop
    does not run, so every access whose index is valid and whose ROI
    unpacks raises the [RuntimeError] of [torch.stack] on an empty list,
    with the handle it opened released. *)
Theorem X12_nonpositive_seq_len (P : Platform) :
  (forall self idx hs vpath start label roi x1 y1 x2 y2,
      m_seq_len self <= 0 ->
      py_index (m_samples self) idx = Ok (vpath, start, label, roi) ->
      unpack4 roi = Ok (x1, y1, x2, y2) ->
      fst (multi_getitem P self idx hs) = Raise RuntimeError
      /\ open_handles (snd (multi_getitem P self idx hs)) = open_handles hs)
  /\ (forall self idx hs vpath start label x1 y1 x2 y2,
        s_seq_len self <= 0 ->
        py_index (s_samples self) idx = Ok (vpath, start, label) ->
        unpack4 (s_roi self) = Ok (x1, y1, x2, y2) ->
        fst (single_getitem P self idx hs) = Raise RuntimeError
        /\ open_handles (snd (single_getitem P self idx hs)) = open_handles hs).
Proof.
  split.
  - intros self idx hs vpath start label roi x1 y1 x2 y2 Hsl Hidx Hroi.
    destruct (multi_getitem_run P self idx hs _ _ _ _ _ _ _ _ Hidx Hroi)
      as (c & _ & _ & Hrun).
    rewrite (supplied_nonpos P vpath start _ Hsl) in Hrun. simpl in Hrun.
    rewrite Hrun, finish_empty. simpl. split; [reflexivity |].
    rewrite open_handles_snoc. simpl. lia.
  - intros self idx hs vpath start label x1 y1 x2 y2 Hsl Hidx Hroi.
    destruct (single_getitem_run P self idx hs _ _ _ _ _ _ _ Hidx Hroi)
      as (c & _ & _ & Hrun).
    rewrite (supplied_nonpos P vpath start _ Hsl) in Hrun. simpl in Hrun.
    rewrite Hrun, finish_empty. simpl. split; [reflexivity |].
    rewrite open_handles_snoc. simpl. lia.
Qed.

(** With [seq_len = 0] the constructor indexes 15 windows of the video
    that reports 14 frames; the access at index 0 is the witness. *)
Lemma X12_nonpositive_witness :
  fst (single_getitem Demo.platform (fst demo_single_len0) 0 [])
  = Raise RuntimeError
  /\ open_handles (snd (single_getitem Demo.platform (fst demo_single_len0) 0 []))
     = open_handles [].
Proof.
  apply (proj2 (X12_nonpositive_seq_len Demo.platform)
           (fst demo_single_len0) 0 [] "/data/video/B.mp4"%string 0 F64.zero
           (JInt 0) (JInt 0) (JInt 2) (JInt 2)).
  - vm_compute. discriminate.
  - vm_compute. reflexivity.
  - reflexivity.
Defined.

(** ** A decoder whose frame count is exact *)

Lemma honest_can_supply P vpath start seq_len :
  honest_decoder P -> 1 <= seq_len ->
  0 <= start < reported_frames P vpath - seq_len + 1 ->
  can_supply P vpath start seq_len.
Proof.
  intros Hh Hsl Hr. unfold reported_frames in Hr. unfold can_supply.
  destruct (fs_video P vpath) as [v |] eqn:Hv; [| lia].
  exists v. rewrite <- (Hh vpath v Hv). repeat split; lia.
Qed.

(** X13: when every video decodes exactly the frames its container
    reports and [seq_len >= 1], every sample a constructor stores can be
    read in full: the decoder supplies [seq_len] frames from the sample's
    start, so short reads do not occur on a constructed dataset. *)
Theorem X13_exact_decoder_gives_full_reads (P : Platform) (seq_len : Z) :
  honest_decoder P ->
  1 <= seq_len ->
  (forall label_dir default_roi tr hs ds hs' s,
      multi_init P label_dir seq_len default_roi tr hs = (Ok ds, hs') ->
      In s (m_samples ds) ->
      can_supply P (sample_video s) (sample_start s) (m_seq_len ds)
      /\ List.length (supplied P (sample_video s) (sample_start s) (m_seq_len ds))
         = Z.to_nat (m_seq_len ds))
  /\ (forall ann_path fps roi tr hs ds hs' s,
        single_init P ann_path seq_len fps roi tr hs = (Ok ds, hs') ->
        In s (s_samples ds) ->
        can_supply P (ssample_video s) (ssample_start s) (s_seq_len ds)
        /\ List.length
             (supplied P (ssample_video s) (ssample_start s) (s_seq_len ds))
           = Z.to_nat (s_seq_len ds)).
Proof.
  intros Hh Hsl. split.
  - intros label_dir default_roi tr hs ds hs' s Hinit Hin.
    destruct (multi_sample_facts _ _ _ _ _ _ _ _ _ Hinit Hin)
      as (p & rs & _ & _ & Hr & _ & ->).
    assert (can_supply P (sample_video s) (sample_start s) seq_len) as Hc
        by now apply honest_can_supply.
    split; [exact Hc | now apply supplied_full].
  - intros ann_path fps roi tr hs ds hs' s Hinit Hin.
    destruct (single_sample_facts _ _ _ _ _ _ _ _ _ _ Hinit Hin)
      as (rs & Hv & Hr & _ & ->).
    rewrite <- Hv in Hr.
    assert (can_supply P (ssample_video s) (ssample_start s) seq_len) as Hc
        by now apply honest_can_supply.
    split; [exact Hc | now apply supplied_full].
Qed.

Lemma honest_platform_is_honest : honest_decoder honest_platform.
Proof.
  intros vpath v. unfold honest_platform. simpl.
  destruct (String.eqb vpath "/data/video/A.mp4"); [| discriminate].
  intros H. inversion H. reflexivity.
Qed.

Lemma X13_exact_decoder_witness :
  (can_supply honest_platform
     (sample_video ("/data/video/A.mp4"%string, 4, F64.one, Demo.roi2x2))
     (sample_start ("/data/video/A.mp4"%string, 4, F64.one, Demo.roi2x2))
     (m_seq_len (fst honest_multi_run))
   /\ List.length
        (supplied honest_platform
           (sample_video ("/data/video/A.mp4"%string, 4, F64.one, Demo.roi2x2))
           (sample_start ("/data/video/A.mp4"%string, 4, F64.one, Demo.roi2x2))
           (m_seq_len (fst honest_multi_run)))
      = Z.to_nat (m_seq_len (fst honest_multi_run)))
  /\ (can_supply honest_platform
        (ssample_video ("/data/video/A.mp4"%string, 4, F64.one))
        (ssample_start ("/data/video/A.mp4"%string, 4, F64.one))
        (s_seq_len (fst honest_single_run))
      /\ List.length
           (supplied honest_platform
              (ssample_video ("/data/video/A.mp4"%string, 4, F64.one))
              (ssample_start ("/data/video/A.mp4"%string, 4, F64.one))
              (s_seq_len (fst honest_single_run)))
         = Z.to_nat (s_seq_len (fst honest_single_run))).
Proof.
  assert (1 <= 8) as H8 by lia.
  pose proof (X13_exact_decoder_gives_full_reads honest_platform 8
                honest_platform_is_honest H8) as (Hm & Hs).
  split.
  - apply (Hm "/data/label"%string Demo.roi2x2 None []
             (fst honest_multi_run) (snd honest_multi_run)).
    + vm_compute. reflexivity.
    + vm_compute. do 4 right. left. reflexivity.
  - apply (Hs "/data/label/A.json"%string 8 Demo.roi2x2 None []
             (fst honest_single_run) (snd honest_single_run)).
    + vm_compute. reflexivity.
    + vm_compute. do 4 right. left. reflexivity.
Defined.

(** ** Constructor and access together *)

Lemma py_index_in_range {A} (l : list A) idx :
  - Z.of_nat (List.length l) <= idx < Z.of_nat (List.length l) ->
  exists x, py_index l idx = Ok x.
Proof.
  intros H. unfold py_index.
  destruct (Z.ltb_spec idx 0).
  - destruct (Z.leb_spec 0 (idx + Z.of_nat (List.length l))); [| lia].
    destruct (Z.ltb_spec (idx + Z.of_nat (List.length l))
                (Z.of_nat (List.length l))); [| lia].
    simpl.
    destruct (nth_error l (Z.to_nat (idx + Z.of_nat (List.length l))))
      as [x |] eqn:Hn; [eauto |].
    apply nth_error_None in Hn. lia.
  - destruct (Z.leb_spec 0 idx); [| lia].
    destruct (Z.ltb_spec idx (Z.of_nat (List.length l))); [| lia].
    simpl. destruct (nth_error l (Z.to_nat idx)) as [x |] eqn:Hn; [eauto |].
    apply nth_error_None in Hn. lia.
Qed.

Lemma supplied_incl P vpath start seq_len v img :
  fs_video P vpath = Some v ->
  In img (supplied P vpath start seq_len) -> In img (frames v).
Proof.
  intros Hv. unfold supplied, frames_from, seeked.
  cbn [cap_src cap_pos cap_opened]. rewrite Hv.
  destruct (true && (0 <=? start)); [| contradiction].
  intros Hin. apply In_nth_error in Hin. destruct Hin as (i & Hi).
  rewrite nth_error_firstn, nth_error_skipn in Hi.
  destruct (i <? _)%nat; [| discriminate].
  eapply nth_error_In; eauto.
Qed.

Lemma multi_init_transform P label_dir seq_len default_roi tr hs ds hs' :
  multi_init P label_dir seq_len default_roi tr hs = (Ok ds, hs') ->
  m_transform ds = tr /\ m_default_roi ds = default_roi.
Proof.
  unfold multi_init, bind.
  destruct (multi_files _ _ _ _ _ _ _) as [[samples | e] hs1];
    [| discriminate].
  unfold ret. intros H. inversion H; subst. auto.
Qed.

(** X14: constructor and access together.  On a platform whose decoder is
    exact and whose resize returns 256 x 256 patches, for a dataset built
    without a transform and with [seq_len >= 1], whose ROIs unpack into
    four bounds and crop every frame of their video to a non-empty patch:
    every index in [-len, len) returns a sequence of shape
    (seq_len, 3, 256, 256) with all elements in [0, 1] and a label that
    is the float32 0.0 or 1.0, and leaves no handle open. *)
Theorem X14_every_sample_is_readable (P : Platform) (seq_len : Z) :
  honest_decoder P ->
  interp_contract P ->
  1 <= seq_len ->
  (forall label_dir default_roi hs ds hs',
      multi_init P label_dir seq_len default_roi None hs = (Ok ds, hs') ->
      (forall s, In s (m_samples ds) ->
         exists x1 y1 x2 y2,
           unpack4 (sample_roi s) = Ok (x1, y1, x2, y2)
           /\ forall v, fs_video P (sample_video s) = Some v ->
                        Forall (croppable x1 y1 x2 y2) (frames v)) ->
      forall idx hs1,
        - multi_len ds <= idx < multi_len ds ->
        exists seq lab hs2,
          multi_getitem P ds idx hs1 = (Ok (seq, lab), hs2)
          /\ has_shape4 (Z.to_nat seq_len) 3 256 256 seq = true
          /\ all_in_unit_interval seq = true
          /\ (lab = F32.zero \/ lab = F32.one)
          /\ open_handles hs2 = open_handles hs1)
  /\ (forall ann_path fps roi hs ds hs' x1 y1 x2 y2,
        single_init P ann_path seq_len fps roi None hs = (Ok ds, hs') ->
        unpack4 roi = Ok (x1, y1, x2, y2) ->
        (forall v, fs_video P (single_video_path P ann_path) = Some v ->
                   Forall (croppable x1 y1 x2 y2) (frames v)) ->
        forall idx hs1,
          - single_len ds <= idx < single_len ds ->
          exists seq lab hs2,
            single_getitem P ds idx hs1 = (Ok (seq, lab), hs2)
            /\ has_shape4 (Z.to_nat seq_len) 3 256 256 seq = true
            /\ all_in_unit_interval seq = true
            /\ (lab = F32.zero \/ lab = F32.one)
            /\ open_handles hs2 = open_handles hs1).
Proof.
  intros Hh Hi Hsl. split.
  - intros label_dir default_roi hs ds hs' Hinit Hrois idx hs1 Hidx.
    destruct (py_index_in_range (m_samples ds) idx Hidx)
      as ([[[vp st] l] roi] & Hs).
    pose proof (py_index_In _ _ _ Hs) as Hin.
    destruct (Hrois _ Hin) as (x1 & y1 & x2 & y2 & Hu & Hcrop).
    destruct (multi_sample_facts _ _ _ _ _ _ _ _ _ Hinit Hin)
      as (p & rs & _ & _ & Hr & Hlab & Hlen).
    unfold sample_video, sample_start, sample_label, sample_roi in *.
    simpl in *.
    pose proof (honest_can_supply P vp st seq_len Hh Hsl Hr) as Hcan.
    pose proof (supplied_full _ _ _ _ Hcan) as Hk.
    destruct Hcan as (v & Hv & _).
    assert (Forall (croppable x1 y1 x2 y2) (supplied P vp st seq_len)) as Hcr.
    { apply Forall_forall. intros img Himg.
      pose proof (Hcrop v Hv) as Hall. rewrite Forall_forall in Hall.
      apply Hall. eapply supplied_incl; eauto. }
    destruct (multi_init_transform _ _ _ _ _ _ _ _ Hinit) as [Htr _].
    destruct (multi_extractor_spec P ds idx vp st l roi Hi Htr Hs)
      as (_ & _ & Hret & Htot).
    rewrite Hlen in *.
    destruct (Htot hs1 x1 y1 x2 y2 Hu Hcr) as (seq & hs2 & Hrun); [lia |].
    destruct (Hret _ _ _ _ Hrun) as (Hsh & Hun & _).
    exists seq, (F32.of_f64 l), hs2. split; [exact Hrun |].
    rewrite Hk in Hsh. split; [exact Hsh |]. split; [exact Hun |]. split.
    + rewrite Hlab.
      destruct (window_label_cases seq_len rs st) as [-> | ->];
        [left; apply f32_of_label_zero | right; apply f32_of_label_one].
    + assert (Forall (croppable x1 y1 x2 y2)
                (supplied P vp st (m_seq_len ds))) as Hcr2
          by (rewrite Hlen; exact Hcr).
      destruct (multi_getitem_releases P ds idx hs1 _ _ _ _ _ _ _ _ Hs Hu Hcr2)
        as (c & _ & _ & Ho).
      now rewrite Hrun in Ho.
  - intros ann_path fps roi hs ds hs' x1 y1 x2 y2 Hinit Hu Hcrop idx hs1 Hidx.
    destruct (py_index_in_range (s_samples ds) idx Hidx)
      as ([[vp st] l] & Hs).
    pose proof (py_index_In _ _ _ Hs) as Hin.
    destruct (single_sample_facts _ _ _ _ _ _ _ _ _ _ Hinit Hin)
      as (rs & Hvp & Hr & Hlab & Hlen).
    destruct (single_init_roi _ _ _ _ _ _ _ _ _ Hinit) as (Hroi & _ & _).
    unfold ssample_video, ssample_start, ssample_label in *. simpl in *.
    subst vp.
    pose proof (honest_can_supply P _ st seq_len Hh Hsl Hr) as Hcan.
    pose proof (supplied_full _ _ _ _ Hcan) as Hk.
    destruct Hcan as (v & Hv & _).
    assert (Forall (croppable x1 y1 x2 y2)
              (supplied P (single_video_path P ann_path) st seq_len)) as Hcr.
    { apply Forall_forall. intros img Himg.
      pose proof (Hcrop v Hv) as Hall. rewrite Forall_forall in Hall.
      apply Hall. eapply supplied_incl; eauto. }
    assert (s_transform ds = None) as Htr.
    { rewrite single_init_run in Hinit.
      destruct (json_load P ann_path) as [item |]; [| discriminate].
      destruct (load_event_frame P item); [| discriminate].
      inversion Hinit. reflexivity. }
    destruct (single_extractor_spec P ds idx _ st l Hi Htr Hs)
      as (_ & _ & Hret & Htot).
    rewrite Hlen, Hroi in *.
    destruct (Htot hs1 x1 y1 x2 y2 Hu Hcr) as (seq & hs2 & Hrun); [lia |].
    destruct (Hret _ _ _ _ Hrun) as (Hsh & Hun & _).
    exists seq, (F32.of_f64 l), hs2. split; [exact Hrun |].
    rewrite Hk in Hsh. split; [exact Hsh |]. split; [exact Hun |]. split.
    + rewrite Hlab.
      destruct (window_label_cases seq_len rs st) as [-> | ->];
        [left; apply f32_of_label_zero | right; apply f32_of_label_one].
    + assert (unpack4 (s_roi ds) = Ok (x1, y1, x2, y2)) as Hu2
          by (rewrite Hroi; exact Hu).
      assert (Forall (croppable x1 y1 x2 y2)
                (supplied P (single_video_path P ann_path) st (s_seq_len ds)))
        as Hcr2 by (rewrite Hlen; exact Hcr).
      destruct (single_getitem_releases P ds idx hs1 _ _ _ _ _ _ _ Hs Hu2 Hcr2)
        as (c & _ & _ & Ho).
      now rewrite Hrun in Ho.
Qed.

Lemma X14_readable_witness :
  (forall idx hs1,
      - multi_len (fst honest_multi_run) <= idx < multi_len (fst honest_multi_run) ->
      exists seq lab hs2,
        multi_getitem honest_platform (fst honest_multi_run) idx hs1
        = (Ok (seq, lab), hs2)
        /\ has_shape4 (Z.to_nat 8) 3 256 256 seq = true
        /\ all_in_unit_interval seq = true
        /\ (lab = F32.zero \/ lab = F32.one)
        /\ open_handles hs2 = open_handles hs1)
  /\ (forall idx hs1,
        - single_len (fst honest_single_run) <= idx
          < single_len (fst honest_single_run) ->
        exists seq lab hs2,
          single_getitem honest_platform (fst honest_single_run) idx hs1
          = (Ok (seq, lab), hs2)
          /\ has_shape4 (Z.to_nat 8) 3 256 256 seq = true
          /\ all_in_unit_interval seq = true
          /\ (lab = F32.zero \/ lab = F32.one)
          /\ open_handles hs2 = open_handles hs1).
Proof.
  assert (1 <= 8) as H8 by lia.
  pose proof (X14_every_sample_is_readable honest_platform 8
                honest_platform_is_honest nearest_resize_contract H8)
    as (Hm & Hs).
  split.
  - apply (Hm "/data/label"%string Demo.roi2x2 []
             (fst honest_multi_run) (snd honest_multi_run)).
    + vm_compute. reflexivity.
    + intros s Hin. exists (JInt 0), (JInt 0), (JInt 2), (JInt 2).
      vm_compute in Hin.
      destruct Hin as [<- | [<- | [<- | [<- | [<- | []]]]]];
        (split; [reflexivity |]);
        intros v Hv; vm_compute in Hv; inversion Hv;
        exact (demo_croppable 12).
  - apply (Hs "/data/label/A.json"%string 8 Demo.roi2x2 []
             (fst honest_single_run) (snd honest_single_run)
             (JInt 0) (JInt 0) (JInt 2) (JInt 2)).
    + vm_compute. reflexivity.
    + reflexivity.
    + intros v Hv. vm_compute in Hv. inversion Hv. exact (demo_croppable 12).
Defined.

(** ** An ROI bound that is not an integer *)

Lemma crop_roi_type_error img x1 y1 x2 y2 :
  is_ok (as_index x1) && is_ok (as_index y1)
  && is_ok (as_index x2) && is_ok (as_index y2) = false ->
  crop_roi img x1 y1 x2 y2 = Raise TypeError.
Proof.
  unfold crop_roi.
  destruct x1, y1, x2, y2; simpl; try reflexivity; discriminate.
Qed.

(** X15: the bounds of an ROI are not checked when the record is loaded.
    When one of the four is neither an integer nor null (a JSON float,
    say), every access that gets at least one frame from the decoder
    raises [TypeError] at the crop of the first frame and leaves the handle
    it opened open. *)
Theorem X15_roi_bound_type_error (P : Platform) :
  (forall self idx hs vpath start label roi x1 y1 x2 y2 img rest,
      py_index (m_samples self) idx = Ok (vpath, start, label, roi) ->
      unpack4 roi = Ok (x1, y1, x2, y2) ->
      is_ok (as_index x1) && is_ok (as_index y1)
      && is_ok (as_index x2) && is_ok (as_index y2) = false ->
      supplied P vpath start (m_seq_len self) = img :: rest ->
      fst (multi_getitem P self idx hs) = Raise TypeError
      /\ open_handles (snd (multi_getitem P self idx hs))
         = S (open_handles hs))
  /\ (forall self idx hs vpath start label x1 y1 x2 y2 img rest,
        py_index (s_samples self) idx = Ok (vpath, start, label) ->
        unpack4 (s_roi self) = Ok (x1, y1, x2, y2) ->
        is_ok (as_index x1) && is_ok (as_index y1)
        && is_ok (as_index x2) && is_ok (as_index y2) = false ->
        supplied P vpath start (s_seq_len self) = img :: rest ->
        fst (single_getitem P self idx hs) = Raise TypeError
        /\ open_handles (snd (single_getitem P self idx hs))
           = S (open_handles hs)).
Proof.
  assert (forall vpath start n img rest,
             supplied P vpath start n = img :: rest ->
             cap_opened (seeked P vpath start) = true) as Hopen.
  { intros vpath start n img rest. unfold supplied, frames_from, seeked.
    cbn [cap_src cap_pos cap_opened].
    destruct (fs_video P vpath); [reflexivity | discriminate]. }
  split.
  - intros self idx hs vpath start label roi x1 y1 x2 y2 img rest
      Hidx Hroi Hbad Hsup.
    destruct (multi_getitem_run P self idx hs _ _ _ _ _ _ _ _ Hidx Hroi)
      as (c & _ & Ho & Hrun).
    rewrite Hsup in Hrun. simpl in Hrun. unfold process_frame in Hrun.
    rewrite (crop_roi_type_error img _ _ _ _ Hbad) in Hrun. simpl in Hrun.
    rewrite Hrun. simpl. split; [reflexivity |].
    rewrite open_handles_snoc, Ho, (Hopen _ _ _ _ _ Hsup). lia.
  - intros self idx hs vpath start label x1 y1 x2 y2 img rest
      Hidx Hroi Hbad Hsup.
    destruct (single_getitem_run P self idx hs _ _ _ _ _ _ _ Hidx Hroi)
      as (c & _ & Ho & Hrun).
    rewrite Hsup in Hrun. simpl in Hrun. unfold process_frame in Hrun.
    rewrite (crop_roi_type_error img _ _ _ _ Hbad) in Hrun. simpl in Hrun.
    rewrite Hrun. simpl. split; [reflexivity |].
    rewrite open_handles_snoc, Ho, (Hopen _ _ _ _ _ Hsup). lia.
Qed.

Example demo_float_roi_built :
  multi_init Demo.platform "/data/label" 8 float_roi None []
  = (Ok (fst demo_multi_float_roi), snd demo_multi_float_roi).
Proof. vm_compute. reflexivity. Qed.

(** Sample 5 is the first window of [B.mp4], whose record has no [roi]. *)
Lemma X15_roi_bound_witness :
  fst (multi_getitem Demo.platform (fst demo_multi_float_roi) 5 [])
  = Raise TypeError
  /\ open_handles
       (snd (multi_getitem Demo.platform (fst demo_multi_float_roi) 5 []))
     = S (open_handles []).
Proof.
  apply (proj1 (X15_roi_bound_type_error Demo.platform)
           (fst demo_multi_float_roi) 5 [] "/data/video/B.mp4"%string 0
           F64.one float_roi
           (JFloat F64.zero) (JFloat F64.zero)
           (JFloat (F64.of_Z 2)) (JFloat (F64.of_Z 2))
           Demo.frame2x2 (repeat Demo.frame2x2 3)).
  - vm_compute. reflexivity.
  - reflexivity.
  - reflexivity.
  - vm_compute. reflexivity.
Defined.

(** ** The order of the annotation files *)

Lemma multi_file_split P seq_len default_roi video_dir samples ann_path hs :
  fst (multi_file P seq_len default_roi video_dir samples ann_path hs)
  = outcome_map (fun b => samples ++ b)
      (file_samples P seq_len default_roi video_dir ann_path).
Proof.
  unfold file_samples, multi_file, bind, lift.
  destruct (json_load P ann_path) as [item |]; [| reflexivity].
  destruct (load_roi item default_roi) as [roi |]; [| reflexivity].
  destruct (load_event_frame P item) as [rs |]; [| reflexivity].
  rewrite !query_frame_count_run. simpl.
  now rewrite !index_windows_indexer.
Qed.

Lemma multi_files_split P seq_len default_roi video_dir paths :
  forall samples hs,
    fst (multi_files P seq_len default_roi video_dir paths samples hs)
    = outcome_map (fun bs => samples ++ concat bs)
        (omap (file_samples P seq_len default_roi video_dir) paths).
Proof.
  induction paths as [| p paths IH]; intros samples hs; simpl.
  - now rewrite app_nil_r.
  - unfold bind at 1.
    pose proof (multi_file_split P seq_len default_roi video_dir samples p hs)
      as Hf.
    destruct (multi_file P seq_len default_roi video_dir samples p hs)
      as [[s1 | e] hs1]; simpl in Hf;
      destruct (file_samples P seq_len default_roi video_dir p) as [b | e'];
      simpl in Hf; try discriminate.
    + inversion Hf; subst s1. rewrite IH. simpl.
      destruct (omap _ paths); simpl; [| reflexivity].
      now rewrite app_assoc.
    + simpl. exact Hf.
Qed.

Lemma omap_Permutation {A B} (f : A -> outcome B) l l' :
  Permutation l l' ->
  forall ys, omap f l = Ok ys ->
  exists ys', omap f l' = Ok ys' /\ Permutation ys ys'.
Proof.
  induction 1 as [| x l l' Hp IH | x y l | l l' l'' Hp1 IH1 Hp2 IH2];
    intros ys Hys.
  - exists ys. auto.
  - simpl in *. destruct (f x) as [b |]; simpl in *; [| discriminate].
    destruct (omap f l) as [ys0 |]; simpl in *; [| discriminate].
    inversion Hys; subst. destruct (IH ys0 eq_refl) as (ys0' & -> & Hperm).
    simpl. eauto.
  - simpl in *. destruct (f y) as [b |]; simpl in *; [| discriminate].
    destruct (f x) as [a |]; simpl in *; [| discriminate].
    destruct (omap f l) as [ys0 |]; simpl in *; [| discriminate].
    inversion Hys; subst. eexists. split; [reflexivity | apply perm_swap].
  - destruct (IH1 ys Hys) as (ys1 & H1 & P1).
    destruct (IH2 ys1 H1) as (ys2 & H2 & P2).
    exists ys2. split; [exact H2 | eapply Permutation_trans; eauto].
Qed.

Lemma concat_Permutation {A} (bs bs' : list (list A)) :
  Permutation bs bs' -> Permutation (concat bs) (concat bs').
Proof.
  induction 1; simpl.
  - constructor.
  - now apply Permutation_app_head.
  - rewrite !app_assoc. apply Permutation_app_tail, Permutation_app_comm.
  - eapply Permutation_trans; eauto.
Qed.

(** X16: the loop over the annotation files appends in the order of the
    file list, and that order decides nothing but the indices: run on a
    reordered list of the same files, the loop succeeds again and collects
    the same samples with the same multiplicities, so the dataset has the
    same length. *)
Theorem X16_file_order_permutes_samples (P : Platform) (seq_len : Z)
  (default_roi : list json) (video_dir : string)
  (paths paths' : list string) (hs hs' : handles) (samples : list msample) :
  Permutation paths paths' ->
  fst (multi_files P seq_len default_roi video_dir paths [] hs) = Ok samples ->
  exists samples',
    fst (multi_files P seq_len default_roi video_dir paths' [] hs') = Ok samples'
    /\ Permutation samples samples'
    /\ List.length samples' = List.length samples.
Proof.
  intros Hperm Hrun. rewrite multi_files_split in *.
  destruct (omap (file_samples P seq_len default_roi video_dir) paths)
    as [bs |] eqn:Hbs; [| discriminate].
  simpl in Hrun. inversion Hrun; subst samples.
  destruct (omap_Permutation _ _ _ Hperm bs Hbs) as (bs' & -> & Hp).
  simpl. exists (concat bs'). split; [reflexivity |].
  pose proof (concat_Permutation _ _ Hp) as Hc.
  split; [exact Hc |]. symmetry. now apply Permutation_length.
Qed.

Lemma X16_file_order_witness :
  exists samples',
    fst (multi_files Demo.platform 8 Demo.default_roi "/data/video"
           ["/data/label/B.json"; "/data/label/A.json"]%string [] [])
    = Ok samples'
    /\ Permutation (m_samples (fst demo_multi_run)) samples'
    /\ List.length samples' = List.length (m_samples (fst demo_multi_run)).
Proof.
  apply (X16_file_order_permutes_samples Demo.platform 8 Demo.default_roi
           "/data/video"
           ["/data/label/A.json"; "/data/label/B.json"]%string
           ["/data/label/B.json"; "/data/label/A.json"]%string [] []).
  - apply perm_swap.
  - vm_compute. reflexivity.
Defined.

(* ================================================================== *)
(** * The indexing loop inside the constructors *)

Lemma windows_spec_range {S} (start_of : S -> Z) (mk : Z -> S)
  frame_count seq_len :
  (forall i, start_of (mk i) = i) ->
  windows_spec start_of frame_count seq_len
    (map mk (py_range 0 (frame_count - seq_len + 1))).
Proof.
  intros Hmk.
  assert (map start_of (map mk (py_range 0 (frame_count - seq_len + 1)))
          = py_range 0 (frame_count - seq_len + 1)) as Hstarts.
  { rewrite map_map. rewrite <- (map_id (py_range _ _)) at 2.
    apply map_ext. exact Hmk. }
  split.
  - intros Hpos Hle. rewrite Hstarts. split; [| split].
    + rewrite length_map, py_range_length. lia.
    + intros i Hi. rewrite py_range_nth by lia. f_equal. lia.
    + apply py_range_sorted.
  - intros Hlt. apply length_zero_iff_nil.
    rewrite length_map, py_range_length. lia.
Qed.

Lemma tagged_indexer_windows {S} (start_of : S -> Z)
  (tag : Z * spec_float -> S) frame_count seq_len rs :
  (forall p, start_of (tag p) = fst p) ->
  windows_spec start_of frame_count seq_len
    (map tag (sample_indexer frame_count seq_len rs)).
Proof.
  intros Htag. rewrite sample_indexer_eq, map_map.
  apply windows_spec_range. intros i. now rewrite Htag.
Qed.

Lemma indexer_label_spec frame_count seq_len rs start label :
  In (start, label) (sample_indexer frame_count seq_len rs) ->
  (forall s e, In (s, e) rs -> s <= e) ->
  0 < seq_len ->
  label_spec seq_len rs start label.
Proof. intros. eapply indexer_label_iff_overlap; eauto. Qed.

Lemma multi_file_loaded P label_dir seq_len default_roi samples ann_path
  hs r hs' :
  multi_file P seq_len default_roi (multi_video_dir P label_dir)
    samples ann_path hs = (Ok r, hs') ->
  exists b, r = samples ++ b
            /\ loaded_block P label_dir seq_len default_roi ann_path b.
Proof.
  unfold multi_file, bind, lift.
  destruct (json_load P ann_path) as [item |] eqn:Hitem; [| discriminate].
  destruct (load_roi item default_roi) as [roi |] eqn:Hroi; [| discriminate].
  destruct (load_event_frame P item) as [rs |] eqn:Hrs; [| discriminate].
  rewrite query_frame_count_run. unfold ret. intros H. inversion H; subst.
  rewrite index_windows_indexer. eexists. split; [reflexivity |].
  exists item, roi, rs. auto.
Qed.

Lemma multi_files_loaded P label_dir seq_len default_roi paths :
  forall samples hs r hs',
    multi_files P seq_len default_roi (multi_video_dir P label_dir)
      paths samples hs = (Ok r, hs') ->
    exists blocks,
      r = samples ++ concat blocks /\
      Forall2 (loaded_block P label_dir seq_len default_roi) paths blocks.
Proof.
  induction paths as [| p paths IH]; intros samples hs r hs'; simpl.
  - unfold ret. intros H. inversion H; subst.
    exists []. split; [now rewrite app_nil_r | constructor].
  - unfold bind at 1.
    destruct (multi_file P seq_len default_roi (multi_video_dir P label_dir)
                samples p hs) as [[s1 | e] hs1] eqn:Hf; [| discriminate].
    intros Hrest. apply multi_file_loaded in Hf. destruct Hf as (b & -> & Hb).
    apply IH in Hrest. destruct Hrest as (blocks & -> & Hbl).
    exists (b :: blocks). split; [simpl; now rewrite app_assoc |].
    now constructor.
Qed.

Lemma multi_init_loaded P label_dir seq_len default_roi tr hs ds hs' :
  multi_init P label_dir seq_len default_roi tr hs = (Ok ds, hs') ->
  exists blocks,
    m_samples ds = concat blocks
    /\ Forall2 (loaded_block P label_dir seq_len default_roi)
         (multi_json_paths P label_dir) blocks.
Proof.
  unfold multi_init. fold (multi_json_paths P label_dir).
  fold (multi_video_dir P label_dir). unfold bind at 1.
  destruct (multi_files P seq_len default_roi (multi_video_dir P label_dir)
              (multi_json_paths P label_dir) [] hs)
    as [[samples | e] hs1] eqn:Hrun; [| discriminate].
  unfold ret. intros H. inversion H; subst; clear H. simpl.
  apply multi_files_loaded in Hrun. destruct Hrun as (blocks & -> & Hbl).
  exists blocks. auto.
Qed.

(** C1: the sliding-window loop of either constructor.  For the frame
    count reported for the video: with [0 < seq_len <= frame_count] the
    loop stores exactly [frame_count - seq_len + 1] samples whose starts
    are 0, 1, ..., frame_count - seq_len in strictly increasing order, and
    with [frame_count < seq_len] it stores none and raises nothing.  This
    holds of the (start, label) pairs of the loop itself, of the samples
    of the dataset the single-video constructor returns, and of the block
    of every annotation file in the dataset the multi-video constructor
    returns; a record that loads makes the single-video constructor and
    the multi-video loop body return, whatever the frame count. *)
Theorem C1_indexer_count_and_starts (P : Platform) :
  (forall frame_count seq_len anomaly_frames,
      windows_spec fst frame_count seq_len
        (sample_indexer frame_count seq_len anomaly_frames))
  /\ (forall ann_path seq_len fps roi tr hs ds hs',
        single_init P ann_path seq_len fps roi tr hs = (Ok ds, hs') ->
        windows_spec ssample_start
          (reported_frames P (single_video_path P ann_path)) seq_len
          (s_samples ds))
  /\ (forall label_dir seq_len default_roi tr hs ds hs',
        multi_init P label_dir seq_len default_roi tr hs = (Ok ds, hs') ->
        exists blocks,
          m_samples ds = concat blocks
          /\ Forall2
               (fun ann_path b =>
                  windows_spec sample_start
                    (reported_frames P
                       (derive_vpath P (multi_video_dir P label_dir) ann_path))
                    seq_len b)
               (multi_json_paths P label_dir) blocks)
  /\ (forall ann_path seq_len fps roi tr hs item anomaly_frames,
        json_load P ann_path = Ok item ->
        load_event_frame P item = Ok anomaly_frames ->
        exists ds hs',
          single_init P ann_path seq_len fps roi tr hs = (Ok ds, hs'))
  /\ (forall seq_len default_roi video_dir samples ann_path hs
             item roi anomaly_frames,
        json_load P ann_path = Ok item ->
        load_roi item default_roi = Ok roi ->
        load_event_frame P item = Ok anomaly_frames ->
        exists b hs',
          multi_file P seq_len default_roi video_dir samples ann_path hs
          = (Ok (samples ++ b), hs')
          /\ windows_spec sample_start
               (reported_frames P (derive_vpath P video_dir ann_path))
               seq_len b).
Proof.
  split; [| split; [| split; [| split]]].
  - intros frame_count seq_len rs.
    rewrite <- (map_id (sample_indexer frame_count seq_len rs)).
    now apply tagged_indexer_windows.
  - intros ann_path seq_len fps roi tr hs ds hs'. rewrite single_init_run.
    destruct (json_load P ann_path) as [item |]; [| discriminate].
    destruct (load_event_frame P item) as [rs |]; [| discriminate].
    intros H. inversion H; subst; clear H. cbn [s_samples].
    now apply tagged_indexer_windows.
  - intros label_dir seq_len default_roi tr hs ds hs' Hinit.
    destruct (multi_init_loaded _ _ _ _ _ _ _ _ Hinit) as (blocks & Hs & Hbl).
    exists blocks. split; [exact Hs |].
    eapply Forall2_impl; [| exact Hbl].
    intros p b (item & roi & rs & _ & _ & _ & ->).
    now apply tagged_indexer_windows.
  - intros ann_path seq_len fps roi tr hs item rs Hitem Hrs.
    rewrite single_init_run, Hitem, Hrs. eauto.
  - intros seq_len default_roi video_dir samples ann_path hs item roi rs
      Hitem Hroi Hrs.
    unfold multi_file, bind, lift. rewrite Hitem, Hroi, Hrs.
    rewrite query_frame_count_run. unfold ret.
    rewrite index_windows_indexer. eexists. eexists.
    split; [reflexivity |]. now apply tagged_indexer_windows.
Qed.

(** C1 on the concrete platforms: the loop at [frame_count = 20,
    seq_len = 8] and at [frame_count = 3]; the single-video dataset of
    [B.json], whose video reports 14 frames, and the one built where
    [B.mp4] is missing; the multi-video dataset of [/data/label]. *)
Lemma C1_indexer_witness :
  (Z.of_nat (List.length (sample_indexer 20 8 [(5, 9)])) = 20 - 8 + 1
   /\ (forall i, 0 <= i <= 20 - 8 ->
         nth_error (map fst (sample_indexer 20 8 [(5, 9)])) (Z.to_nat i)
         = Some i)
   /\ StronglySorted Z.lt (map fst (sample_indexer 20 8 [(5, 9)])))
  /\ sample_indexer 3 8 [(5, 9)] = []
  /\ (Z.of_nat (List.length (s_samples (fst demo_single_run)))
      = reported_frames Demo.platform
          (single_video_path Demo.platform "/data/label/B.json") - 8 + 1
      /\ (forall i,
            0 <= i <= reported_frames Demo.platform
                        (single_video_path Demo.platform "/data/label/B.json")
                      - 8 ->
            nth_error (map ssample_start (s_samples (fst demo_single_run)))
              (Z.to_nat i) = Some i)
      /\ StronglySorted Z.lt
           (map ssample_start (s_samples (fst demo_single_run))))
  /\ s_samples (fst honest_single_B_run) = []
  /\ (exists blocks,
        m_samples (fst demo_multi_run) = concat blocks
        /\ Forall2
             (fun ann_path b =>
                windows_spec sample_start
                  (reported_frames Demo.platform
                     (derive_vpath Demo.platform
                        (multi_video_dir Demo.platform "/data/label") ann_path))
                  8 b)
             (multi_json_paths Demo.platform "/data/label") blocks).
Proof.
  split; [| split; [| split; [| split]]].
  - apply (proj1 (proj1 (C1_indexer_count_and_starts Demo.platform)
                    20 8 [(5, 9)])); lia.
  - apply (proj2 (proj1 (C1_indexer_count_and_starts Demo.platform)
                    3 8 [(5, 9)])); lia.
  - apply (proj1 (proj1 (proj2 (C1_indexer_count_and_starts Demo.platform))
                    "/data/label/B.json"%string 8 8 Demo.roi2x2 None []
                    (fst demo_single_run) (snd demo_single_run) eq_refl)).
    + lia.
    + vm_compute. discriminate.
  - apply (proj2 (proj1 (proj2 (C1_indexer_count_and_starts honest_platform))
                    "/data/label/B.json"%string 8 8 Demo.roi2x2 None []
                    (fst honest_single_B_run) (snd honest_single_B_run)
                    eq_refl)).
    vm_compute. reflexivity.
  - apply (proj1 (proj2 (proj2 (C1_indexer_count_and_starts Demo.platform)))
             "/data/label"%string 8 Demo.default_roi None []
             (fst demo_multi_run) (snd demo_multi_run)).
    vm_compute. reflexivity.
Defined.

Example demo_single_count :
  single_len (fst demo_single_run) = 7
  /\ map ssample_start (s_samples (fst demo_single_run)) = py_range 0 7
  /\ single_init honest_platform "/data/label/B.json" 8 8 Demo.roi2x2 None []
     = (Ok (fst honest_single_B_run), snd honest_single_B_run).
Proof. vm_compute. repeat split; reflexivity. Qed.

(** C2: the label of every generated sample.  For event ranges that are
    closed intervals [s <= e] and [seq_len > 0], the label stored with
    window start [start] is 1.0 if and only if the window
    [start, start+seq_len-1] intersects at least one event range under the
    test [not (start+seq_len-1 < s or start > e)], and 0.0 otherwise; a
    window touching a range at a boundary is labelled 1.0, and a window
    overlapping one of several ranges is labelled 1.0 whatever the others
    are.  This holds of the pairs of the loop itself; of every sample of
    the dataset the single-video constructor returns, against the ranges
    loaded from its annotation file; and of every sample of the dataset
    the multi-video constructor returns, against the ranges loaded from
    the annotation file of the sample's video. *)
Theorem C2_label_iff_overlap (P : Platform) :
  (forall frame_count seq_len anomaly_frames start label,
      In (start, label) (sample_indexer frame_count seq_len anomaly_frames) ->
      (forall s e, In (s, e) anomaly_frames -> s <= e) ->
      0 < seq_len ->
      label_spec seq_len anomaly_frames start label)
  /\ (forall ann_path seq_len fps roi tr hs ds hs',
        single_init P ann_path seq_len fps roi tr hs = (Ok ds, hs') ->
        exists item anomaly_frames,
          json_load P ann_path = Ok item
          /\ load_event_frame P item = Ok anomaly_frames
          /\ ((forall s e, In (s, e) anomaly_frames -> s <= e) ->
              0 < seq_len ->
              forall smp, In smp (s_samples ds) ->
                label_spec seq_len anomaly_frames
                  (ssample_start smp) (ssample_label smp)))
  /\ (forall label_dir seq_len default_roi tr hs ds hs',
        multi_init P label_dir seq_len default_roi tr hs = (Ok ds, hs') ->
        forall smp, In smp (m_samples ds) ->
        exists ann_path item anomaly_frames,
          In ann_path (multi_json_paths P label_dir)
          /\ sample_video smp
             = derive_vpath P (multi_video_dir P label_dir) ann_path
          /\ json_load P ann_path = Ok item
          /\ load_event_frame P item = Ok anomaly_frames
          /\ ((forall s e, In (s, e) anomaly_frames -> s <= e) ->
              0 < seq_len ->
              label_spec seq_len anomaly_frames
                (sample_start smp) (sample_label smp))).
Proof.
  split; [| split].
  - intros. eapply indexer_label_spec; eauto.
  - intros ann_path seq_len fps roi tr hs ds hs'. rewrite single_init_run.
    destruct (json_load P ann_path) as [item |]; [| discriminate].
    destruct (load_event_frame P item) as [rs |] eqn:Hrs; [| discriminate].
    intros H. inversion H; subst; clear H. cbn [s_samples].
    exists item, rs. split; [reflexivity |]. split; [exact Hrs |].
    intros Hse Hsl smp Hin. apply in_map_iff in Hin.
    destruct Hin as ([start label] & <- & Hin).
    unfold ssample_start, ssample_label. simpl.
    eapply indexer_label_spec; eauto.
  - intros label_dir seq_len default_roi tr hs ds hs' Hinit smp Hin.
    destruct (multi_init_loaded _ _ _ _ _ _ _ _ Hinit) as (blocks & Hs & Hbl).
    rewrite Hs in Hin.
    destruct (Forall2_concat_In _ _ _ _ Hbl Hin)
      as (p & b & Hp & (item & roi & rs & Hitem & _ & Hrs & ->) & Hx).
    apply in_map_iff in Hx. destruct Hx as ([start label] & <- & Hx).
    exists p, item, rs. unfold sample_video, sample_start, sample_label.
    simpl. repeat (split; [assumption || reflexivity |]).
    intros Hse Hsl. eapply indexer_label_spec; eauto.
Qed.

(** C2 on the concrete platform: the window starting at 9 of the spec's
    scenario, which touches the range [5, 9] at its first frame; the
    samples of the single-video dataset of [B.json], whose range is
    [1, 2]; and sample 9 of the multi-video dataset. *)
Lemma C2_label_witness :
  label_spec 8 [(5, 9)] 9 F64.one
  /\ (forall smp, In smp (s_samples (fst demo_single_run)) ->
        label_spec 8 [(1, 2)] (ssample_start smp) (ssample_label smp))
  /\ (exists ann_path item anomaly_frames,
        In ann_path (multi_json_paths Demo.platform "/data/label")
        /\ sample_video ("/data/video/B.mp4"%string, 4, F64.zero, Demo.default_roi)
           = derive_vpath Demo.platform
               (multi_video_dir Demo.platform "/data/label") ann_path
        /\ json_load Demo.platform ann_path = Ok item
        /\ load_event_frame Demo.platform item = Ok anomaly_frames
        /\ ((forall s e, In (s, e) anomaly_frames -> s <= e) ->
            0 < 8 ->
            label_spec 8 anomaly_frames
              (sample_start
                 ("/data/video/B.mp4"%string, 4, F64.zero, Demo.default_roi))
              (sample_label
                 ("/data/video/B.mp4"%string, 4, F64.zero, Demo.default_roi)))).
Proof.
  pose proof (C2_label_iff_overlap Demo.platform) as (Hloop & Hsingle & Hmulti).
  split; [| split].
  - apply (Hloop 20 8 [(5, 9)] 9 F64.one).
    + vm_compute. do 9 right. left. reflexivity.
    + intros s e [Heq | []]. inversion Heq. lia.
    + lia.
  - destruct (Hsingle "/data/label/B.json"%string 8 8 Demo.roi2x2 None []
                (fst demo_single_run) (snd demo_single_run) eq_refl)
      as (item & rs & Hitem & Hrs & Hspec).
    vm_compute in Hitem. inversion Hitem; subst item.
    vm_compute in Hrs. inversion Hrs; subst rs.
    apply Hspec.
    + intros s e [Heq | []]. inversion Heq. lia.
    + lia.
  - apply (Hmulti "/data/label"%string 8 Demo.default_roi None []
             (fst demo_multi_run) (snd demo_multi_run) eq_refl).
    vm_compute. do 9 right. left. reflexivity.
Defined.
